(** * Task tracker: role-based access and model invariants

    A shallow embedding of the Django/DRF task tracker
    ([apps/tasks], [apps/timelogs]) and the properties its specification
    states about it.

    Layout, following the Python packages:
    - the exception and database-state monad the request handlers run in;
    - [apps/tasks/models.py], [apps/timelogs/models.py]: rows, tables,
      [clean]/[save] hooks and the computed properties;
    - [apps/tasks/permissions.py]: the three object-level policies;
    - [apps/tasks/serializers.py]: task creation and status validation;
    - [apps/tasks/views.py]: querysets, retrieve and the [add_role] action;
    - the theorems, one block per numbered claim of the specification.

    Conventions.  Primary keys, user ids and timestamps are [Z].  A Python
    attribute that may be [None] is an [option].  Decimal columns with two
    decimal places are counted in hundredths.  A Python [float] is an IEEE
    binary64 value of [SpecFloat]. *)

From Stdlib Require Import ZArith List String Ascii Bool Lia DecimalString.
From Stdlib Require Import SpecFloat.
From stdpp Require Import base decidable option list strings gmap.
Import ListNotations.

Open Scope string_scope.
Open Scope Z_scope.

(* ===================================================================== *)
(** * Exceptions and the request monad *)
(* ===================================================================== *)

(** The exceptions the modelled code can raise.  [ValidationError] is
    Django's and DRF's ([400] at the HTTP boundary), [Http404] and
    [PermissionDenied] come from DRF's [get_object], [IntegrityError] from
    the database, [TypeError] from Python's call protocol, [ValueError]
    from relating a row to an instance that was never saved. *)
Inductive exn : Type :=
| ValidationError (messages : list string)
| Http404
| PermissionDenied
| IntegrityError
| TypeError
| ValueError
| DatabaseError.

Inductive result (A : Type) : Type :=
| Ok (a : A)
| Raise (e : exn).
Arguments Ok {A} a.
Arguments Raise {A} e.

(** Python truthiness of a nullable attribute: [None] is falsy, a model
    instance or a [datetime] is truthy. *)
Definition truthy {A} (o : option A) : bool :=
  match o with Some _ => true | None => false end.

(* ===================================================================== *)
(** * Rows ([apps/users/models.py], [apps/tasks/models.py],
      [apps/timelogs/models.py]) *)
(* ===================================================================== *)

Module User.
Record t : Type := mk { pk : Z; is_staff : bool }.
End User.

(** [Task]: the columns the modelled operations read or write.  The date
    and link columns are carried by no operation below and are left out. *)
Module Task.
Record t : Type := mk {
  pk : option Z;
  title : string;
  description : string;
  status : string
}.
Definition with_pk (k : Z) (self : t) : t :=
  mk (Some k) (title self) (description self) (status self).
Definition with_status (s : string) (self : t) : t :=
  mk (pk self) (title self) (description self) s.
End Task.

Module TaskRole.
Record t : Type := mk {
  pk : option Z;
  task : Z;
  user : Z;
  role : string
}.
Definition with_pk (k : Z) (self : t) : t :=
  mk (Some k) (task self) (user self) (role self).
End TaskRole.

Module TaskItem.
Record t : Type := mk {
  pk : option Z;
  task : Z;
  title : string;
  description : string;
  executor : option Z;
  status : string;
  planned_hours : Z;
  order : nat;
  completed_at : option Z
}.
Definition with_pk (k : Z) (self : t) : t :=
  mk (Some k) (task self) (title self) (description self) (executor self)
     (status self) (planned_hours self) (order self) (completed_at self).
Definition with_completed_at (c : option Z) (self : t) : t :=
  mk (pk self) (task self) (title self) (description self) (executor self)
     (status self) (planned_hours self) (order self) c.
End TaskItem.

(** [TimeLog.task_item] is the related object the instance holds (or
    [None]); [task] is the [task_id] column. *)
Module TimeLog.
Record t : Type := mk {
  pk : option Z;
  user : Z;
  task : Z;
  task_item : option TaskItem.t;
  date : Z;
  hours : Z;
  description : string
}.
Definition with_pk (k : Z) (self : t) : t :=
  mk (Some k) (user self) (task self) (task_item self) (date self)
     (hours self) (description self).
End TimeLog.

(* ===================================================================== *)
(** * The database *)
(* ===================================================================== *)

(** One list of rows per table, in insertion order, and the next value of
    each table's auto-increment key. *)
Module DB.
Record t : Type := mk {
  users : list User.t;
  tasks : list Task.t;
  roles : list TaskRole.t;
  items : list TaskItem.t;
  timelogs : list TimeLog.t;
  next_task : Z;
  next_role : Z;
  next_item : Z;
  next_timelog : Z
}.
Definition empty (us : list User.t) : t := mk us [] [] [] [] 1 1 1 1.
End DB.

(** A computation that reads and writes the database and may raise.  A
    raised exception keeps the writes made before it: outside a transaction
    Django commits every statement. *)
Definition M (A : Type) : Type := DB.t -> result A * DB.t.

Definition ret {A} (a : A) : M A := fun db => (Ok a, db).
Definition raise {A} (e : exn) : M A := fun db => (Raise e, db).
Definition bind {A B} (m : M A) (k : A -> M B) : M B :=
  fun db => match m db with
            | (Ok a, db') => k a db'
            | (Raise e, db') => (Raise e, db')
            end.

Notation "x <- m ;; k" := (bind m (fun x => k))
  (at level 100, m at next level, right associativity).
Notation "m ;;; k" := (bind m (fun _ => k))
  (at level 100, right associativity).

(** [@transaction.atomic]: when the body raises, every write it made is
    rolled back and the exception propagates. *)
Definition transaction_atomic {A} (body : M A) : M A :=
  fun db => match body db with
            | (Ok a, db') => (Ok a, db')
            | (Raise e, _) => (Raise e, db)
            end.

(** [for x in xs: body x], stopping at the first exception. *)
Fixpoint for_each {A} (xs : list A) (body : A -> M unit) : M unit :=
  match xs with
  | [] => ret tt
  | x :: rest => body x ;;; for_each rest body
  end.

(** [for idx, x in enumerate(xs): body idx x], counting from [start]. *)
Fixpoint for_enumerate {A} (start : nat) (xs : list A)
    (body : nat -> A -> M unit) : M unit :=
  match xs with
  | [] => ret tt
  | x :: rest => body start x ;;; for_enumerate (S start) rest body
  end.

(* ===================================================================== *)
(** * Python numbers *)
(* ===================================================================== *)

(** What [/], [*] and [round] do on the numbers [progress_percentage]
    handles.  A [float] is an IEEE binary64 value; [int / int] and
    [float * int] are the correctly rounded quotient and product;
    [round(x, ndigits)] converts [x] to the decimal with [ndigits] places
    nearest to its exact binary value, an exact tie going to the even
    last digit, and reads that decimal back as a [float]. *)
Module Py.

Definition float : Type := spec_float.
Definition prec : Z := 53.
Definition emax : Z := 1024.

Inductive number : Type :=
| Int (z : Z)
| Float (x : float).

(** [float(z)] for an [int] of magnitude below [2^53]. *)
Definition float_of_int (z : Z) : float := binary_normalize prec emax z 0 false.

Definition truediv (a b : Z) : float :=
  SFdiv prec emax (float_of_int a) (float_of_int b).

Definition mul (x y : float) : float := SFmul prec emax x y.

(** The integer nearest to [num / den] ([den > 0]), ties to even. *)
Definition div_half_even (num den : Z) : Z :=
  let q := num / den in
  match 2 * (num mod den) ?= den with
  | Lt => q
  | Gt => q + 1
  | Eq => if Z.even q then q else q + 1
  end.

(** The integer nearest to [num / den] ([den > 0]), ties upward. *)
Definition div_half_up (num den : Z) : Z := (2 * num + den) / (2 * den).

(** [|x| * 10^ndigits] as a fraction, for a finite [x = m * 2^e]. *)
Definition scaled (m : positive) (e : Z) (ndigits : nat) : Z * Z :=
  let p := 10 ^ Z.of_nat ndigits in
  if 0 <=? e then (Z.pos m * 2 ^ e * p, 1) else (Z.pos m * p, 2 ^ (- e)).

(** The decimal literal [n / 10^ndigits] read as a [float]. *)
Definition decimal (n : Z) (ndigits : nat) : float :=
  SFdiv prec emax (float_of_int n) (float_of_int (10 ^ Z.of_nat ndigits)).

(** The last-place count [round(x, ndigits)] lands on. *)
Definition round_digits (x : float) (ndigits : nat) : Z :=
  match x with
  | S754_finite s m e =>
      let '(num, den) := scaled m e ndigits in
      let n := div_half_even num den in
      if s then - n else n
  | _ => 0
  end.

Definition round (x : float) (ndigits : nat) : float :=
  match x with
  | S754_finite s m e =>
      let n := round_digits x ndigits in
      if n =? 0 then S754_zero s else decimal n ndigits
  | _ => x
  end.

(** [str(n)] for a count. *)
Definition str_of_nat (n : nat) : string :=
  NilEmpty.string_of_uint (Nat.to_uint n).

End Py.

(* ===================================================================== *)
(** * The ORM: queries and writes *)
(* ===================================================================== *)

(** Django's manager and [Model.save] on the tables above.  [Model.save]
    does not call [clean] or [full_clean]; a model that wants validation on
    save overrides [save], as [TimeLog] does. *)

Definition pk_is (k : Z) (o : option Z) : bool :=
  match o with Some j => j =? k | None => false end.

Definition opt_eqb (a b : option Z) : bool :=
  match a, b with
  | Some x, Some y => x =? y
  | None, None => true
  | _, _ => false
  end.

Definition user_exists (u : Z) (db : DB.t) : bool :=
  existsb (fun x => User.pk x =? u) (DB.users db).

Definition task_exists (k : Z) (db : DB.t) : bool :=
  existsb (fun x => pk_is k (Task.pk x)) (DB.tasks db).

Definition item_exists (k : Z) (db : DB.t) : bool :=
  existsb (fun x => pk_is k (TaskItem.pk x)) (DB.items db).

(** The reverse relations [roles] and [items] of the task with key [k],
    and [task.roles.all()], [task.items.all()] on an instance. *)
Definition roles_of (k : Z) (db : DB.t) : list TaskRole.t :=
  List.filter (fun r => TaskRole.task r =? k) (DB.roles db).

Definition items_of (k : Z) (db : DB.t) : list TaskItem.t :=
  List.filter (fun i => TaskItem.task i =? k) (DB.items db).

Definition Task_roles (task : Task.t) (db : DB.t) : list TaskRole.t :=
  match Task.pk task with Some k => roles_of k db | None => [] end.

Definition Task_items (task : Task.t) (db : DB.t) : list TaskItem.t :=
  match Task.pk task with Some k => items_of k db | None => [] end.

(** [queryset.exists()]. *)
Definition qs_exists {R} (rows : list R) : bool :=
  match rows with [] => false | _ :: _ => true end.

(** [UPDATE ... WHERE id = k]. *)
Definition update_row {R} (get_pk : R -> option Z) (k : Z) (new : R)
    (rows : list R) : list R :=
  map (fun r => if pk_is k (get_pk r) then new else r) rows.

Definition set_tasks (rows : list Task.t) (next : Z) (db : DB.t) : DB.t :=
  DB.mk (DB.users db) rows (DB.roles db) (DB.items db) (DB.timelogs db)
        next (DB.next_role db) (DB.next_item db) (DB.next_timelog db).

Definition set_roles (rows : list TaskRole.t) (next : Z) (db : DB.t) : DB.t :=
  DB.mk (DB.users db) (DB.tasks db) rows (DB.items db) (DB.timelogs db)
        (DB.next_task db) next (DB.next_item db) (DB.next_timelog db).

Definition set_items (rows : list TaskItem.t) (next : Z) (db : DB.t) : DB.t :=
  DB.mk (DB.users db) (DB.tasks db) (DB.roles db) rows (DB.timelogs db)
        (DB.next_task db) (DB.next_role db) next (DB.next_timelog db).

Definition set_timelogs (rows : list TimeLog.t) (next : Z) (db : DB.t) : DB.t :=
  DB.mk (DB.users db) (DB.tasks db) (DB.roles db) (DB.items db) rows
        (DB.next_task db) (DB.next_role db) (DB.next_item db) next.

(** [Task.objects.create(title=..., description=...)]; [status] takes its
    default ['new']. *)
Definition Task_objects_create (title description : string) : M Task.t :=
  fun db =>
    let k := DB.next_task db in
    let row := Task.mk (Some k) title description "new" in
    (Ok row, set_tasks (DB.tasks db ++ [row]) (k + 1) db).

(** [Model.save] on an existing [Task]: the row with its key is replaced. *)
Definition Task_Model_save (self : Task.t) : M Task.t :=
  fun db =>
    match Task.pk self with
    | Some k =>
        if task_exists k db
        then (Ok self, set_tasks (update_row Task.pk k self (DB.tasks db))
                                 (DB.next_task db) db)
        else (Ok self, set_tasks (DB.tasks db ++ [self])
                                 (Z.max (DB.next_task db) (k + 1)) db)
    | None =>
        let k := DB.next_task db in
        let row := Task.with_pk k self in
        (Ok row, set_tasks (DB.tasks db ++ [row]) (k + 1) db)
    end.

(** [unique_together = ('task', 'user', 'role')]. *)
Definition same_triple (a b : TaskRole.t) : bool :=
  (TaskRole.task a =? TaskRole.task b)%Z
  && (TaskRole.user a =? TaskRole.user b)%Z
  && (TaskRole.role a =? TaskRole.role b)%string.

(** [TaskRole.objects.create(task=task, user_id=user, role=role)]: an
    [INSERT].  The database refuses a missing task or user and a repeated
    (task, user, role); nothing else is checked, [TaskRole] does not
    override [save]. *)
Definition TaskRole_objects_create (task : Task.t) (user : Z) (role : string)
    : M TaskRole.t :=
  fun db =>
    match Task.pk task with
    | None => (Raise ValueError, db)
    | Some t =>
        let k := DB.next_role db in
        let row := TaskRole.mk (Some k) t user role in
        if negb (task_exists t db && user_exists user db)
        then (Raise IntegrityError, db)
        else if existsb (same_triple row) (DB.roles db)
        then (Raise IntegrityError, db)
        else (Ok row, set_roles (DB.roles db ++ [row]) (k + 1) db)
    end.

(** [Model.save] on a [TaskItem] with the default arguments: [INSERT] when
    the instance has no key or its key has no row, [UPDATE] of the whole
    row otherwise.  The call with arguments is
    [TaskItem_Model_save_kwargs] below. *)
Definition TaskItem_fk_ok (self : TaskItem.t) (db : DB.t) : bool :=
  task_exists (TaskItem.task self) db
  && match TaskItem.executor self with
     | Some u => user_exists u db
     | None => true
     end.

Definition TaskItem_Model_save (self : TaskItem.t) : M TaskItem.t :=
  fun db =>
    if negb (TaskItem_fk_ok self db) then (Raise IntegrityError, db)
    else match TaskItem.pk self with
         | None =>
             let k := DB.next_item db in
             let row := TaskItem.with_pk k self in
             (Ok row, set_items (DB.items db ++ [row]) (k + 1) db)
         | Some k =>
             if item_exists k db
             then (Ok self, set_items (update_row TaskItem.pk k self (DB.items db))
                                      (DB.next_item db) db)
             else (Ok self, set_items (DB.items db ++ [self])
                                      (Z.max (DB.next_item db) (k + 1)) db)
         end.

Definition TimeLog_fk_ok (self : TimeLog.t) (db : DB.t) : bool :=
  user_exists (TimeLog.user self) db
  && task_exists (TimeLog.task self) db
  && match TimeLog.task_item self with
     | Some i => match TaskItem.pk i with
                 | Some k => item_exists k db
                 | None => false
                 end
     | None => true
     end.

Definition TimeLog_Model_save (self : TimeLog.t) : M TimeLog.t :=
  fun db =>
    if negb (TimeLog_fk_ok self db) then (Raise IntegrityError, db)
    else match TimeLog.pk self with
         | None =>
             let k := DB.next_timelog db in
             let row := TimeLog.with_pk k self in
             (Ok row, set_timelogs (DB.timelogs db ++ [row]) (k + 1) db)
         | Some k =>
             if existsb (fun x => pk_is k (TimeLog.pk x)) (DB.timelogs db)
             then (Ok self, set_timelogs
                              (update_row TimeLog.pk k self (DB.timelogs db))
                              (DB.next_timelog db) db)
             else (Ok self, set_timelogs (DB.timelogs db ++ [self])
                                         (Z.max (DB.next_timelog db) (k + 1)) db)
         end.

(* ===================================================================== *)
(** * [Model.save] with arguments *)
(* ===================================================================== *)

(** What a [save] override receives as its positional and keyword
    arguments and hands on to
    [Model.save(force_insert, force_update, using, update_fields)].  One
    database is modelled, so [using] is left out; [Model.save] takes no
    other argument. *)
Module SaveKwargs.
Record t : Type := mk {
  force_insert : bool;
  force_update : bool;
  update_fields : option (list string)
}.
(** [save()], and [save(force_insert=True)] as [QuerySet.create] calls
    it. *)
Definition none : t := mk false false None.
Definition create : t := mk true false None.
End SaveKwargs.

(** [name in update_fields]; a column is written when [update_fields]
    holds the name of its field or its attribute name ([task] or
    [task_id]). *)
Definition names (fields : list string) (name : string) : bool :=
  existsb (String.eqb name) fields.

Definition column_named (fields : list string) (name attname : string) : bool :=
  names fields name || names fields attname.

(** [if update_fields:] on the optional list. *)
Definition truthy_fields (update_fields : option (list string)) : bool :=
  match update_fields with
  | Some (_ :: _) => true
  | _ => false
  end.

(** [TaskItem._meta._non_pk_concrete_field_names]. *)
Definition TaskItem_field_names : list string :=
  ["task"; "task_id"; "title"; "description"; "executor"; "executor_id";
   "status"; "planned_hours"; "order"; "completed_at"; "created_at";
   "updated_at"].

(** [UPDATE ... SET] of the named columns: the stored row takes them from
    the instance and keeps the others.  [created_at] and [updated_at] are
    no columns of the model here. *)
Definition TaskItem_write_fields (fields : list string)
    (self stored : TaskItem.t) : TaskItem.t :=
  let pick {A} (name attname : string) (get : TaskItem.t -> A) : A :=
    if column_named fields name attname then get self else get stored in
  TaskItem.mk (TaskItem.pk stored)
    (pick "task" "task_id" TaskItem.task)
    (pick "title" "title" TaskItem.title)
    (pick "description" "description" TaskItem.description)
    (pick "executor" "executor_id" TaskItem.executor)
    (pick "status" "status" TaskItem.status)
    (pick "planned_hours" "planned_hours" TaskItem.planned_hours)
    (pick "order" "order" TaskItem.order)
    (pick "completed_at" "completed_at" TaskItem.completed_at).

(** The foreign keys the database checks on such an [UPDATE]: those of
    the columns written. *)
Definition TaskItem_fk_ok_fields (fields : list string) (self : TaskItem.t)
    (db : DB.t) : bool :=
  (if column_named fields "task" "task_id"
   then task_exists (TaskItem.task self) db else true)
  && (if column_named fields "executor" "executor_id"
      then match TaskItem.executor self with
           | Some u => user_exists u db
           | None => true
           end
      else true).

(** [Model.save(force_insert, force_update, update_fields)] on a
    [TaskItem], after Django's [Model.save] and [Model._save_table]:
<<
    if force_insert and (force_update or update_fields):
        raise ValueError(...)
    if update_fields is not None:
        if not update_fields:
            return
        if update_fields.difference(field_names):
            raise ValueError(...)
    # _save_table
    if not pk_set and (force_update or update_fields):
        raise ValueError(...)
    if pk_set and not force_insert:
        updated = self._do_update(...)
        if force_update and not updated:
            raise DatabaseError(...)
        if update_fields and not updated:
            raise DatabaseError(...)
    if not updated:
        ... INSERT ...
>>
    With the default arguments this is [TaskItem_Model_save]. *)
Definition TaskItem_Model_save_kwargs (kwargs : SaveKwargs.t)
    (self : TaskItem.t) : M TaskItem.t :=
  fun db =>
    let force_insert := SaveKwargs.force_insert kwargs in
    let force_update := SaveKwargs.force_update kwargs in
    let update_fields := SaveKwargs.update_fields kwargs in
    if force_insert && (force_update || truthy_fields update_fields)
    then (Raise ValueError, db)
    else
      match update_fields with
      | Some [] => (Ok self, db)
      | Some (f :: fs) =>
          let fields := f :: fs in
          if negb (forallb (names TaskItem_field_names) fields)
          then (Raise ValueError, db)
          else
            match TaskItem.pk self with
            | None => (Raise ValueError, db)
            | Some k =>
                if negb (item_exists k db) then (Raise DatabaseError, db)
                else if negb (TaskItem_fk_ok_fields fields self db)
                then (Raise IntegrityError, db)
                else
                  (Ok self,
                   set_items
                     (map (fun r => if pk_is k (TaskItem.pk r)
                                    then TaskItem_write_fields fields self r
                                    else r)
                          (DB.items db))
                     (DB.next_item db) db)
            end
      | None =>
          match TaskItem.pk self with
          | None =>
              if force_update then (Raise ValueError, db)
              else TaskItem_Model_save self db
          | Some k =>
              if force_insert then
                if item_exists k db then (Raise IntegrityError, db)
                else TaskItem_Model_save self db
              else if force_update && negb (item_exists k db)
              then (Raise DatabaseError, db)
              else TaskItem_Model_save self db
          end
      end.

(** The same for a [TimeLog].  Before anything else [Model.save] refuses
    an instance whose related object is not saved
    ([_prepare_related_fields_for_save]). *)
Definition TimeLog_field_names : list string :=
  ["user"; "user_id"; "task"; "task_id"; "task_item"; "task_item_id";
   "date"; "hours"; "description"; "created_at"; "updated_at"].

Definition TimeLog_write_fields (fields : list string)
    (self stored : TimeLog.t) : TimeLog.t :=
  let pick {A} (name attname : string) (get : TimeLog.t -> A) : A :=
    if column_named fields name attname then get self else get stored in
  TimeLog.mk (TimeLog.pk stored)
    (pick "user" "user_id" TimeLog.user)
    (pick "task" "task_id" TimeLog.task)
    (pick "task_item" "task_item_id" TimeLog.task_item)
    (pick "date" "date" TimeLog.date)
    (pick "hours" "hours" TimeLog.hours)
    (pick "description" "description" TimeLog.description).

Definition TimeLog_fk_ok_fields (fields : list string) (self : TimeLog.t)
    (db : DB.t) : bool :=
  (if column_named fields "user" "user_id"
   then user_exists (TimeLog.user self) db else true)
  && (if column_named fields "task" "task_id"
      then task_exists (TimeLog.task self) db else true)
  && (if column_named fields "task_item" "task_item_id"
      then match TimeLog.task_item self with
           | Some i => match TaskItem.pk i with
                       | Some k => item_exists k db
                       | None => false
                       end
           | None => true
           end
      else true).

Definition has_unsaved_item (self : TimeLog.t) : bool :=
  match TimeLog.task_item self with
  | Some i => negb (truthy (TaskItem.pk i))
  | None => false
  end.

Definition timelog_exists (k : Z) (db : DB.t) : bool :=
  existsb (fun x => pk_is k (TimeLog.pk x)) (DB.timelogs db).

Definition TimeLog_Model_save_kwargs (kwargs : SaveKwargs.t)
    (self : TimeLog.t) : M TimeLog.t :=
  fun db =>
    let force_insert := SaveKwargs.force_insert kwargs in
    let force_update := SaveKwargs.force_update kwargs in
    let update_fields := SaveKwargs.update_fields kwargs in
    if has_unsaved_item self then (Raise ValueError, db)
    else if force_insert && (force_update || truthy_fields update_fields)
    then (Raise ValueError, db)
    else
      match update_fields with
      | Some [] => (Ok self, db)
      | Some (f :: fs) =>
          let fields := f :: fs in
          if negb (forallb (names TimeLog_field_names) fields)
          then (Raise ValueError, db)
          else
            match TimeLog.pk self with
            | None => (Raise ValueError, db)
            | Some k =>
                if negb (timelog_exists k db) then (Raise DatabaseError, db)
                else if negb (TimeLog_fk_ok_fields fields self db)
                then (Raise IntegrityError, db)
                else
                  (Ok self,
                   set_timelogs
                     (map (fun r => if pk_is k (TimeLog.pk r)
                                    then TimeLog_write_fields fields self r
                                    else r)
                          (DB.timelogs db))
                     (DB.next_timelog db) db)
            end
      | None =>
          match TimeLog.pk self with
          | None =>
              if force_update then (Raise ValueError, db)
              else TimeLog_Model_save self db
          | Some k =>
              if force_insert then
                if timelog_exists k db then (Raise IntegrityError, db)
                else TimeLog_Model_save self db
              else if force_update && negb (timelog_exists k db)
              then (Raise DatabaseError, db)
              else TimeLog_Model_save self db
          end
      end.

(* ===================================================================== *)
(** * [apps/tasks/models.py] *)
(* ===================================================================== *)

Definition is_completed (i : TaskItem.t) : bool :=
  (TaskItem.status i =? "completed")%string.

(** [Task.progress_percentage]:
<<
    items = self.items.all()
    if not items:
        return 0
    completed = items.filter(status='completed').count()
    return round((completed / items.count()) * 100, 2)
>> *)
Definition progress_of_counts (completed count : nat) : Py.number :=
  Py.Float
    (Py.round
       (Py.mul (Py.truediv (Z.of_nat completed) (Z.of_nat count))
               (Py.float_of_int 100))
       2).

Definition Task_progress_percentage (self : Task.t) (db : DB.t) : Py.number :=
  let items := Task_items self db in
  match items with
  | [] => Py.Int 0
  | _ :: _ =>
      let completed := length (List.filter is_completed items) in
      progress_of_counts completed (length items)
  end.

(** [TaskRole.clean]:
<<
    if self.role == 'assigner':
        existing_assigner = TaskRole.objects.filter(
            task=self.task, role='assigner'
        ).exclude(pk=self.pk).exists()
        if existing_assigner:
            raise ValidationError('У задачи уже есть постановщик')
>>
    [exclude(pk=None)] removes no row. *)
Definition assigner_exists_msg : string := "У задачи уже есть постановщик".

Definition exclude_pk (self_pk : option Z) (rows : list TaskRole.t)
    : list TaskRole.t :=
  match self_pk with
  | Some k => List.filter (fun r => negb (pk_is k (TaskRole.pk r))) rows
  | None => rows
  end.

Definition TaskRole_clean (self : TaskRole.t) : M unit :=
  fun db =>
    if (TaskRole.role self =? "assigner")%string then
      let existing_assigner :=
        qs_exists
          (exclude_pk (TaskRole.pk self)
             (List.filter
                (fun r => (TaskRole.task r =? TaskRole.task self)
                          && (TaskRole.role r =? "assigner")%string)
                (DB.roles db))) in
      if existing_assigner
      then (Raise (ValidationError [assigner_exists_msg]), db)
      else (Ok tt, db)
    else (Ok tt, db).

(** [TaskItem.save]:
<<
    if self.status == 'completed' and not self.completed_at:
        self.completed_at = timezone.now()
    elif self.status != 'completed' and self.completed_at:
        self.completed_at = None
    super().save(args, kwargs)
>>
    (the arguments are passed on starred).  [now] is what [timezone.now()]
    returns during the call.  The result is the instance after the call. *)
Definition TaskItem_set_completed_at (now : Z) (self : TaskItem.t) : TaskItem.t :=
  if is_completed self && negb (truthy (TaskItem.completed_at self))
  then TaskItem.with_completed_at (Some now) self
  else if negb (is_completed self) && truthy (TaskItem.completed_at self)
  then TaskItem.with_completed_at None self
  else self.

Definition TaskItem_save (now : Z) (kwargs : SaveKwargs.t) (self : TaskItem.t)
    : M TaskItem.t :=
  TaskItem_Model_save_kwargs kwargs (TaskItem_set_completed_at now self).

(* ===================================================================== *)
(** * [apps/timelogs/models.py] *)
(* ===================================================================== *)

Definition item_mismatch_msg : string :=
  "Подзадача должна принадлежать указанной задаче".

(** [TimeLog.clean]:
<<
    super().clean()
    if self.task_item and self.task_item.task_id != self.task_id:
        raise ValidationError({'task_item': '...'})
>> *)
Definition TimeLog_clean (self : TimeLog.t) : M unit :=
  fun db =>
    match TimeLog.task_item self with
    | Some item =>
        if negb (TaskItem.task item =? TimeLog.task self)
        then (Raise (ValidationError [item_mismatch_msg]), db)
        else (Ok tt, db)
    | None => (Ok tt, db)
    end.

Section TimeLogSave.

(** Django's [Model.clean_fields]: the per-field validation (the
    validators declared on [hours], blank and null checks, existence of
    the referenced rows).  It is the framework's and is a parameter here;
    it returns the messages of the fields it rejects. *)
Variable clean_fields : DB.t -> TimeLog.t -> list string.

(** [Model.full_clean]: [clean_fields], then [clean] whether or not a
    field failed; one [ValidationError] with everything collected.
    [TimeLog] declares no uniqueness constraint. *)
Definition TimeLog_full_clean (self : TimeLog.t) : M unit :=
  fun db =>
    let field_errors := clean_fields db self in
    match TimeLog_clean self db with
    | (Raise (ValidationError ms), _) =>
        (Raise (ValidationError (field_errors ++ ms)), db)
    | (Raise e, _) => (Raise e, db)
    | (Ok _, _) =>
        match field_errors with
        | [] => (Ok tt, db)
        | _ :: _ => (Raise (ValidationError field_errors), db)
        end
    end.

(** [TimeLog.save]:
<<
  self.full_clean()
  super().save(args, kwargs)
>>
    (the arguments are passed on starred). *)
Definition TimeLog_save (kwargs : SaveKwargs.t) (self : TimeLog.t)
    : M TimeLog.t :=
  TimeLog_full_clean self ;;; TimeLog_Model_save_kwargs kwargs self.

End TimeLogSave.

(** [Decimal(hundredths / 100) < x] for a float [x]: Python compares a
    [Decimal] with a [float] by their exact values. *)
Definition Decimal_lt_float (hundredths : Z) (x : Py.float) : bool :=
  match x with
  | S754_zero _ => hundredths <? 0
  | S754_infinity s => negb s
  | S754_nan => false
  | S754_finite s m e =>
      let v := if s then Z.neg m else Z.pos m in
      if 0 <=? e then hundredths <? 100 * v * 2 ^ e
      else hundredths * 2 ^ (- e) <? 100 * v
  end.

(** [MinValueValidator(0.01)]: the limit is the float literal [0.01]; the
    validator rejects [a] when [a < limit_value]. *)
Definition hours_limit_value : Py.float := Py.decimal 1 2.

Definition MinValueValidator_rejects (hours : Z) : bool :=
  Decimal_lt_float hours hours_limit_value.

(** [DecimalValidator(max_digits=5, decimal_places=2)] on a value of two
    decimal places: it asks for at most three digits before the point. *)
Definition DecimalValidator_rejects (hours : Z) : bool :=
  99999 <? Z.abs hours.

(** [Model.clean_fields] on a [TimeLog], from the field declarations:
    [user] and [task] must exist; [task_item] ([null=True, blank=True])
    is skipped when its key is [None] and must exist otherwise; [hours]
    runs its two validators; [description] ([blank=False]) must not be
    empty; [date] is always a date here, and [created_at] and
    [updated_at] are not editable.  Each rejected field is reported by its
    name, the key of Django's error dictionary: the message texts depend
    on the active translation. *)
Definition TimeLog_clean_fields (db : DB.t) (self : TimeLog.t) : list string :=
  ((if user_exists (TimeLog.user self) db then [] else ["user"])
   ++ (if task_exists (TimeLog.task self) db then [] else ["task"])
   ++ (match TimeLog.task_item self with
       | Some i =>
           match TaskItem.pk i with
           | Some k => if item_exists k db then [] else ["task_item"]
           | None => []
           end
       | None => []
       end)
   ++ (if MinValueValidator_rejects (TimeLog.hours self)
          || DecimalValidator_rejects (TimeLog.hours self)
       then ["hours"] else [])
   ++ (if (TimeLog.description self =? "")%string then ["description"] else []))%list.

(* ===================================================================== *)
(** * [apps/tasks/permissions.py] *)
(* ===================================================================== *)

(** A JSON value of a request body. *)
Inductive json : Type :=
| JNull
| JInt (z : Z)
| JStr (s : string).

Module Request.
Record t : Type := mk {
  user : User.t;
  method : string;
  data : list (string * json)
}.
Definition user_id (r : t) : Z := User.pk (user r).
End Request.

(** The object a permission is asked about; [hasattr(obj, 'task')] tells
    a [TaskItem] from a [Task]. *)
Inductive obj : Type :=
| TaskObj (t : Task.t)
| TaskItemObj (i : TaskItem.t).

Definition has_role_on (k : Z) (uid : Z) (db : DB.t) : bool :=
  existsb (fun r => TaskRole.user r =? uid) (roles_of k db).

Definition is_executor_on (k : Z) (uid : Z) (db : DB.t) : bool :=
  existsb (fun i => opt_eqb (TaskItem.executor i) (Some uid)) (items_of k db).

Definition is_assigner_on (k : Z) (uid : Z) (db : DB.t) : bool :=
  existsb (fun r => (TaskRole.user r =? uid)
                    && (TaskRole.role r =? "assigner")%string)
          (roles_of k db).

Definition obj_task_id (o : obj) : option Z :=
  match o with
  | TaskItemObj i => Some (TaskItem.task i)
  | TaskObj t => Task.pk t
  end.

(** [IsTaskParticipant.has_object_permission]. *)
Definition IsTaskParticipant_has_object_permission
    (request : Request.t) (o : obj) (db : DB.t) : bool :=
  if User.is_staff (Request.user request) then true
  else match obj_task_id o with
       | Some k =>
           let has_role := has_role_on k (Request.user_id request) db in
           if has_role then true
           else
             let is_executor := is_executor_on k (Request.user_id request) db in
             if is_executor then true else false
       | None => false
       end.

(** [IsAssigner.has_object_permission]. *)
Definition IsAssigner_has_object_permission
    (request : Request.t) (o : obj) (db : DB.t) : bool :=
  if User.is_staff (Request.user request) then true
  else match obj_task_id o with
       | Some k => is_assigner_on k (Request.user_id request) db
       | None => false
       end.

(** [set(request.data.keys())]. *)
Definition update_fields (request : Request.t) : gset string :=
  list_to_set (map fst (Request.data request)).

Definition allowed_fields : gset string := {[ "status" ]}.

Definition method_in_patch_put (m : string) : bool :=
  (m =? "PATCH")%string || (m =? "PUT")%string.

(** [IsTaskItemExecutorOrAssigner.has_object_permission]:
<<
    if request.user.is_staff:
        return True
    is_assigner = obj.task.roles.filter(user=request.user, role='assigner').exists()
    if is_assigner:
        return True
    if obj.executor == request.user:
        if request.method in ['PATCH', 'PUT']:
            allowed_fields = {'status'}
            update_fields = set(request.data.keys())
            if update_fields.issubset(allowed_fields):
                return True
        return False
    return False
>> *)
Definition IsTaskItemExecutorOrAssigner_has_object_permission
    (request : Request.t) (o : TaskItem.t) (db : DB.t) : bool :=
  if User.is_staff (Request.user request) then true
  else
    let is_assigner :=
      is_assigner_on (TaskItem.task o) (Request.user_id request) db in
    if is_assigner then true
    else if opt_eqb (TaskItem.executor o) (Some (Request.user_id request)) then
      if method_in_patch_put (Request.method request) then
        if bool_decide (update_fields request ⊆ allowed_fields) then true
        else false
      else false
    else false.

(* ===================================================================== *)
(** * [apps/tasks/serializers.py] *)
(* ===================================================================== *)

(** One validated task-item definition of [TaskItemSerializer]: [title] is
    required, every other writable field is a key that may be absent;
    [executor_id] may be present and null. *)
Module ItemData.
Record t : Type := mk {
  title : string;
  description : option string;
  executor_id : option (option Z);
  status : option string;
  planned_hours : option Z;
  order : option nat
}.
End ItemData.

(** The validated data of [TaskCreateSerializer]. *)
Module TaskData.
Record t : Type := mk {
  title : string;
  description : string;
  co_executors : option (list Z);
  observers : option (list Z);
  task_items : option (list ItemData.t)
}.
End TaskData.

(** [dict.pop(key, default)] on an optional key. *)
Definition pop {A} (o : option A) (d : A) : A :=
  match o with Some a => a | None => d end.

(** [TaskItem.objects.create(task=task, executor_id=executor_id, order=idx,
    **item_data)].  A definition that carries its own [order] key makes
    the call pass [order] twice, which Python refuses with [TypeError].
    Absent keys take the column defaults; the manager builds the instance
    and calls [TaskItem.save(force_insert=True)]. *)
Definition TaskItem_objects_create (now : Z) (task : Task.t)
    (executor_id : option Z) (idx : nat) (item_data : ItemData.t)
    : M TaskItem.t :=
  match ItemData.order item_data with
  | Some _ => raise TypeError
  | None =>
      match Task.pk task with
      | None => raise ValueError
      | Some t =>
          TaskItem_save now SaveKwargs.create
            (TaskItem.mk None t (ItemData.title item_data)
               (pop (ItemData.description item_data) "")
               executor_id
               (pop (ItemData.status item_data) "todo")
               (pop (ItemData.planned_hours item_data) 0)
               idx None)
      end
  end.

(** [TaskCreateSerializer.create], under [@transaction.atomic]:
<<
    co_executors = validated_data.pop('co_executors', [])
    observers = validated_data.pop('observers', [])
    task_items_data = validated_data.pop('task_items', [])
    task = Task.objects.create( **validated_data )
    TaskRole.objects.create(task=task, user=self.context['request'].user,
                            role='assigner')
    for user_id in co_executors:
        TaskRole.objects.create(task=task, user_id=user_id, role='co_executor')
    for user_id in observers:
        TaskRole.objects.create(task=task, user_id=user_id, role='observer')
    for idx, item_data in enumerate(task_items_data):
        executor_id = item_data.pop('executor_id', None)
        TaskItem.objects.create(task=task, executor_id=executor_id,
                                order=idx, **item_data)
    return task
>>
    [clock idx] is the time at which the item at position [idx] is saved. *)
Definition create_body (clock : nat -> Z) (request : Request.t)
    (validated_data : TaskData.t) : M Task.t :=
  let co_executors := pop (TaskData.co_executors validated_data) [] in
  let observers := pop (TaskData.observers validated_data) [] in
  let task_items_data := pop (TaskData.task_items validated_data) [] in
  task <- Task_objects_create (TaskData.title validated_data)
                              (TaskData.description validated_data) ;;
  (_ <- TaskRole_objects_create task (Request.user_id request) "assigner" ;;
   for_each co_executors
     (fun user_id =>
        _ <- TaskRole_objects_create task user_id "co_executor" ;; ret tt) ;;;
   for_each observers
     (fun user_id =>
        _ <- TaskRole_objects_create task user_id "observer" ;; ret tt) ;;;
   for_enumerate 0 task_items_data
     (fun idx item_data =>
        let executor_id := pop (ItemData.executor_id item_data) None in
        _ <- TaskItem_objects_create (clock idx) task executor_id idx item_data ;;
        ret tt) ;;;
   ret task).

Definition TaskCreateSerializer_create (clock : nat -> Z) (request : Request.t)
    (validated_data : TaskData.t) : M Task.t :=
  transaction_atomic (create_body clock request validated_data).

Definition Task_STATUS_CHOICES : list string :=
  ["new"; "in_progress"; "review"; "completed"; "cancelled"].

Definition TaskRole_ROLE_CHOICES : list string :=
  ["assigner"; "co_executor"; "observer"].

Definition in_choices (v : string) (choices : list string) : bool :=
  existsb (fun c => (c =? v)%string) choices.

Definition incomplete_items_msg : string :=
  "Невозможно завершить задачу. Есть незавершенные подзадачи: ".

(** [TaskUpdateSerializer.validate_status]:
<<
    task = self.instance
    if value == 'completed' and task:
        incomplete_items = task.items.exclude(status='completed')
        if incomplete_items.exists():
            raise serializers.ValidationError(
                f'... {incomplete_items.count()}')
    return value
>> *)
Definition TaskUpdateSerializer_validate_status (instance : option Task.t)
    (value : string) : M string :=
  fun db =>
    match instance with
    | Some task =>
        if (value =? "completed")%string then
          let incomplete_items :=
            List.filter (fun i => negb (is_completed i)) (Task_items task db) in
          if qs_exists incomplete_items
          then (Raise (ValidationError
                         [incomplete_items_msg
                          ++ Py.str_of_nat (length incomplete_items)]), db)
          else (Ok value, db)
        else (Ok value, db)
    | None => (Ok value, db)
    end.

(** A [PATCH] whose body is [{"status": value}], as DRF's update runs it on
    [TaskUpdateSerializer]: the choice field checks the value, then
    [validate_status]; when both pass the instance takes the value and is
    saved, otherwise [ValidationError] propagates and nothing is saved. *)
Definition not_a_choice_msg : string := "is not a valid choice.".

Definition TaskUpdateSerializer_update_status (instance : Task.t)
    (value : string) : M Task.t :=
  if in_choices value Task_STATUS_CHOICES then
    v <- TaskUpdateSerializer_validate_status (Some instance) value ;;
    Task_Model_save (Task.with_status v instance)
  else raise (ValidationError [not_a_choice_msg]).

(* ===================================================================== *)
(** * [apps/tasks/views.py] *)
(* ===================================================================== *)

(** [TaskViewSet.get_queryset]:
<<
    Task.objects...filter(
        Q(roles__user=self.request.user) | Q(items__executor=self.request.user)
    ).distinct()
>>
    The rows are listed in table order. *)
Definition visible_to (uid : Z) (db : DB.t) (t : Task.t) : bool :=
  match Task.pk t with
  | Some k => has_role_on k uid db || is_executor_on k uid db
  | None => false
  end.

Definition TaskViewSet_get_queryset (request : Request.t) (db : DB.t)
    : list Task.t :=
  List.filter (visible_to (Request.user_id request) db) (DB.tasks db).

Section Views.

(** [filter_queryset]: the [TaskFilter] built from the query string.
    Every filter of [TaskFilter] restricts the queryset; which rows one
    keeps is a parameter. *)
Variable filterset : DB.t -> Task.t -> bool.

Definition filter_queryset (db : DB.t) (qs : list Task.t) : list Task.t :=
  List.filter (filterset db) qs.

(** The [list] action ([IsAuthenticated] only), before pagination. *)
Definition TaskViewSet_list (request : Request.t) (db : DB.t) : list Task.t :=
  filter_queryset db (TaskViewSet_get_queryset request db).

(** DRF's [get_object]: [get_object_or_404] on the filtered queryset,
    then [check_object_permissions]. *)
Definition get_object
    (permissions : list (Request.t -> obj -> DB.t -> bool))
    (request : Request.t) (pk : Z) : M Task.t :=
  fun db =>
    match List.find (fun t => pk_is pk (Task.pk t))
                    (filter_queryset db (TaskViewSet_get_queryset request db)) with
    | None => (Raise Http404, db)
    | Some t =>
        if forallb (fun p => p request (TaskObj t) db) permissions
        then (Ok t, db)
        else (Raise PermissionDenied, db)
    end.

(** The [retrieve] action: [IsAuthenticated(), IsTaskParticipant()]. *)
Definition TaskViewSet_retrieve (request : Request.t) (pk : Z) : M Task.t :=
  get_object [IsTaskParticipant_has_object_permission] request pk.

(** [dict.get] on a request body; a later binding of a key wins. *)
Definition data_get (key : string) (data : list (string * json)) : option json :=
  option_map snd (List.find (fun kv => (fst kv =? key)%string) (rev data)).

(** [TaskRoleSerializer(data=request.data).is_valid()]: [user_id] is a
    required integer, [role] a required choice of [ROLE_CHOICES].  The
    serializer has no [task] field, so DRF attaches no unique-together
    validator; it does not call [TaskRole.clean]. *)
Definition TaskRoleSerializer_is_valid (data : list (string * json))
    : option (Z * string) :=
  match data_get "user_id" data, data_get "role" data with
  | Some (JInt u), Some (JStr r) =>
      if in_choices r TaskRole_ROLE_CHOICES then Some (u, r) else None
  | _, _ => None
  end.

Inductive Response : Type :=
| HTTP_201_CREATED (role : TaskRole.t)
| HTTP_400_BAD_REQUEST.

(** [TaskViewSet.add_role], [permission_classes=[IsAuthenticated, IsAssigner]]:
<<
  task = self.get_object()
  serializer = TaskRoleSerializer(data=request.data, ...)
  if serializer.is_valid():
      serializer.save(task=task)
      return Response(serializer.data, status=status.HTTP_201_CREATED)
  return Response(serializer.errors, status=status.HTTP_400_BAD_REQUEST)
>>
  [serializer.save(task=task)] is [TaskRole.objects.create] on the
  validated data and the task. *)
Definition TaskViewSet_add_role (request : Request.t) (pk : Z) : M Response :=
  task <- get_object [IsAssigner_has_object_permission] request pk ;;
  match TaskRoleSerializer_is_valid (Request.data request) with
  | Some (user_id, role) =>
      r <- TaskRole_objects_create task user_id role ;;
      ret (HTTP_201_CREATED r)
  | None => ret HTTP_400_BAD_REQUEST
  end.

End Views.

(* ===================================================================== *)
(** * [apps/tasks/models.py]: aggregates and lookups *)
(* ===================================================================== *)

(** [aggregate(total=Sum(column))['total']]: the sum of the column, [None]
    over no row.  Decimal columns are summed exactly, in hundredths. *)
Definition aggregate_sum (values : list Z) : option Z :=
  match values with
  | [] => None
  | _ :: _ => Some (fold_right Z.add 0 values)
  end.

(** [total or 0]: [None] and a zero total both give zero. *)
Definition or_zero (total : option Z) : Z :=
  match total with Some t => t | None => 0 end.

(** [Task.total_planned_hours]:
<<
    return self.items.aggregate(total=models.Sum('planned_hours'))['total'] or 0
>> *)
Definition Task_total_planned_hours (self : Task.t) (db : DB.t) : Z :=
  or_zero (aggregate_sum (map TaskItem.planned_hours (Task_items self db))).

(** The time logs of the task with key [k], and those of the item with
    key [k] ([TimeLog.objects.filter(task=...)], [filter(task_item=...)]). *)
Definition timelogs_of_task (k : Z) (db : DB.t) : list TimeLog.t :=
  List.filter (fun l => TimeLog.task l =? k) (DB.timelogs db).

Definition TimeLog_task_item_id (l : TimeLog.t) : option Z :=
  match TimeLog.task_item l with
  | Some i => TaskItem.pk i
  | None => None
  end.

Definition timelogs_of_item (k : Z) (db : DB.t) : list TimeLog.t :=
  List.filter (fun l => pk_is k (TimeLog_task_item_id l)) (DB.timelogs db).

(** [Task.total_spent_hours] and [TaskItem.spent_hours]:
<<
    from apps.timelogs.models import TimeLog
    return TimeLog.objects.filter(task=self).aggregate(
        total=models.Sum('hours'))['total'] or 0
>>
    The import succeeds, [apps.timelogs] is part of the project.  Both are
    read on stored instances; on an instance without a key they are taken
    to be zero. *)
Definition Task_total_spent_hours (self : Task.t) (db : DB.t) : Z :=
  match Task.pk self with
  | Some k => or_zero (aggregate_sum (map TimeLog.hours (timelogs_of_task k db)))
  | None => 0
  end.

Definition TaskItem_spent_hours (self : TaskItem.t) (db : DB.t) : Z :=
  match TaskItem.pk self with
  | Some k => or_zero (aggregate_sum (map TimeLog.hours (timelogs_of_item k db)))
  | None => 0
  end.

(** [queryset.first()] on a queryset without ordering: the row with the
    least primary key. *)
Definition role_key (r : TaskRole.t) : Z :=
  match TaskRole.pk r with Some k => k | None => 0 end.

Fixpoint first_by_pk (rows : list TaskRole.t) : option TaskRole.t :=
  match rows with
  | [] => None
  | r :: rest =>
      match first_by_pk rest with
      | None => Some r
      | Some b => if role_key b <? role_key r then Some b else Some r
      end
  end.

(** [Task.assigner]:
<<
    role = self.roles.filter(role='assigner').first()
    return role.user if role else None
>>
    The user is given by its key. *)
Definition Task_assigner (self : Task.t) (db : DB.t) : option Z :=
  let role :=
    first_by_pk
      (List.filter (fun r => (TaskRole.role r =? "assigner")%string)
                   (Task_roles self db)) in
  match role with
  | Some r => Some (TaskRole.user r)
  | None => None
  end.

(** [Task.get_participants]:
<<
    return User.objects.filter(task_roles__task=self).distinct()
>> *)
Definition Task_get_participants (self : Task.t) (db : DB.t) : list User.t :=
  List.filter
    (fun u => existsb (fun r => TaskRole.user r =? User.pk u) (Task_roles self db))
    (DB.users db).

(** The cascade of [on_delete=models.CASCADE]: deleting a task deletes its
    roles, its items and the time logs of the task and of those items;
    deleting an item deletes its time logs; a role has no dependants. *)
Definition Task_delete (self : Task.t) : M unit :=
  fun db =>
    match Task.pk self with
    | None => (Raise ValueError, db)
    | Some k =>
        let gone (l : TimeLog.t) : bool :=
          (TimeLog.task l =? k)
          || existsb (fun i => opt_eqb (TaskItem.pk i) (TimeLog_task_item_id l)
                               && truthy (TaskItem.pk i))
                     (items_of k db) in
        (Ok tt,
         DB.mk (DB.users db)
               (List.filter (fun t => negb (pk_is k (Task.pk t))) (DB.tasks db))
               (List.filter (fun r => negb (TaskRole.task r =? k)) (DB.roles db))
               (List.filter (fun i => negb (TaskItem.task i =? k)) (DB.items db))
               (List.filter (fun l => negb (gone l)) (DB.timelogs db))
               (DB.next_task db) (DB.next_role db) (DB.next_item db)
               (DB.next_timelog db))
    end.

Definition TaskItem_delete (self : TaskItem.t) : M unit :=
  fun db =>
    match TaskItem.pk self with
    | None => (Raise ValueError, db)
    | Some k =>
        (Ok tt,
         DB.mk (DB.users db) (DB.tasks db) (DB.roles db)
               (List.filter (fun i => negb (pk_is k (TaskItem.pk i))) (DB.items db))
               (List.filter (fun l => negb (pk_is k (TimeLog_task_item_id l)))
                            (DB.timelogs db))
               (DB.next_task db) (DB.next_role db) (DB.next_item db)
               (DB.next_timelog db))
    end.

Definition TaskRole_delete (self : TaskRole.t) : M unit :=
  fun db =>
    match TaskRole.pk self with
    | None => (Raise ValueError, db)
    | Some k =>
        (Ok tt,
         set_roles (List.filter (fun r => negb (pk_is k (TaskRole.pk r)))
                                (DB.roles db))
                   (DB.next_role db) db)
    end.

(* ===================================================================== *)
(** * [apps/tasks/serializers.py]: counts and item updates *)
(* ===================================================================== *)

(** [TaskListSerializer.get_task_items_count] and
    [get_completed_items_count]. *)
Definition TaskListSerializer_get_task_items_count (o : Task.t) (db : DB.t) : nat :=
  length (Task_items o db).

Definition TaskListSerializer_get_completed_items_count (o : Task.t) (db : DB.t)
    : nat :=
  length (List.filter is_completed (Task_items o db)).

(** The validated data of [TaskItemSerializer]: one optional entry per
    writable field. *)
Module ItemPatch.
Record t : Type := mk {
  title : option string;
  description : option string;
  executor_id : option (option Z);
  status : option string;
  planned_hours : option Z;
  order : option nat
}.
End ItemPatch.

(** [ModelSerializer.update]: every validated entry is set on the
    instance, which is then saved. *)
Definition apply_patch (p : ItemPatch.t) (i : TaskItem.t) : TaskItem.t :=
  TaskItem.mk (TaskItem.pk i) (TaskItem.task i)
    (pop (ItemPatch.title p) (TaskItem.title i))
    (pop (ItemPatch.description p) (TaskItem.description i))
    (pop (ItemPatch.executor_id p) (TaskItem.executor i))
    (pop (ItemPatch.status p) (TaskItem.status i))
    (pop (ItemPatch.planned_hours p) (TaskItem.planned_hours i))
    (pop (ItemPatch.order p) (TaskItem.order i))
    (TaskItem.completed_at i).

Definition TaskItemSerializer_update (now : Z) (instance : TaskItem.t)
    (validated_data : ItemPatch.t) : M TaskItem.t :=
  TaskItem_save now SaveKwargs.none (apply_patch validated_data instance).

(** [serializer.save(task=task)] on a new item:
    [TaskItem.objects.create] with the validated entries and the task,
    absent entries taking the column defaults. *)
Definition TaskItemSerializer_create (now : Z) (task : Task.t)
    (validated_data : ItemPatch.t) : M TaskItem.t :=
  match Task.pk task with
  | None => raise ValueError
  | Some t =>
      TaskItem_save now SaveKwargs.create
        (TaskItem.mk None t
           (pop (ItemPatch.title validated_data) "")
           (pop (ItemPatch.description validated_data) "")
           (pop (ItemPatch.executor_id validated_data) None)
           (pop (ItemPatch.status validated_data) "todo")
           (pop (ItemPatch.planned_hours validated_data) 0)
           (pop (ItemPatch.order validated_data) 0%nat)
           None)
  end.

(* ===================================================================== *)
(** * [apps/tasks/filters.py] *)
(* ===================================================================== *)

(** [TaskFilter.filter_my_tasks], on a queryset that is already distinct.
<<
    def filter_my_tasks(self, queryset, name, value):
        if not value:
            return queryset
        user = self.request.user
        return queryset.filter(
            models.Q(roles__user=user) | models.Q(items__executor=user)
        ).distinct()
>> *)
Definition TaskFilter_filter_my_tasks (request : Request.t)
    (queryset : list Task.t) (value : bool) (db : DB.t) : list Task.t :=
  if negb value then queryset
  else List.filter (visible_to (Request.user_id request) db) queryset.

(** [TaskItemFilter.filter_my_items]. *)
Definition TaskItemFilter_filter_my_items (request : Request.t)
    (queryset : list TaskItem.t) (value : bool) : list TaskItem.t :=
  if negb value then queryset
  else List.filter
         (fun i => opt_eqb (TaskItem.executor i) (Some (Request.user_id request)))
         queryset.

(* ===================================================================== *)
(** * [apps/tasks/views.py]: the other actions *)
(* ===================================================================== *)

(** The actions of the two viewsets. *)
Inductive action : Type :=
| a_list | a_create | a_retrieve | a_update | a_partial_update | a_destroy
| a_my | a_my_items | a_assigned_by_me | a_add_role | a_remove_role | a_add_item.

(** [TaskViewSet.get_permissions], and for the extra actions the
    [permission_classes] of their decorators.  [IsAuthenticated] holds of
    every request modelled and is left out. *)
Definition TaskViewSet_get_permissions (a : action)
    : list (Request.t -> obj -> DB.t -> bool) :=
  match a with
  | a_create => []
  | a_update | a_partial_update | a_destroy => [IsAssigner_has_object_permission]
  | a_retrieve => [IsTaskParticipant_has_object_permission]
  | a_list => []
  | a_add_role | a_remove_role | a_add_item => [IsAssigner_has_object_permission]
  | a_my | a_my_items | a_assigned_by_me => []
  end.

(** [TaskViewSet.my]: the queryset filtered once more by participation. *)
Definition TaskViewSet_my (request : Request.t) (db : DB.t) : list Task.t :=
  List.filter (visible_to (Request.user_id request) db)
              (TaskViewSet_get_queryset request db).

(** [TaskViewSet.my_items]: [TaskItem.objects.filter(executor=request.user)]. *)
Definition TaskViewSet_my_items (request : Request.t) (db : DB.t)
    : list TaskItem.t :=
  List.filter
    (fun i => opt_eqb (TaskItem.executor i) (Some (Request.user_id request)))
    (DB.items db).

(** [TaskViewSet.assigned_by_me]:
    [Task.objects.filter(roles__user=request.user, roles__role='assigner')],
    a join without [distinct()]: a task is listed once per role row that
    matches both conditions. *)
Definition TaskViewSet_assigned_by_me (request : Request.t) (db : DB.t)
    : list Task.t :=
  flat_map
    (fun t =>
       map (fun _ => t)
           (List.filter
              (fun r => (TaskRole.user r =? Request.user_id request)
                        && (TaskRole.role r =? "assigner")%string)
              (Task_roles t db)))
    (DB.tasks db).

(** [TaskItemViewSet.get_queryset]:
<<
    TaskItem.objects.filter(
        Q(task__roles__user=self.request.user) | Q(executor=self.request.user)
    ).select_related('task', 'executor').distinct()
>> *)
Definition item_visible_to (uid : Z) (db : DB.t) (i : TaskItem.t) : bool :=
  has_role_on (TaskItem.task i) uid db
  || opt_eqb (TaskItem.executor i) (Some uid).

Definition TaskItemViewSet_get_queryset (request : Request.t) (db : DB.t)
    : list TaskItem.t :=
  List.filter (item_visible_to (Request.user_id request) db) (DB.items db).

(** [TaskItemViewSet.get_permissions]. *)
Definition TaskItemViewSet_get_permissions (a : action)
    : list (Request.t -> TaskItem.t -> DB.t -> bool) :=
  match a with
  | a_update | a_partial_update | a_destroy =>
      [IsTaskItemExecutorOrAssigner_has_object_permission]
  | a_retrieve =>
      [fun request i db =>
         IsTaskParticipant_has_object_permission request (TaskItemObj i) db]
  | _ => []
  end.

Inductive RemoveRoleResponse : Type :=
| HTTP_204_NO_CONTENT
| HTTP_400_cannot_remove_assigner
| HTTP_404_role_not_found.

Inductive ItemResponse : Type :=
| HTTP_200_item (item : TaskItem.t)
| HTTP_201_item (item : TaskItem.t)
| HTTP_400_item (errors : list string).

Section MoreViews.

(** The query filters of the two viewsets, as in [Views]. *)
Variable filterset : DB.t -> Task.t -> bool.
Variable item_filterset : DB.t -> TaskItem.t -> bool.

(** [TaskItemSerializer(...).is_valid()]: DRF's field validation of a
    request body, for a partial update or not; it gives the validated data
    or the error messages. *)
Variable TaskItemSerializer_validate :
  bool -> list (string * json) -> ItemPatch.t + list string.

(** Python's [int] on a string, as the key lookup of the ORM applies it to
    a value taken from the URL; [None] where it raises [ValueError]. *)
Variable python_int : string -> option Z.

(** An update of the task's status ([PATCH] with body [{"status": value}]):
    [get_object] under the permissions of [partial_update], then the
    serializer. *)
Definition TaskViewSet_partial_update_status (request : Request.t) (pk : Z)
    (value : string) : M Task.t :=
  task <- get_object filterset (TaskViewSet_get_permissions a_partial_update)
            request pk ;;
  TaskUpdateSerializer_update_status task value.

(** The [destroy] action: [get_object], then [instance.delete()]. *)
Definition TaskViewSet_destroy (request : Request.t) (pk : Z) : M unit :=
  task <- get_object filterset (TaskViewSet_get_permissions a_destroy)
            request pk ;;
  Task_delete task.

(** [TaskViewSet.remove_role]:
<<
    task = self.get_object()
    try:
        role = TaskRole.objects.get(pk=role_id, task=task)
        if role.role == 'assigner':
            return Response({...}, status=status.HTTP_400_BAD_REQUEST)
        role.delete()
        return Response(status=status.HTTP_204_NO_CONTENT)
    except TaskRole.DoesNotExist:
        return Response({...}, status=status.HTTP_404_NOT_FOUND)
>>
    [role_id] is the segment of the URL that matched [[^/.]+], a string.
    The lookup converts it with [int]; on a string that is no number this
    raises [ValueError], which [except TaskRole.DoesNotExist] does not
    catch. *)
Definition TaskViewSet_remove_role (request : Request.t) (pk : Z)
    (role_id : string) : M RemoveRoleResponse :=
  task <- get_object filterset (TaskViewSet_get_permissions a_remove_role)
            request pk ;;
  fun db =>
    match python_int role_id with
    | None => (Raise ValueError, db)
    | Some key =>
        match List.find (fun r => pk_is key (TaskRole.pk r))
                        (Task_roles task db) with
        | Some role =>
            if (TaskRole.role role =? "assigner")%string
            then (Ok HTTP_400_cannot_remove_assigner, db)
            else (_ <- TaskRole_delete role ;; ret HTTP_204_NO_CONTENT) db
        | None => (Ok HTTP_404_role_not_found, db)
        end
    end.

(** [TaskViewSet.add_item]:
<<
    task = self.get_object()
    serializer = TaskItemSerializer(data=request.data, ...)
    if serializer.is_valid():
        serializer.save(task=task)
        return Response(serializer.data, status=status.HTTP_201_CREATED)
    return Response(serializer.errors, status=status.HTTP_400_BAD_REQUEST)
>> *)
Definition TaskViewSet_add_item (now : Z) (request : Request.t) (pk : Z)
    : M ItemResponse :=
  task <- get_object filterset (TaskViewSet_get_permissions a_add_item)
            request pk ;;
  match TaskItemSerializer_validate false (Request.data request) with
  | inl validated_data =>
      item <- TaskItemSerializer_create now task validated_data ;;
      ret (HTTP_201_item item)
  | inr errors => ret (HTTP_400_item errors)
  end.

(** DRF's [get_object] on [TaskItemViewSet]. *)
Definition item_get_object
    (permissions : list (Request.t -> TaskItem.t -> DB.t -> bool))
    (request : Request.t) (pk : Z) : M TaskItem.t :=
  fun db =>
    match List.find (fun i => pk_is pk (TaskItem.pk i))
                    (List.filter (item_filterset db)
                                 (TaskItemViewSet_get_queryset request db)) with
    | None => (Raise Http404, db)
    | Some i =>
        if forallb (fun p => p request i db) permissions
        then (Ok i, db)
        else (Raise PermissionDenied, db)
    end.

Definition TaskItemViewSet_retrieve (request : Request.t) (pk : Z)
    : M TaskItem.t :=
  item_get_object (TaskItemViewSet_get_permissions a_retrieve) request pk.

Definition TaskItemViewSet_destroy (request : Request.t) (pk : Z) : M unit :=
  item <- item_get_object (TaskItemViewSet_get_permissions a_destroy)
            request pk ;;
  TaskItem_delete item.

(** The [update] ([PUT]) and [partial_update] ([PATCH]) actions of
    [TaskItemViewSet]: [get_object], validation (a failure is DRF's
    [ValidationError]), then [serializer.save()]. *)
Definition TaskItemViewSet_update (partial : bool) (now : Z)
    (request : Request.t) (pk : Z) : M ItemResponse :=
  item <- item_get_object
            (TaskItemViewSet_get_permissions
               (if partial then a_partial_update else a_update))
            request pk ;;
  match TaskItemSerializer_validate partial (Request.data request) with
  | inl validated_data =>
      saved <- TaskItemSerializer_update now item validated_data ;;
      ret (HTTP_200_item saved)
  | inr errors => raise (ValidationError errors)
  end.

End MoreViews.

(* ===================================================================== *)
(** * [apps/users/models.py]: [UserManager] *)
(* ===================================================================== *)

(** A keyword value handed to the manager. *)
Inductive pyval : Type :=
| VNone
| VBool (b : bool)
| VInt (z : Z)
| VStr (s : string).

(** The keyword dictionary [extra_fields], with [extra_fields.get(key)]
    and [extra_fields.setdefault(key, value)]. *)
Definition kwargs : Type := gmap string pyval.

Definition kw_get (key : string) (kw : kwargs) : option pyval := kw !! key.

Definition kw_setdefault (key : string) (value : pyval) (kw : kwargs) : kwargs :=
  match kw !! key with
  | Some _ => kw
  | None => <[key := value]> kw
  end.

(** [x is not True]. *)
Definition is_not_True (v : option pyval) : bool :=
  match v with
  | Some (VBool true) => false
  | _ => true
  end.

Section UserManager.

(** The instances of the user model. *)
Variable UserInstance : Type.

(** [BaseUserManager.normalize_email] is Django's. *)
Variable normalize_email : string -> string.

(** The last four lines of [create_user] are Django's: the model
    constructor on the keywords (it raises on a keyword that is no field),
    [set_password] and [save]. *)
Variable save_new_user :
  string -> option string -> kwargs -> result UserInstance.

(** [UserManager.create_user]:
<<
    if not email:
        raise ValueError('Email address is required')
    email = self.normalize_email(email)
    user = self.model(email=email, **extra_fields)
    user.set_password(password)
    user.save(using=self._db)
    return user
>> *)
Definition UserManager_create_user (email : option string)
    (password : option string) (extra_fields : kwargs) : result UserInstance :=
  match email with
  | None => Raise ValueError
  | Some e =>
      if (e =? "")%string then Raise ValueError
      else save_new_user (normalize_email e) password extra_fields
  end.

(** [UserManager.create_superuser]:
<<
    extra_fields.setdefault('is_staff', True)
    extra_fields.setdefault('is_superuser', True)
    extra_fields.setdefault('is_active', True)
    if extra_fields.get('is_staff') is not True:
        raise ValueError('Superuser must have is_staff=True.')
    if extra_fields.get('is_superuser') is not True:
        raise ValueError('Superuser must have is_superuser=True.')
    return self.create_user(email, password, **extra_fields)
>> *)
Definition UserManager_create_superuser (email : option string)
    (password : option string) (extra_fields : kwargs) : result UserInstance :=
  let extra_fields := kw_setdefault "is_staff" (VBool true) extra_fields in
  let extra_fields := kw_setdefault "is_superuser" (VBool true) extra_fields in
  let extra_fields := kw_setdefault "is_active" (VBool true) extra_fields in
  if is_not_True (kw_get "is_staff" extra_fields) then Raise ValueError
  else if is_not_True (kw_get "is_superuser" extra_fields) then Raise ValueError
  else UserManager_create_user email password extra_fields.

End UserManager.

(* ===================================================================== *)
(** * Vocabulary of the properties *)
(* ===================================================================== *)

(** [completed_at] is set exactly on a completed item. *)
Definition completed_at_consistent (i : TaskItem.t) : Prop :=
  TaskItem.completed_at i <> None <-> TaskItem.status i = "completed".

(** The child items of a task that are not completed. *)
Definition incomplete_items (task : Task.t) (db : DB.t) : list TaskItem.t :=
  List.filter (fun i => negb (is_completed i)) (Task_items task db).

(** The user holds a role on the task with key [k]; the user is executor
    of one of its items. *)
Definition holds_role (k uid : Z) (db : DB.t) : Prop :=
  exists r, In r (DB.roles db) /\ TaskRole.task r = k /\ TaskRole.user r = uid.

Definition executes_item (k uid : Z) (db : DB.t) : Prop :=
  exists i, In i (DB.items db) /\ TaskItem.task i = k
            /\ TaskItem.executor i = Some uid.

(** The role rows a loop over [us] inserts, keyed from [next] on. *)
Fixpoint role_rows (t : Z) (role : string) (next : Z) (us : list Z)
    : list TaskRole.t :=
  match us with
  | [] => []
  | u :: rest => TaskRole.mk (Some next) t u role :: role_rows t role (next + 1) rest
  end.

(** The role rows of one creation: the assigner, then the co-executors,
    then the observers. *)
Definition created_roles (t uid next : Z) (co obs : list Z) : list TaskRole.t :=
  TaskRole.mk (Some next) t uid "assigner"
  :: role_rows t "co_executor" (next + 1) co
  ++ role_rows t "observer" (next + 1 + Z.of_nat (length co)) obs.

(** The item row stored for the definition at position [idx]. *)
Definition item_row (clock : nat -> Z) (t next : Z) (idx : nat)
    (d : ItemData.t) : TaskItem.t :=
  TaskItem.with_pk next
    (TaskItem_set_completed_at (clock idx)
       (TaskItem.mk None t (ItemData.title d)
          (pop (ItemData.description d) "")
          (pop (ItemData.executor_id d) None)
          (pop (ItemData.status d) "todo")
          (pop (ItemData.planned_hours d) 0)
          idx None)).

Fixpoint item_rows (clock : nat -> Z) (t next : Z) (idx : nat)
    (defs : list ItemData.t) : list TaskItem.t :=
  match defs with
  | [] => []
  | d :: rest =>
      item_row clock t next idx d :: item_rows clock t (next + 1) (S idx) rest
  end.

(** The database after a creation that completed. *)
Definition created_db (clock : nat -> Z) (request : Request.t)
    (vd : TaskData.t) (db : DB.t) : DB.t :=
  let k := DB.next_task db in
  let new_roles :=
    created_roles k (Request.user_id request) (DB.next_role db)
      (pop (TaskData.co_executors vd) []) (pop (TaskData.observers vd) []) in
  let new_items :=
    item_rows clock k (DB.next_item db) 0 (pop (TaskData.task_items vd) []) in
  DB.mk (DB.users db)
        (DB.tasks db
         ++ [Task.mk (Some k) (TaskData.title vd) (TaskData.description vd) "new"])
        (DB.roles db ++ new_roles)
        (DB.items db ++ new_items)
        (DB.timelogs db)
        (k + 1)
        (DB.next_role db + Z.of_nat (length new_roles))
        (DB.next_item db + Z.of_nat (length new_items))
        (DB.next_timelog db).

(** What a creation needs in order to complete: no stored role points at
    the key the task will get, every user named exists, no id is listed
    twice for one role, and no item definition carries [order]. *)
Record creation_ready (request : Request.t) (vd : TaskData.t) (db : DB.t)
    : Prop := {
  ready_fresh :
    forall r, In r (DB.roles db) -> TaskRole.task r <> DB.next_task db;
  ready_requester : user_exists (Request.user_id request) db = true;
  ready_co :
    forall u, In u (pop (TaskData.co_executors vd) []) -> user_exists u db = true;
  ready_obs :
    forall u, In u (pop (TaskData.observers vd) []) -> user_exists u db = true;
  ready_co_nodup : List.NoDup (pop (TaskData.co_executors vd) []);
  ready_obs_nodup : List.NoDup (pop (TaskData.observers vd) []);
  ready_items :
    forall d, In d (pop (TaskData.task_items vd) []) ->
      ItemData.order d = None
      /\ forall u, pop (ItemData.executor_id d) None = Some u ->
                   user_exists u db = true
}.

(** The float is [+0] or a positive finite number. *)
Definition nonneg_finite (x : Py.float) : bool :=
  match x with
  | S754_zero false => true
  | S754_finite false _ _ => true
  | _ => false
  end.

(** For [completed] of [count] items: the float product is non-negative
    and the hundredths count [round] lands on is a nearest integer to the
    exact [10000 * completed / count]. *)
Definition nearest_hundredth (completed count : nat) : bool :=
  let x := Py.mul (Py.truediv (Z.of_nat completed) (Z.of_nat count))
                  (Py.float_of_int 100) in
  let q := Py.round_digits x 2 in
  nonneg_finite x
  && (2 * Z.abs (10000 * Z.of_nat completed - q * Z.of_nat count)
      <=? Z.of_nat count).

Definition nearest_hundredth_upto (bound : nat) : bool :=
  forallb (fun count =>
             forallb (fun completed => nearest_hundredth completed count)
                     (seq 0 (S count)))
          (seq 1 bound).

(* ===================================================================== *)
(** * Vocabulary of the further properties *)
(* ===================================================================== *)

(** The user holds the assigner role on the task with key [k]. *)
Definition holds_assigner_role (k uid : Z) (db : DB.t) : Prop :=
  exists r, In r (DB.roles db) /\ TaskRole.task r = k /\ TaskRole.user r = uid
            /\ TaskRole.role r = "assigner".

(** The columns of [unique_together]; no two role rows share them. *)
Definition role_triple (r : TaskRole.t) : Z * Z * string :=
  (TaskRole.task r, TaskRole.user r, TaskRole.role r).

Definition unique_role_triples (db : DB.t) : Prop :=
  List.NoDup (map role_triple (DB.roles db)).

(** A time log is consistent when the item it holds belongs to its task. *)
Definition log_consistent (l : TimeLog.t) : Prop :=
  forall i, TimeLog.task_item l = Some i -> TaskItem.task i = TimeLog.task l.

(** The computation keeps [P]: from a database where [P] holds it ends,
    normally or by an exception, in one where [P] holds. *)
Definition preserves {A} (P : DB.t -> Prop) (m : M A) : Prop :=
  forall db r db', P db -> m db = (r, db') -> P db'.

(** Every stored item has [completed_at] exactly when it is completed. *)
Definition items_consistent (db : DB.t) : Prop :=
  Forall completed_at_consistent (DB.items db).

(** Referential integrity of the task tables: the task of every role and
    item exists. *)
Definition children_have_task (db : DB.t) : Prop :=
  (forall r, In r (DB.roles db) -> task_exists (TaskRole.task r) db = true)
  /\ (forall i, In i (DB.items db) -> task_exists (TaskItem.task i) db = true).

(** The validated data names no field whose key is absent from the body. *)
Definition patch_within (p : ItemPatch.t) (keys : list string) : Prop :=
  (ItemPatch.title p <> None -> In "title" keys)
  /\ (ItemPatch.description p <> None -> In "description" keys)
  /\ (ItemPatch.executor_id p <> None -> In "executor_id" keys)
  /\ (ItemPatch.status p <> None -> In "status" keys)
  /\ (ItemPatch.planned_hours p <> None -> In "planned_hours" keys)
  /\ (ItemPatch.order p <> None -> In "order" keys).

(** The save writes the column: a whole-row save writes every column, a
    save with [update_fields] those it names. *)
Definition writes_column (kwargs : SaveKwargs.t) (name attname : string) : bool :=
  match SaveKwargs.update_fields kwargs with
  | None => true
  | Some fields => column_named fields name attname
  end.

(** A test on the key of a stored task. *)
Definition task_key_test (f : Z -> bool) (t : Task.t) : bool :=
  match Task.pk t with Some k => f k | None => false end.

(** Every primitive write of the ORM keeps [P]; an item is saved whole
    (the actions never pass [update_fields]), a time log with whatever
    arguments. *)
Record writes_preserve (P : DB.t -> Prop) : Prop := {
  wp_task_create :
    forall title description, preserves P (Task_objects_create title description);
  wp_task_save : forall self, preserves P (Task_Model_save self);
  wp_task_delete : forall self, preserves P (Task_delete self);
  wp_role_create :
    forall task user role, preserves P (TaskRole_objects_create task user role);
  wp_role_delete : forall self, preserves P (TaskRole_delete self);
  wp_item_save :
    forall now kwargs self,
      SaveKwargs.update_fields kwargs = None ->
      preserves P (TaskItem_save now kwargs self);
  wp_item_delete : forall self, preserves P (TaskItem_delete self);
  wp_log_save :
    forall kwargs self, preserves P (TimeLog_Model_save_kwargs kwargs self)
}.

(** Each action modelled above keeps [P]: task creation, [retrieve], the
    status update, [destroy], [add_role], [remove_role] and [add_item] of
    [TaskViewSet]; [retrieve], [update] and [destroy] of [TaskItemViewSet];
    and [TimeLog.save] with any arguments; whatever the request, the
    query filters and the field validation. *)
Definition every_action_preserves (P : DB.t -> Prop) : Prop :=
  forall (filterset : DB.t -> Task.t -> bool)
         (item_filterset : DB.t -> TaskItem.t -> bool)
         (validate : bool -> list (string * json) -> ItemPatch.t + list string)
         (python_int : string -> option Z)
         (clean_fields : DB.t -> TimeLog.t -> list string)
         (clock : nat -> Z) (now : Z) (request : Request.t) (pk : Z)
         (role_id : string) (value : string) (partial : bool)
         (vd : TaskData.t) (kwargs : SaveKwargs.t) (log : TimeLog.t),
    preserves P (TaskCreateSerializer_create clock request vd)
    /\ preserves P (TaskViewSet_retrieve filterset request pk)
    /\ preserves P (TaskViewSet_partial_update_status filterset request pk value)
    /\ preserves P (TaskViewSet_destroy filterset request pk)
    /\ preserves P (TaskViewSet_add_role filterset request pk)
    /\ preserves P (TaskViewSet_remove_role filterset python_int request pk
                      role_id)
    /\ preserves P (TaskViewSet_add_item filterset validate now request pk)
    /\ preserves P (TaskItemViewSet_retrieve item_filterset request pk)
    /\ preserves P (TaskItemViewSet_update item_filterset validate partial now
                      request pk)
    /\ preserves P (TaskItemViewSet_destroy item_filterset request pk)
    /\ preserves P (TimeLog_save clean_fields kwargs log).

(* ===================================================================== *)
(** * Fixtures (after [tests/conftest.py]) *)
(* ===================================================================== *)

(** Four users, none of them staff, and one task created by the first with
    co-executors 2 and 3, observer 4 and two items, the second completed
    and executed by user 2. *)
Module Fixture.
Definition user1 : User.t := User.mk 1 false.
Definition user2 : User.t := User.mk 2 false.
Definition user3 : User.t := User.mk 3 false.
Definition user4 : User.t := User.mk 4 false.
Definition db0 : DB.t := DB.empty [user1; user2; user3; user4].
Definition clock (idx : nat) : Z := 1000 + Z.of_nat idx.
Definition all_tasks (_ : DB.t) (_ : Task.t) : bool := true.
Definition item_a : ItemData.t := ItemData.mk "a" None None None None None.
Definition item_b : ItemData.t :=
  ItemData.mk "b" None (Some (Some 2)) (Some "completed") None None.
Definition task_data : TaskData.t :=
  TaskData.mk "Task" "Text" (Some [2; 3]) (Some [4]) (Some [item_a; item_b]).
Definition post (u : User.t) (data : list (string * json)) : Request.t :=
  Request.mk u "POST" data.
(** [int] on a string of ASCII digits, the only numbers the fixtures
    write. *)
Definition digits_int (s : string) : option Z :=
  option_map Z.of_uint (NilZero.uint_of_string s).
Definition db1 : DB.t :=
  Eval vm_compute in
    snd (TaskCreateSerializer_create clock (post user1 []) task_data db0).
Definition task1 : Task.t := Task.mk (Some 1) "Task" "Text" "new".
Definition todo_item : TaskItem.t :=
  TaskItem.mk (Some 1) 1 "a" "" None "todo" 0 0 None.
Definition done_item : TaskItem.t :=
  TaskItem.mk (Some 2) 1 "b" "" (Some 2) "completed" 0 1 (Some 1001).
(** Two tasks with one item each and one time log, booked on the first
    task and its item; and that log as an instance moved to the second
    task and its item. *)
Definition first_item : TaskItem.t :=
  TaskItem.mk (Some 1) 1 "a" "" None "todo" 0 0 None.
Definition second_item : TaskItem.t :=
  TaskItem.mk (Some 2) 2 "b" "" None "todo" 0 0 None.
Definition two_tasks : DB.t :=
  DB.mk [user1; user2]
        [Task.mk (Some 1) "A" "" "new"; Task.mk (Some 2) "B" "" "new"] []
        [first_item; second_item]
        [TimeLog.mk (Some 1) 1 1 (Some first_item) 20251101 150 "work"]
        3 1 3 2.
Definition moved_log : TimeLog.t :=
  TimeLog.mk (Some 1) 1 2 (Some second_item) 20251101 150 "work".
End Fixture.

(** One task and a table of items that all belong to it. *)
Module ProgressFixture.
Definition item (k : Z) (status : string) : TaskItem.t :=
  TaskItem.mk (Some k) 1 "item" "" None status 0 0 None.
Definition with_items (rows : list TaskItem.t) : DB.t :=
  DB.mk [User.mk 1 false] [Task.mk (Some 1) "Task" "Text" "new"] [] rows []
        2 1 (1 + Z.of_nat (length rows)) 1.
Definition task : Task.t := Task.mk (Some 1) "Task" "Text" "new".
Definition two_of_three : DB.t :=
  with_items [item 1 "completed"; item 2 "completed"; item 3 "todo"].
Definition one_of_thirty_two : DB.t :=
  with_items (item 1 "completed"
              :: map (fun k => item (Z.of_nat k) "todo") (seq 2 31)).
End ProgressFixture.

(* ===================================================================== *)
(** * Basic facts *)
(* ===================================================================== *)

Lemma is_completed_true (i : TaskItem.t) :
  is_completed i = true <-> TaskItem.status i = "completed".
Proof. unfold is_completed. apply String.eqb_eq. Qed.

Lemma is_completed_false (i : TaskItem.t) :
  is_completed i = false <-> TaskItem.status i <> "completed".
Proof. unfold is_completed. apply String.eqb_neq. Qed.

Lemma truthy_false {A} (o : option A) : truthy o = false <-> o = None.
Proof. destruct o; simpl; split; congruence. Qed.

Lemma truthy_true {A} (o : option A) : truthy o = true <-> o <> None.
Proof. destruct o; simpl; split; congruence. Qed.

Lemma pk_is_true (k : Z) (o : option Z) : pk_is k o = true <-> o = Some k.
Proof.
  destruct o as [j|]; simpl; [rewrite Z.eqb_eq|]; split; congruence.
Qed.

Lemma opt_eqb_true (a b : option Z) : opt_eqb a b = true <-> a = b.
Proof.
  destruct a, b; simpl; rewrite ?Z.eqb_eq; split; congruence.
Qed.

Lemma In_update_row {R} (get_pk : R -> option Z) k new rows x :
  In x (update_row get_pk k new rows) -> In x rows \/ x = new.
Proof.
  unfold update_row. rewrite in_map_iff. intros [r [Hr Hin]].
  destruct (pk_is k (get_pk r)); subst; auto.
Qed.

Lemma update_row_In_new {R} (get_pk : R -> option Z) k new rows :
  existsb (fun x => pk_is k (get_pk x)) rows = true ->
  In new (update_row get_pk k new rows).
Proof.
  rewrite existsb_exists. intros [r [Hin Hk]].
  unfold update_row. apply in_map_iff. exists r. rewrite Hk. auto.
Qed.

Lemma bind_ok {A B} (m : M A) (k : A -> M B) db b db' :
  bind m k db = (Ok b, db') ->
  exists a db1, m db = (Ok a, db1) /\ k a db1 = (Ok b, db').
Proof.
  unfold bind. destruct (m db) as [[a|e] db1]; [eauto | discriminate].
Qed.

Lemma bind_run {A B} (m : M A) (k : A -> M B) db a db1 :
  m db = (Ok a, db1) -> bind m k db = k a db1.
Proof. intros H. unfold bind. rewrite H. reflexivity. Qed.

Lemma existsb_false_iff {A} (f : A -> bool) (l : list A) :
  existsb f l = false <-> forall x, In x l -> f x = false.
Proof.
  split.
  - intros H x Hin. destruct (f x) eqn:Hf; [|reflexivity].
    assert (existsb f l = true) by (apply existsb_exists; eauto). congruence.
  - intros H. destruct (existsb f l) eqn:He; [|reflexivity].
    apply existsb_exists in He. destruct He as [x [Hin Hf]].
    rewrite (H x Hin) in Hf. discriminate.
Qed.

Lemma same_triple_true a b :
  same_triple a b = true
  <-> TaskRole.task a = TaskRole.task b /\ TaskRole.user a = TaskRole.user b
      /\ TaskRole.role a = TaskRole.role b.
Proof.
  unfold same_triple. rewrite !andb_true_iff, !Z.eqb_eq, String.eqb_eq. tauto.
Qed.

(* --------------------------------------------------------------------- *)
(** ** [TaskItem.save] *)
(* --------------------------------------------------------------------- *)


Lemma set_completed_at_consistent now self :
  completed_at_consistent (TaskItem_set_completed_at now self).
Proof.
  unfold completed_at_consistent, TaskItem_set_completed_at.
  destruct (is_completed self) eqn:Hc;
    destruct (TaskItem.completed_at self) as [t|] eqn:Ht; simpl;
    rewrite ?Ht; simpl.
  - apply is_completed_true in Hc. split; [auto | congruence].
  - apply is_completed_true in Hc. split; [auto | congruence].
  - apply is_completed_false in Hc. split; [congruence | contradiction].
  - apply is_completed_false in Hc. split; [congruence | contradiction].
Qed.



Lemma set_completed_at_kept now self t :
  TaskItem.status self = "completed" ->
  TaskItem.completed_at self = Some t ->
  TaskItem_set_completed_at now self = self.
Proof.
  intros Hs Hc. unfold TaskItem_set_completed_at.
  apply is_completed_true in Hs. rewrite Hs, Hc. reflexivity.
Qed.

(** What [Model.save] returns and writes: the instance, keyed if it was
    not, is a row of the table afterwards and every other row was there
    before. *)
Lemma TaskItem_Model_save_ok self db saved db' :
  TaskItem_Model_save self db = (Ok saved, db') ->
  (saved = self \/ exists k, saved = TaskItem.with_pk k self)
  /\ In saved (DB.items db')
  /\ (forall x, In x (DB.items db') -> In x (DB.items db) \/ x = saved)
  /\ DB.users db' = DB.users db /\ DB.tasks db' = DB.tasks db.
Proof.
  unfold TaskItem_Model_save.
  destruct (negb (TaskItem_fk_ok self db)); [discriminate|].
  destruct (TaskItem.pk self) as [k|] eqn:Hpk.
  - destruct (item_exists k db) eqn:Hex; intros H; inversion H; subst; clear H;
      simpl; repeat split; auto.
    + apply update_row_In_new. exact Hex.
    + intros x Hx. apply In_update_row in Hx. exact Hx.
    + apply in_or_app. right. left. reflexivity.
    + intros x Hx. apply in_app_or in Hx. destruct Hx as [Hx|[Hx|[]]]; auto.
  - intros H; inversion H; subst; clear H; simpl; repeat split; eauto.
    + apply in_or_app. right. left. reflexivity.
    + intros x Hx. apply in_app_or in Hx. destruct Hx as [Hx|[Hx|[]]]; auto.
Qed.


Lemma TaskItem_Model_save_succeeds self db :
  TaskItem_fk_ok self db = true ->
  exists saved db', TaskItem_Model_save self db = (Ok saved, db').
Proof.
  intros Hfk. unfold TaskItem_Model_save. rewrite Hfk. simpl.
  destruct (TaskItem.pk self) as [k|]; [destruct (item_exists k db)|]; eauto.
Qed.

Lemma with_pk_completed_at k self :
  TaskItem.completed_at (TaskItem.with_pk k self) = TaskItem.completed_at self.
Proof. reflexivity. Qed.

Lemma with_pk_status k self :
  TaskItem.status (TaskItem.with_pk k self) = TaskItem.status self.
Proof. reflexivity. Qed.

Lemma saved_fields self saved :
  (saved = self \/ exists k, saved = TaskItem.with_pk k self) ->
  TaskItem.status saved = TaskItem.status self
  /\ TaskItem.completed_at saved = TaskItem.completed_at self.
Proof. intros [->|[k ->]]; auto. Qed.

Lemma set_completed_at_pk now self :
  TaskItem.pk (TaskItem_set_completed_at now self) = TaskItem.pk self.
Proof.
  unfold TaskItem_set_completed_at.
  destruct (_ && _); [reflexivity|]. destruct (_ && _); reflexivity.
Qed.

(** [save()], and the save of [QuerySet.create] on a new instance, are
    [Model.save] of the whole row with the default arguments. *)
Lemma TaskItem_save_none now self db :
  TaskItem_save now SaveKwargs.none self db
  = TaskItem_Model_save (TaskItem_set_completed_at now self) db.
Proof.
  unfold TaskItem_save, TaskItem_Model_save_kwargs.
  cbn [SaveKwargs.force_insert SaveKwargs.force_update
       SaveKwargs.update_fields SaveKwargs.none andb orb].
  destruct (TaskItem.pk _); reflexivity.
Qed.

Lemma TaskItem_save_create now self db :
  TaskItem.pk self = None ->
  TaskItem_save now SaveKwargs.create self db
  = TaskItem_Model_save (TaskItem_set_completed_at now self) db.
Proof.
  intros Hpk. unfold TaskItem_save, TaskItem_Model_save_kwargs.
  cbn [SaveKwargs.force_insert SaveKwargs.force_update
       SaveKwargs.update_fields SaveKwargs.create andb orb truthy_fields].
  rewrite set_completed_at_pk, Hpk. reflexivity.
Qed.

(** A save without [update_fields] raises and writes nothing, or is
    [Model.save] of the whole row. *)
Lemma TaskItem_Model_save_kwargs_whole kwargs self db r db' :
  SaveKwargs.update_fields kwargs = None ->
  TaskItem_Model_save_kwargs kwargs self db = (r, db') ->
  (db' = db /\ exists e, r = Raise e)
  \/ TaskItem_Model_save self db = (r, db').
Proof.
  intros Hnone. unfold TaskItem_Model_save_kwargs. rewrite Hnone.
  destruct (SaveKwargs.force_insert kwargs), (SaveKwargs.force_update kwargs);
    cbn [andb orb truthy_fields negb];
    destruct (TaskItem.pk self) as [k|];
    try destruct (item_exists k db); cbn [andb orb negb];
    intros H; auto; inversion H; subst; left; eauto.
Qed.





Lemma TaskItem_Model_save_keyed self db saved db' :
  TaskItem_Model_save self db = (Ok saved, db') ->
  exists k, TaskItem.pk saved = Some k.
Proof.
  unfold TaskItem_Model_save.
  destruct (negb (TaskItem_fk_ok self db)); [discriminate|].
  destruct (TaskItem.pk self) as [k|] eqn:Hpk.
  - destruct (item_exists k db); intros H; inversion H; subst; eauto.
  - intros H; inversion H; subst. simpl. eauto.
Qed.

Lemma TaskItem_Model_save_keyed_returns_self self db k :
  TaskItem.pk self = Some k ->
  TaskItem_fk_ok self db = true ->
  exists db', TaskItem_Model_save self db = (Ok self, db').
Proof.
  intros Hpk Hfk. unfold TaskItem_Model_save. rewrite Hfk, Hpk. simpl.
  destruct (item_exists k db); eauto.
Qed.

Lemma TaskItem_fk_ok_ext a b db db' :
  TaskItem.task a = TaskItem.task b ->
  TaskItem.executor a = TaskItem.executor b ->
  DB.users db' = DB.users db ->
  DB.tasks db' = DB.tasks db ->
  TaskItem_fk_ok a db' = TaskItem_fk_ok b db.
Proof.
  intros Ht He Hu Hts.
  unfold TaskItem_fk_ok, task_exists, user_exists.
  rewrite Ht, He, Hu, Hts. reflexivity.
Qed.

(** C10.  Saving an item that is completed and has its [completed_at]
    leaves the timestamp as it was, in the instance and in the stored row,
    whatever the current time; saving the result once more returns the
    same instance again. *)
Theorem TaskItem_save_keeps_completed_at (now now2 t : Z) (self : TaskItem.t)
    (db : DB.t) :
  TaskItem.status self = "completed" ->
  TaskItem.completed_at self = Some t ->
  TaskItem_fk_ok self db = true ->
  TaskItem_set_completed_at now self = self
  /\ exists saved db',
       TaskItem_save now SaveKwargs.none self db = (Ok saved, db')
       /\ In saved (DB.items db')
       /\ TaskItem.completed_at saved = Some t
       /\ exists db'',
            TaskItem_save now2 SaveKwargs.none saved db' = (Ok saved, db'')
            /\ In saved (DB.items db'').
Proof.
  intros Hs Hc Hfk.
  pose proof (set_completed_at_kept now self t Hs Hc) as Hkeep.
  split; [exact Hkeep|].
  rewrite TaskItem_save_none, Hkeep.
  destruct (TaskItem_Model_save_succeeds self db Hfk) as (saved & db' & Hsave).
  exists saved, db'. split; [exact Hsave|].
  pose proof (TaskItem_Model_save_keyed _ _ _ _ Hsave) as [k Hk].
  apply TaskItem_Model_save_ok in Hsave.
  destruct Hsave as (Hshape & Hin & _ & Hu & Hts).
  assert (Hfields : TaskItem.status saved = "completed"
                    /\ TaskItem.completed_at saved = Some t).
  { apply saved_fields in Hshape. destruct Hshape as [H1 H2].
    rewrite H1, H2. auto. }
  destruct Hfields as [Hs' Hc'].
  repeat split; auto.
  rewrite TaskItem_save_none, (set_completed_at_kept now2 saved t Hs' Hc').
  assert (Hfk' : TaskItem_fk_ok saved db' = true).
  { rewrite <- Hfk. apply TaskItem_fk_ok_ext; auto;
      destruct Hshape as [->|[j ->]]; reflexivity. }
  destruct (TaskItem_Model_save_keyed_returns_self saved db' k Hk Hfk')
    as [db'' Hsave2].
  exists db''. split; [exact Hsave2|].
  apply TaskItem_Model_save_ok in Hsave2. apply Hsave2.
Qed.

Lemma TaskItem_save_keeps_completed_at_witness :
  exists saved db',
    TaskItem_save 5000 SaveKwargs.none Fixture.done_item Fixture.db1
    = (Ok saved, db')
    /\ TaskItem.completed_at saved = Some 1001.
Proof.
  destruct (TaskItem_save_keeps_completed_at 5000 6000 1001
              Fixture.done_item Fixture.db1)
    as (_ & saved & db' & Hsave & _ & Hc & _).
  - reflexivity.
  - reflexivity.
  - vm_compute. reflexivity.
  - exists saved, db'. split; assumption.
Defined.

(* --------------------------------------------------------------------- *)
(** ** The item-mutation check *)
(* --------------------------------------------------------------------- *)

Lemma update_fields_subset (request : Request.t) :
  update_fields request ⊆ allowed_fields
  <-> forall k, In k (map fst (Request.data request)) -> k = "status".
Proof.
  unfold update_fields, allowed_fields. split.
  - intros Hsub k Hk.
    assert (Hel : k ∈ (list_to_set (map fst (Request.data request)) : gset string)).
    { apply elem_of_list_to_set. apply list_elem_of_In. exact Hk. }
    apply Hsub in Hel. apply elem_of_singleton in Hel. exact Hel.
  - intros Hall k Hk. apply elem_of_list_to_set in Hk.
    apply list_elem_of_In in Hk. apply elem_of_singleton. auto.
Qed.

Lemma method_in_patch_put_true (m : string) :
  method_in_patch_put m = true <-> m = "PATCH" \/ m = "PUT".
Proof.
  unfold method_in_patch_put. rewrite orb_true_iff, !String.eqb_eq. tauto.
Qed.

(** The check for an executor who is neither staff nor the assigner, on a
    [PATCH] or [PUT]: it is the subset test. *)
Lemma executor_permission_is_subset_test request o db :
  User.is_staff (Request.user request) = false ->
  is_assigner_on (TaskItem.task o) (Request.user_id request) db = false ->
  TaskItem.executor o = Some (Request.user_id request) ->
  Request.method request = "PATCH" \/ Request.method request = "PUT" ->
  IsTaskItemExecutorOrAssigner_has_object_permission request o db
  = bool_decide (update_fields request ⊆ allowed_fields).
Proof.
  intros Hstaff Hassigner Hexec Hmethod.
  unfold IsTaskItemExecutorOrAssigner_has_object_permission.
  rewrite Hstaff, Hassigner.
  apply opt_eqb_true in Hexec. rewrite Hexec.
  apply method_in_patch_put_true in Hmethod. rewrite Hmethod.
  destruct (bool_decide _); reflexivity.
Qed.

(** C2.  For the item's executor, not staff and not the task's assigner,
    a [PATCH] or [PUT] is permitted exactly when the keys of the request
    body form a subset of [{status}]: a body with any other key is denied,
    also when [status] is among its keys, and a body with [status] alone is
    permitted. *)
Theorem executor_write_permitted_iff_status_only (request : Request.t)
    (o : TaskItem.t) (db : DB.t) :
  User.is_staff (Request.user request) = false ->
  is_assigner_on (TaskItem.task o) (Request.user_id request) db = false ->
  TaskItem.executor o = Some (Request.user_id request) ->
  Request.method request = "PATCH" \/ Request.method request = "PUT" ->
  (IsTaskItemExecutorOrAssigner_has_object_permission request o db = true
   <-> update_fields request ⊆ allowed_fields)
  /\ (IsTaskItemExecutorOrAssigner_has_object_permission request o db = true
      <-> forall k, In k (map fst (Request.data request)) -> k = "status")
  /\ ((exists k, In k (map fst (Request.data request)) /\ k <> "status") ->
      IsTaskItemExecutorOrAssigner_has_object_permission request o db = false)
  /\ (map fst (Request.data request) = ["status"] ->
      IsTaskItemExecutorOrAssigner_has_object_permission request o db = true).
Proof.
  intros Hstaff Hassigner Hexec Hmethod.
  rewrite (executor_permission_is_subset_test request o db
             Hstaff Hassigner Hexec Hmethod).
  rewrite bool_decide_eq_true, bool_decide_eq_false.
  rewrite update_fields_subset.
  repeat split; auto.
  - intros [k [Hin Hne]] Hall. apply Hne. apply Hall. exact Hin.
  - intros Hkeys k Hk. rewrite Hkeys in Hk.
    destruct Hk as [Hk|[]]. symmetry. exact Hk.
Qed.

Lemma executor_write_permitted_iff_status_only_witness :
  IsTaskItemExecutorOrAssigner_has_object_permission
    (Request.mk Fixture.user2 "PATCH"
       [("status", JStr "in_progress"); ("title", JStr "New Title")])
    Fixture.done_item Fixture.db1 = false.
Proof.
  apply (executor_write_permitted_iff_status_only
           (Request.mk Fixture.user2 "PATCH"
              [("status", JStr "in_progress"); ("title", JStr "New Title")])
           Fixture.done_item Fixture.db1).
  - reflexivity.
  - vm_compute. reflexivity.
  - reflexivity.
  - left. reflexivity.
  - exists "title". split; [simpl; auto | discriminate].
Defined.

(** C9.  For the item's executor, not staff and not the task's assigner,
    a [PATCH] or [PUT] whose body has no field is permitted: the empty set
    of keys is a subset of [{status}]. *)
Theorem executor_empty_body_permitted (request : Request.t) (o : TaskItem.t)
    (db : DB.t) :
  User.is_staff (Request.user request) = false ->
  is_assigner_on (TaskItem.task o) (Request.user_id request) db = false ->
  TaskItem.executor o = Some (Request.user_id request) ->
  Request.method request = "PATCH" \/ Request.method request = "PUT" ->
  Request.data request = [] ->
  update_fields request = ∅
  /\ IsTaskItemExecutorOrAssigner_has_object_permission request o db = true.
Proof.
  intros Hstaff Hassigner Hexec Hmethod Hdata.
  split.
  - unfold update_fields. rewrite Hdata. reflexivity.
  - rewrite (executor_permission_is_subset_test request o db
               Hstaff Hassigner Hexec Hmethod).
    apply bool_decide_eq_true. apply update_fields_subset.
    rewrite Hdata. intros k [].
Qed.

Lemma executor_empty_body_permitted_witness :
  IsTaskItemExecutorOrAssigner_has_object_permission
    (Request.mk Fixture.user2 "PUT" []) Fixture.done_item Fixture.db1 = true.
Proof.
  apply (executor_empty_body_permitted
           (Request.mk Fixture.user2 "PUT" []) Fixture.done_item Fixture.db1).
  - reflexivity.
  - vm_compute. reflexivity.
  - reflexivity.
  - right. reflexivity.
  - reflexivity.
Defined.

(* --------------------------------------------------------------------- *)
(** ** Completing a task *)
(* --------------------------------------------------------------------- *)

Lemma incomplete_items_nil task db :
  incomplete_items task db = []
  <-> forall i, In i (Task_items task db) -> TaskItem.status i = "completed".
Proof.
  unfold incomplete_items. split.
  - intros Hnil i Hi.
    destruct (is_completed i) eqn:Hc; [apply is_completed_true; exact Hc|].
    assert (Hin : In i (List.filter (fun i => negb (is_completed i))
                                    (Task_items task db))).
    { apply filter_In. rewrite Hc. auto. }
    rewrite Hnil in Hin. destruct Hin.
  - intros Hall.
    destruct (List.filter _ _) as [|x rest] eqn:Hf; [reflexivity|].
    assert (Hin : In x (List.filter (fun i => negb (is_completed i))
                                    (Task_items task db))).
    { rewrite Hf. left. reflexivity. }
    apply filter_In in Hin. destruct Hin as [Hin Hneg].
    apply Hall in Hin. apply is_completed_true in Hin.
    rewrite Hin in Hneg. discriminate.
Qed.

Lemma Task_Model_save_ok self db :
  exists saved db',
    Task_Model_save self db = (Ok saved, db')
    /\ Task.status saved = Task.status self
    /\ In saved (DB.tasks db').
Proof.
  unfold Task_Model_save. destruct (Task.pk self) as [k|] eqn:Hpk.
  - destruct (task_exists k db) eqn:Hex; do 2 eexists;
      (split; [reflexivity|]); split; auto; simpl.
    + apply update_row_In_new. exact Hex.
    + apply in_or_app. right. left. reflexivity.
  - do 2 eexists. split; [reflexivity|]. split; [reflexivity|]. simpl.
    apply in_or_app. right. left. reflexivity.
Qed.

(** C3.  Setting a task's status to ['completed'] is refused with a
    validation error, the database left as it was, whenever a child item
    is not completed, and the message ends with the number of such items;
    when every child item is completed (or there is none) the update is
    accepted and the task is stored as completed. *)
Theorem complete_task_requires_completed_items (task : Task.t) (db : DB.t) :
  ((exists i, In i (Task_items task db) /\ TaskItem.status i <> "completed") ->
   (0 < length (incomplete_items task db))%nat
   /\ TaskUpdateSerializer_validate_status (Some task) "completed" db
      = (Raise (ValidationError
                  [incomplete_items_msg
                   ++ Py.str_of_nat (length (incomplete_items task db))]), db)
   /\ TaskUpdateSerializer_update_status task "completed" db
      = (Raise (ValidationError
                  [incomplete_items_msg
                   ++ Py.str_of_nat (length (incomplete_items task db))]), db))
  /\ ((forall i, In i (Task_items task db) -> TaskItem.status i = "completed") ->
      TaskUpdateSerializer_validate_status (Some task) "completed" db
      = (Ok "completed", db)
      /\ exists saved db',
           TaskUpdateSerializer_update_status task "completed" db
           = (Ok saved, db')
           /\ Task.status saved = "completed"
           /\ In saved (DB.tasks db')).
Proof.
  split.
  - intros [i [Hin Hne]].
    assert (Hcons : exists x rest, incomplete_items task db = x :: rest).
    { destruct (incomplete_items task db) as [|x rest] eqn:Hf; [|eauto].
      exfalso. apply Hne.
      apply (proj1 (incomplete_items_nil task db) Hf). exact Hin. }
    destruct Hcons as (x & rest & Hf).
    assert (Hv : TaskUpdateSerializer_validate_status (Some task) "completed" db
                 = (Raise (ValidationError
                      [incomplete_items_msg
                       ++ Py.str_of_nat (length (incomplete_items task db))]), db)).
    { unfold TaskUpdateSerializer_validate_status. simpl.
      fold (incomplete_items task db). rewrite Hf. reflexivity. }
    split; [rewrite Hf; simpl; lia|]. split; [exact Hv|].
    unfold TaskUpdateSerializer_update_status. simpl.
    unfold bind. rewrite Hv. reflexivity.
  - intros Hall. apply incomplete_items_nil in Hall.
    assert (Hv : TaskUpdateSerializer_validate_status (Some task) "completed" db
                 = (Ok "completed", db)).
    { unfold TaskUpdateSerializer_validate_status. simpl.
      fold (incomplete_items task db). rewrite Hall. reflexivity. }
    split; [exact Hv|].
    unfold TaskUpdateSerializer_update_status. simpl.
    unfold bind. rewrite Hv.
    destruct (Task_Model_save_ok (Task.with_status "completed" task) db)
      as (saved & db' & Hsave & Hst & Hin).
    exists saved, db'. auto.
Qed.

Lemma complete_task_requires_completed_items_witness :
  TaskUpdateSerializer_update_status Fixture.task1 "completed" Fixture.db1
  = (Raise (ValidationError [incomplete_items_msg ++ "1"]), Fixture.db1).
Proof.
  apply (complete_task_requires_completed_items Fixture.task1 Fixture.db1).
  exists Fixture.todo_item. split; [vm_compute; auto | discriminate].
Defined.

(* --------------------------------------------------------------------- *)
(** ** Visibility of tasks *)
(* --------------------------------------------------------------------- *)

Lemma has_role_on_true k uid db :
  has_role_on k uid db = true <-> holds_role k uid db.
Proof.
  unfold has_role_on, holds_role, roles_of. rewrite existsb_exists. split.
  - intros [r [Hin Hu]]. apply filter_In in Hin. destruct Hin as [Hin Ht].
    exists r. rewrite Z.eqb_eq in Ht, Hu. auto.
  - intros [r (Hin & Ht & Hu)]. exists r. split.
    + apply filter_In. split; [exact Hin|]. apply Z.eqb_eq. exact Ht.
    + apply Z.eqb_eq. exact Hu.
Qed.

Lemma is_executor_on_true k uid db :
  is_executor_on k uid db = true <-> executes_item k uid db.
Proof.
  unfold is_executor_on, executes_item, items_of. rewrite existsb_exists. split.
  - intros [i [Hin Hu]]. apply filter_In in Hin. destruct Hin as [Hin Ht].
    exists i. rewrite Z.eqb_eq in Ht. apply opt_eqb_true in Hu. auto.
  - intros [i (Hin & Ht & Hu)]. exists i. split.
    + apply filter_In. split; [exact Hin|]. apply Z.eqb_eq. exact Ht.
    + apply opt_eqb_true. exact Hu.
Qed.

Lemma visible_to_true uid db t :
  visible_to uid db t = true
  <-> exists k, Task.pk t = Some k
                /\ (holds_role k uid db \/ executes_item k uid db).
Proof.
  unfold visible_to. destruct (Task.pk t) as [k|].
  - rewrite orb_true_iff, has_role_on_true, is_executor_on_true. split.
    + intros H. exists k. auto.
    + intros [k' [Hk H]]. inversion Hk; subst. exact H.
  - split; [discriminate|]. intros [k [Hk _]]. discriminate.
Qed.

Lemma participant_permission_on_visible request db t :
  visible_to (Request.user_id request) db t = true ->
  IsTaskParticipant_has_object_permission request (TaskObj t) db = true.
Proof.
  unfold visible_to, IsTaskParticipant_has_object_permission. simpl.
  destruct (User.is_staff (Request.user request)); [reflexivity|].
  destruct (Task.pk t) as [k|]; [|discriminate].
  destruct (has_role_on k (Request.user_id request) db); [reflexivity|].
  simpl. intros ->. reflexivity.
Qed.

(** C7.  A task is in a user's queryset exactly when the user holds a
    role on it or is executor of one of its items.  A task on which the
    user has neither is absent from the list, whatever the query filters,
    and retrieving it by its key raises [Http404]; [retrieve] never raises
    [PermissionDenied]. *)
Theorem non_participant_task_is_not_found
    (filterset : DB.t -> Task.t -> bool) (request : Request.t) (db : DB.t) :
  (forall t,
      In t (TaskViewSet_get_queryset request db)
      <-> In t (DB.tasks db)
          /\ exists k, Task.pk t = Some k
                       /\ (holds_role k (Request.user_id request) db
                           \/ executes_item k (Request.user_id request) db))
  /\ (forall t k,
         Task.pk t = Some k ->
         ~ holds_role k (Request.user_id request) db ->
         ~ executes_item k (Request.user_id request) db ->
         ~ In t (TaskViewSet_list filterset request db)
         /\ TaskViewSet_retrieve filterset request k db = (Raise Http404, db)
         /\ (User.is_staff (Request.user request) = false ->
             IsTaskParticipant_has_object_permission request (TaskObj t) db
             = false))
  /\ (forall k,
         fst (TaskViewSet_retrieve filterset request k db)
         <> Raise PermissionDenied).
Proof.
  assert (Hqs : forall t,
      In t (TaskViewSet_get_queryset request db)
      <-> In t (DB.tasks db)
          /\ exists k, Task.pk t = Some k
                       /\ (holds_role k (Request.user_id request) db
                           \/ executes_item k (Request.user_id request) db)).
  { intros t. unfold TaskViewSet_get_queryset.
    rewrite filter_In, visible_to_true. reflexivity. }
  split; [exact Hqs|]. split.
  - intros t k Hk Hrole Hexec.
    assert (Hhidden : forall t', Task.pk t' = Some k ->
              ~ In t' (TaskViewSet_list filterset request db)).
    { intros t' Hk' Hin. unfold TaskViewSet_list, filter_queryset in Hin.
      apply filter_In in Hin. destruct Hin as [Hin _].
      apply Hqs in Hin. destruct Hin as [_ [k' [Hpk [H|H]]]];
        rewrite Hk' in Hpk; inversion Hpk; subst; contradiction. }
    split; [apply Hhidden; exact Hk|]. split.
    + unfold TaskViewSet_retrieve, get_object.
      fold (TaskViewSet_list filterset request db).
      destruct (List.find _ _) as [t'|] eqn:Hfind; [|reflexivity].
      apply find_some in Hfind. destruct Hfind as [Hin Hpk].
      apply pk_is_true in Hpk. exfalso. exact (Hhidden t' Hpk Hin).
    + intros Hstaff.
      unfold IsTaskParticipant_has_object_permission. simpl.
      rewrite Hstaff, Hk.
      destruct (has_role_on k (Request.user_id request) db) eqn:Hr.
      { apply has_role_on_true in Hr. contradiction. }
      destruct (is_executor_on k (Request.user_id request) db) eqn:He.
      { apply is_executor_on_true in He. contradiction. }
      reflexivity.
  - intros k. unfold TaskViewSet_retrieve, get_object.
    destruct (List.find _ _) as [t'|] eqn:Hfind; [|simpl; discriminate].
    apply find_some in Hfind. destruct Hfind as [Hin _].
    unfold filter_queryset in Hin. apply filter_In in Hin.
    destruct Hin as [Hin _]. unfold TaskViewSet_get_queryset in Hin.
    apply filter_In in Hin. destruct Hin as [_ Hvis].
    simpl. rewrite (participant_permission_on_visible request db t' Hvis).
    simpl. discriminate.
Qed.

Lemma non_participant_task_is_not_found_witness :
  TaskViewSet_retrieve Fixture.all_tasks
    (Request.mk (User.mk 9 false) "GET" []) 1 Fixture.db1
  = (Raise Http404, Fixture.db1).
Proof.
  apply (non_participant_task_is_not_found Fixture.all_tasks
           (Request.mk (User.mk 9 false) "GET" []) Fixture.db1
         : _ /\ (forall t k, _) /\ _) with (t := Fixture.task1).
  - reflexivity.
  - intros [r [Hin [_ Hu]]]. vm_compute in Hin.
    repeat (destruct Hin as [<-|Hin]; [discriminate Hu|]). destruct Hin.
  - intros [i [Hin [_ Hu]]]. vm_compute in Hin.
    repeat (destruct Hin as [<-|Hin]; [discriminate Hu|]). destruct Hin.
Defined.

(* --------------------------------------------------------------------- *)
(** ** [TimeLog.save] *)
(* --------------------------------------------------------------------- *)









(* --------------------------------------------------------------------- *)
(** ** One assigner per task *)
(* --------------------------------------------------------------------- *)

(** [TaskRole.clean] refuses an assigner role when another row is the
    assigner of the same task, whoever the new role's user is. *)
Lemma TaskRole_clean_rejects_second_assigner (self r : TaskRole.t) (db : DB.t) :
  TaskRole.role self = "assigner" ->
  In r (DB.roles db) ->
  TaskRole.task r = TaskRole.task self ->
  TaskRole.role r = "assigner" ->
  TaskRole.pk r <> TaskRole.pk self ->
  TaskRole_clean self db = (Raise (ValidationError [assigner_exists_msg]), db).
Proof.
  intros Hrole Hin Htask Hr Hpk. unfold TaskRole_clean.
  apply String.eqb_eq in Hrole. rewrite Hrole.
  assert (Hmem : In r (exclude_pk (TaskRole.pk self)
            (List.filter
               (fun x => (TaskRole.task x =? TaskRole.task self)
                         && (TaskRole.role x =? "assigner")%string)
               (DB.roles db)))).
  { assert (Hf : In r (List.filter
               (fun x => (TaskRole.task x =? TaskRole.task self)
                         && (TaskRole.role x =? "assigner")%string)
               (DB.roles db))).
    { apply filter_In. split; [exact Hin|].
      apply andb_true_iff. split; [apply Z.eqb_eq | apply String.eqb_eq]; auto. }
    unfold exclude_pk. destruct (TaskRole.pk self) as [k|]; [|exact Hf].
    apply filter_In. split; [exact Hf|].
    destruct (pk_is k (TaskRole.pk r)) eqn:Hk; [|reflexivity].
    apply pk_is_true in Hk. contradiction. }
  destruct (exclude_pk _ _); [destruct Hmem|reflexivity].
Qed.

(** On update the row being validated does not count: [clean] accepts an
    assigner role when every assigner row of the task carries its key. *)
Lemma TaskRole_clean_excludes_self (self : TaskRole.t) (k : Z) (db : DB.t) :
  TaskRole.pk self = Some k ->
  (forall r, In r (DB.roles db) ->
             TaskRole.task r = TaskRole.task self ->
             TaskRole.role r = "assigner" ->
             TaskRole.pk r = Some k) ->
  TaskRole_clean self db = (Ok tt, db).
Proof.
  intros Hpk Hall. unfold TaskRole_clean.
  destruct (TaskRole.role self =? "assigner")%string; [|reflexivity].
  rewrite Hpk. simpl.
  destruct (List.filter _ (List.filter _ _)) as [|x rest] eqn:Hf; [reflexivity|].
  assert (Hin : In x (x :: rest)) by (left; reflexivity).
  rewrite <- Hf in Hin. apply filter_In in Hin. destruct Hin as [Hin Hneg].
  apply filter_In in Hin. destruct Hin as [Hin Hcond].
  apply andb_true_iff in Hcond. destruct Hcond as [Ht Hr].
  apply Z.eqb_eq in Ht. apply String.eqb_eq in Hr.
  specialize (Hall x Hin Ht Hr). apply pk_is_true in Hall.
  rewrite Hall in Hneg. discriminate.
Qed.

(** [add_role] on a visible task by its assigner, with a well-formed body
    asking for the assigner role: the role is inserted as soon as the user
    exists and does not hold that very role yet; whether the task already
    has an assigner plays no part. *)
Lemma add_role_inserts_assigner (filterset : DB.t -> Task.t -> bool)
    (request : Request.t) (k u : Z) (t : Task.t) (db : DB.t) :
  List.find (fun x => pk_is k (Task.pk x)) (TaskViewSet_list filterset request db)
  = Some t ->
  is_assigner_on k (Request.user_id request) db = true ->
  data_get "user_id" (Request.data request) = Some (JInt u) ->
  data_get "role" (Request.data request) = Some (JStr "assigner") ->
  user_exists u db = true ->
  (forall r, In r (DB.roles db) ->
             ~ (TaskRole.task r = k /\ TaskRole.user r = u
                /\ TaskRole.role r = "assigner")) ->
  TaskViewSet_add_role filterset request k db
  = (Ok (HTTP_201_CREATED (TaskRole.mk (Some (DB.next_role db)) k u "assigner")),
     set_roles (DB.roles db
                ++ [TaskRole.mk (Some (DB.next_role db)) k u "assigner"])
               (DB.next_role db + 1) db).
Proof.
  intros Hfind Hassigner Huid Hrole Huser Hfree.
  pose proof (find_some _ _ Hfind) as [Hin Hpk].
  apply pk_is_true in Hpk.
  assert (Htask : task_exists k db = true).
  { unfold task_exists. apply existsb_exists. exists t. split.
    - unfold TaskViewSet_list, filter_queryset in Hin.
      apply filter_In in Hin. destruct Hin as [Hin _].
      unfold TaskViewSet_get_queryset in Hin.
      apply filter_In in Hin. apply Hin.
    - apply pk_is_true. exact Hpk. }
  assert (Hperm : IsAssigner_has_object_permission request (TaskObj t) db = true).
  { unfold IsAssigner_has_object_permission. simpl. rewrite Hpk, Hassigner.
    destruct (User.is_staff (Request.user request)); reflexivity. }
  assert (Hget : get_object filterset [IsAssigner_has_object_permission]
                   request k db = (Ok t, db)).
  { unfold get_object. fold (TaskViewSet_list filterset request db).
    rewrite Hfind. simpl. rewrite Hperm. reflexivity. }
  assert (Hnone : existsb (same_triple (TaskRole.mk (Some (DB.next_role db)) k u
                                          "assigner")) (DB.roles db) = false).
  { destruct (existsb _ (DB.roles db)) eqn:Hex; [|reflexivity].
    apply existsb_exists in Hex. destruct Hex as [r [Hr Hsame]].
    apply same_triple_true in Hsame. destruct Hsame as (H1 & H2 & H3).
    exfalso. apply (Hfree r Hr). auto. }
  unfold TaskViewSet_add_role, bind. rewrite Hget.
  unfold TaskRoleSerializer_is_valid. rewrite Huid, Hrole. simpl.
  unfold TaskRole_objects_create. rewrite Hpk, Htask, Huser. simpl.
  rewrite Hnone. reflexivity.
Qed.

(** C1 (at the failing input).  On a task that has its assigner, the
    assigner posts [add_role] with [role = assigner] for another user: the
    action answers 201 and the task has two assigner rows afterwards,
    although [TaskRole.clean] on that very role raises the validation
    error.  [add_role] never calls [clean]. *)
Theorem add_role_persists_second_assigner :
  TaskViewSet_add_role Fixture.all_tasks
    (Fixture.post Fixture.user1 [("user_id", JInt 2); ("role", JStr "assigner")])
    1 Fixture.db1
  = (Ok (HTTP_201_CREATED (TaskRole.mk (Some 5) 1 2 "assigner")),
     set_roles (DB.roles Fixture.db1 ++ [TaskRole.mk (Some 5) 1 2 "assigner"])
               6 Fixture.db1)
  /\ List.filter (fun r => (TaskRole.role r =? "assigner")%string)
       (roles_of 1
          (snd (TaskViewSet_add_role Fixture.all_tasks
                  (Fixture.post Fixture.user1
                     [("user_id", JInt 2); ("role", JStr "assigner")])
                  1 Fixture.db1)))
     = [TaskRole.mk (Some 1) 1 1 "assigner"; TaskRole.mk (Some 5) 1 2 "assigner"]
  /\ TaskRole_clean (TaskRole.mk None 1 2 "assigner") Fixture.db1
     = (Raise (ValidationError [assigner_exists_msg]), Fixture.db1).
Proof. vm_compute. repeat split. Qed.

(* --------------------------------------------------------------------- *)
(** ** [progress_percentage] *)
(* --------------------------------------------------------------------- *)

Lemma div_half_even_nearest (num den : Z) :
  0 < den ->
  2 * Z.abs (num - Py.div_half_even num den * den) <= den
  /\ (2 * Z.abs (num - Py.div_half_even num den * den) = den ->
      Z.even (Py.div_half_even num den) = true).
Proof.
  intros Hden. unfold Py.div_half_even.
  pose proof (Z.div_mod num den ltac:(lia)) as Hdm.
  pose proof (Z.mod_pos_bound num den Hden) as Hr.
  destruct (Z.compare_spec (2 * (num mod den)) den) as [Heq|Hlt|Hgt].
  - destruct (Z.even (num / den)) eqn:Heven.
    + split; [lia | auto].
    + split; [lia|]. intros _. rewrite Z.even_add, Heven. reflexivity.
  - split; lia.
  - split; lia.
Qed.

Lemma scaled_den_pos m e ndigits :
  0 < snd (Py.scaled m e ndigits).
Proof.
  unfold Py.scaled. destruct (0 <=? e) eqn:He; simpl; [lia|].
  apply Z.pow_pos_nonneg; lia.
Qed.

(** [round(x, 2)] on a finite [x]: the hundredths count is a nearest
    integer to [100 * |x|], the even one on a tie. *)
Lemma round_digits_nearest s m e num den :
  Py.scaled m e 2 = (num, den) ->
  0 < den
  /\ Py.round_digits (S754_finite s m e) 2
     = (if s then - Py.div_half_even num den else Py.div_half_even num den)
  /\ 2 * Z.abs (num - Py.div_half_even num den * den) <= den
  /\ (2 * Z.abs (num - Py.div_half_even num den * den) = den ->
      Z.even (Py.div_half_even num den) = true).
Proof.
  intros Hsc. pose proof (scaled_den_pos m e 2) as Hden.
  rewrite Hsc in Hden. simpl in Hden.
  split; [exact Hden|]. split.
  - unfold Py.round_digits. rewrite Hsc. reflexivity.
  - apply div_half_even_nearest. exact Hden.
Qed.

Lemma round_nonneg_finite x :
  nonneg_finite x = true ->
  Py.round x 2 = Py.decimal (Py.round_digits x 2) 2.
Proof.
  destruct x as [[]| | |[] m e]; try discriminate; intros _.
  - reflexivity.
  - unfold Py.round. destruct (Py.round_digits _ 2 =? 0) eqn:Hq; [|reflexivity].
    apply Z.eqb_eq in Hq. rewrite Hq. reflexivity.
Qed.

Lemma nearest_hundredth_upto_100 : nearest_hundredth_upto 100 = true.
Proof. vm_compute. reflexivity. Qed.

Lemma nearest_hundredth_upto_sound bound completed count :
  nearest_hundredth_upto bound = true ->
  (0 < count <= bound)%nat -> (completed <= count)%nat ->
  nearest_hundredth completed count = true.
Proof.
  unfold nearest_hundredth_upto. intros Hall Hn Hc.
  rewrite forallb_forall in Hall.
  specialize (Hall count ltac:(apply in_seq; lia)).
  rewrite forallb_forall in Hall.
  apply Hall. apply in_seq. lia.
Qed.

Lemma nearest_hundredth_small completed count :
  (0 < count <= 100)%nat -> (completed <= count)%nat ->
  nearest_hundredth completed count = true.
Proof.
  apply nearest_hundredth_upto_sound. exact nearest_hundredth_upto_100.
Qed.

Lemma filter_length_le {A} (f : A -> bool) (l : list A) :
  (length (List.filter f l) <= length l)%nat.
Proof.
  induction l as [|x rest IH]; simpl; [lia|].
  destruct (f x); simpl; lia.
Qed.

Lemma filter_by_map {A} (f : A -> bool) (l : list A) :
  length (List.filter f l) = length (List.filter (fun b => b) (map f l)).
Proof.
  induction l as [|x rest IH]; simpl; [reflexivity|].
  destruct (f x); simpl; rewrite IH; reflexivity.
Qed.

(** C5 (amended).  [progress_percentage] is 0 for a task without items.
    Otherwise it is Python's [round((completed / count) * 100, 2)] on
    binary64 floats: the hundredths count of the result is a nearest
    integer to a hundred times the float product, the even one when the
    product lies exactly halfway, not the upper one.  For a task of at most
    100 items the result is the two-decimal float within 0.005 of
    [100 * completed / count].  For items [completed, completed, todo] it
    is 66.67. *)
Theorem progress_percentage_is_python_round (self : Task.t) (db : DB.t) :
  let items := Task_items self db in
  let completed := length (List.filter is_completed items) in
  let count := length items in
  let x := Py.mul (Py.truediv (Z.of_nat completed) (Z.of_nat count))
                  (Py.float_of_int 100) in
  (items = [] -> Task_progress_percentage self db = Py.Int 0)
  /\ (items <> [] ->
      Task_progress_percentage self db = Py.Float (Py.round x 2)
      /\ forall s m e num den,
           x = S754_finite s m e ->
           Py.scaled m e 2 = (num, den) ->
           0 < den
           /\ Py.round_digits x 2
              = (if s then - Py.div_half_even num den
                 else Py.div_half_even num den)
           /\ 2 * Z.abs (num - Py.div_half_even num den * den) <= den
           /\ (2 * Z.abs (num - Py.div_half_even num den * den) = den ->
               Z.even (Py.div_half_even num den) = true))
  /\ ((0 < count <= 100)%nat ->
      exists q,
        Task_progress_percentage self db = Py.Float (Py.decimal q 2)
        /\ 2 * Z.abs (10000 * Z.of_nat completed - q * Z.of_nat count)
           <= Z.of_nat count)
  /\ (map is_completed items = [true; true; false] ->
      Task_progress_percentage self db = Py.Float (Py.decimal 6667 2)).
Proof.
  intros items completed count x.
  assert (Hnonempty : items <> [] ->
            Task_progress_percentage self db = Py.Float (Py.round x 2)).
  { intros Hne. unfold Task_progress_percentage. fold items.
    destruct items as [|i rest] eqn:Hitems; [contradiction|].
    reflexivity. }
  split; [|split; [|split]].
  - intros Hnil. unfold Task_progress_percentage. fold items.
    rewrite Hnil. reflexivity.
  - intros Hne. split; [exact (Hnonempty Hne)|].
    intros s m e num den Hx Hsc. rewrite Hx.
    apply round_digits_nearest. exact Hsc.
  - intros Hcount.
    assert (Hne : items <> []).
    { intros Hnil. unfold count in Hcount. rewrite Hnil in Hcount.
      simpl in Hcount. lia. }
    pose proof (nearest_hundredth_small completed count Hcount
                  (filter_length_le is_completed items)) as Hnear.
    unfold nearest_hundredth in Hnear. fold x in Hnear.
    apply andb_true_iff in Hnear. destruct Hnear as [Hfin Hle].
    exists (Py.round_digits x 2). split.
    + rewrite (Hnonempty Hne). f_equal. apply round_nonneg_finite. exact Hfin.
    + apply Z.leb_le. exact Hle.
  - intros Hmap.
    assert (Hne : items <> []).
    { intros Hnil. rewrite Hnil in Hmap. discriminate. }
    rewrite (Hnonempty Hne). unfold x, completed, count.
    rewrite (filter_by_map is_completed items).
    rewrite <- (length_map is_completed items), Hmap.
    vm_compute. reflexivity.
Qed.

Lemma progress_percentage_is_python_round_witness :
  Task_progress_percentage ProgressFixture.task ProgressFixture.two_of_three
  = Py.Float (Py.decimal 6667 2).
Proof.
  apply (progress_percentage_is_python_round
           ProgressFixture.task ProgressFixture.two_of_three).
  reflexivity.
Defined.

(** C5 (as stated).  With one completed item of 32 the exact percentage
    is 3.125: half-up rounding gives 3.13, the code returns 3.12. *)
Lemma one_of_thirty_two_is_not_rounded_half_up :
  Task_progress_percentage ProgressFixture.task ProgressFixture.one_of_thirty_two
  = Py.Float (Py.decimal 312 2)
  /\ Py.div_half_up (10000 * 1) 32 = 313
  /\ Task_progress_percentage ProgressFixture.task
       ProgressFixture.one_of_thirty_two
     <> Py.Float (Py.decimal (Py.div_half_up (10000 * 1) 32) 2).
Proof. vm_compute. repeat split. discriminate. Qed.

(* --------------------------------------------------------------------- *)
(** ** Task creation *)
(* --------------------------------------------------------------------- *)

Lemma TaskRole_objects_create_ok task t u role db r db' :
  Task.pk task = Some t ->
  TaskRole_objects_create task u role db = (Ok r, db') ->
  r = TaskRole.mk (Some (DB.next_role db)) t u role
  /\ db' = set_roles (DB.roles db ++ [r]) (DB.next_role db + 1) db.
Proof.
  intros Hpk. unfold TaskRole_objects_create. rewrite Hpk.
  destruct (negb _); [discriminate|].
  destruct (existsb _ _); [discriminate|].
  intros H. inversion H; subst. auto.
Qed.

Lemma set_roles_set_roles rows1 n1 rows2 n2 db :
  set_roles rows2 n2 (set_roles rows1 n1 db) = set_roles rows2 n2 db.
Proof. reflexivity. Qed.

Lemma role_rows_length t role next us :
  length (role_rows t role next us) = length us.
Proof.
  revert next. induction us as [|u rest IH]; intros next; simpl; auto.
Qed.

Lemma item_rows_length clock t next idx defs :
  length (item_rows clock t next idx defs) = length defs.
Proof.
  revert next idx. induction defs as [|d rest IH]; intros next idx; simpl; auto.
Qed.

(** A role loop that completes appended exactly [role_rows]. *)
Lemma role_loop_ok task t role us : forall db db',
  Task.pk task = Some t ->
  for_each us
    (fun user_id => _ <- TaskRole_objects_create task user_id role ;; ret tt) db
  = (Ok tt, db') ->
  db' = set_roles (DB.roles db ++ role_rows t role (DB.next_role db) us)
                  (DB.next_role db + Z.of_nat (length us)) db.
Proof.
  induction us as [|u rest IH]; intros db db' Hpk Hrun.
  - simpl in Hrun. unfold ret in Hrun. inversion Hrun; subst.
    simpl. rewrite app_nil_r, Z.add_0_r. destruct db'; reflexivity.
  - simpl in Hrun. apply bind_ok in Hrun.
    destruct Hrun as ([] & db1 & Hstep & Hrest).
    apply bind_ok in Hstep. destruct Hstep as (r & db2 & Hcreate & Hret).
    unfold ret in Hret. inversion Hret; subst db2.
    apply (TaskRole_objects_create_ok task t) in Hcreate; [|exact Hpk].
    destruct Hcreate as [Hr Hdb1].
    apply IH in Hrest; [|exact Hpk].
    rewrite Hrest, Hdb1. simpl. rewrite <- Hr.
    rewrite <- app_assoc. simpl.
    replace (DB.next_role db + 1 + Z.of_nat (length rest))
      with (DB.next_role db + Z.pos (Pos.of_succ_nat (length rest))) by lia.
    reflexivity.
Qed.

Lemma TaskItem_objects_create_ok clock task t idx d db row db' :
  Task.pk task = Some t ->
  TaskItem_objects_create (clock idx) task (pop (ItemData.executor_id d) None)
    idx d db = (Ok row, db') ->
  row = item_row clock t (DB.next_item db) idx d
  /\ db' = set_items (DB.items db ++ [row]) (DB.next_item db + 1) db.
Proof.
  intros Hpk. unfold TaskItem_objects_create.
  destruct (ItemData.order d); [discriminate|]. rewrite Hpk.
  rewrite TaskItem_save_create by reflexivity. unfold TaskItem_Model_save.
  destruct (negb _); [discriminate|].
  assert (Hnone : TaskItem.pk
            (TaskItem_set_completed_at (clock idx)
               (TaskItem.mk None t (ItemData.title d)
                  (pop (ItemData.description d) "")
                  (pop (ItemData.executor_id d) None)
                  (pop (ItemData.status d) "todo")
                  (pop (ItemData.planned_hours d) 0) idx None)) = None).
  { unfold TaskItem_set_completed_at.
    destruct (_ && _); [reflexivity|]. destruct (_ && _); reflexivity. }
  rewrite Hnone. intros H. inversion H; subst. auto.
Qed.

Lemma item_loop_ok clock task t defs : forall idx db db',
  Task.pk task = Some t ->
  for_enumerate idx defs
    (fun idx item_data =>
       let executor_id := pop (ItemData.executor_id item_data) None in
       _ <- TaskItem_objects_create (clock idx) task executor_id idx item_data ;;
       ret tt) db
  = (Ok tt, db') ->
  db' = set_items (DB.items db ++ item_rows clock t (DB.next_item db) idx defs)
                  (DB.next_item db + Z.of_nat (length defs)) db.
Proof.
  induction defs as [|d rest IH]; intros idx db db' Hpk Hrun.
  - simpl in Hrun. unfold ret in Hrun. inversion Hrun; subst.
    simpl. rewrite app_nil_r, Z.add_0_r. destruct db'; reflexivity.
  - simpl in Hrun. apply bind_ok in Hrun.
    destruct Hrun as ([] & db1 & Hstep & Hrest).
    apply bind_ok in Hstep. destruct Hstep as (r & db2 & Hcreate & Hret).
    unfold ret in Hret. inversion Hret; subst db2.
    apply (TaskItem_objects_create_ok clock task t) in Hcreate; [|exact Hpk].
    destruct Hcreate as [Hr Hdb1].
    apply IH in Hrest; [|exact Hpk].
    rewrite Hrest, Hdb1. simpl. rewrite <- Hr.
    rewrite <- app_assoc. simpl.
    replace (DB.next_item db + 1 + Z.of_nat (length rest))
      with (DB.next_item db + Z.pos (Pos.of_succ_nat (length rest))) by lia.
    reflexivity.
Qed.

Lemma item_rows_nth clock t defs : forall next idx i row,
  nth_error (item_rows clock t next idx defs) i = Some row ->
  exists d, nth_error defs i = Some d
            /\ row = item_row clock t (next + Z.of_nat i) (idx + i) d.
Proof.
  induction defs as [|d rest IH]; intros next idx i row Hnth.
  - destruct i; discriminate.
  - destruct i as [|i]; simpl in Hnth.
    + inversion Hnth; subst. exists d. simpl.
      rewrite Z.add_0_r, Nat.add_0_r. auto.
    + apply IH in Hnth. destruct Hnth as (d' & Hd & Hrow).
      exists d'. split; [exact Hd|]. rewrite Hrow. f_equal; lia.
Qed.

Lemma item_row_fields clock t next idx d :
  TaskItem.order (item_row clock t next idx d) = idx
  /\ TaskItem.task (item_row clock t next idx d) = t
  /\ TaskItem.title (item_row clock t next idx d) = ItemData.title d
  /\ TaskItem.pk (item_row clock t next idx d) = Some next.
Proof.
  unfold item_row, TaskItem_set_completed_at.
  destruct (_ && _); [simpl; auto|]. destruct (_ && _); simpl; auto.
Qed.

Lemma role_rows_fields t role us : forall next r,
  In r (role_rows t role next us) ->
  TaskRole.task r = t /\ TaskRole.role r = role /\ In (TaskRole.user r) us.
Proof.
  induction us as [|u rest IH]; intros next r Hin; [destruct Hin|].
  destruct Hin as [<-|Hin]; simpl; [auto|].
  apply IH in Hin. tauto.
Qed.

(** A role loop completes when the task and the users exist, no id is
    repeated and no stored row already has one of the triples. *)
Lemma role_loop_succeeds task t role us : forall db,
  Task.pk task = Some t ->
  task_exists t db = true ->
  (forall u, In u us -> user_exists u db = true) ->
  List.NoDup us ->
  (forall r, In r (DB.roles db) ->
             ~ (TaskRole.task r = t /\ TaskRole.role r = role
                /\ In (TaskRole.user r) us)) ->
  exists db',
    for_each us
      (fun user_id => _ <- TaskRole_objects_create task user_id role ;; ret tt) db
    = (Ok tt, db').
Proof.
  induction us as [|u rest IH]; intros db Hpk Htask Husers Hnodup Hfree.
  - simpl. unfold ret. eauto.
  - inversion Hnodup as [|? ? Hnotin Hnodup']; subst.
    set (row := TaskRole.mk (Some (DB.next_role db)) t u role).
    assert (Hcreate : TaskRole_objects_create task u role db
              = (Ok row, set_roles (DB.roles db ++ [row]) (DB.next_role db + 1) db)).
    { unfold TaskRole_objects_create. rewrite Hpk, Htask.
      rewrite (Husers u) by (left; reflexivity). simpl.
      fold row.
      assert (Hnone : existsb (same_triple row) (DB.roles db) = false).
      { apply existsb_false_iff. intros r Hin.
        destruct (same_triple row r) eqn:Hsame; [|reflexivity].
        apply same_triple_true in Hsame. simpl in Hsame.
        destruct Hsame as (Ht & Hu & Hr).
        exfalso. apply (Hfree r Hin). rewrite <- Ht, <- Hu, <- Hr.
        simpl. auto. }
      rewrite Hnone. reflexivity. }
    destruct (IH (set_roles (DB.roles db ++ [row]) (DB.next_role db + 1) db))
      as [db' Hrest]; auto.
    + intros v Hv. apply Husers. right. exact Hv.
    + simpl. intros r Hin (Ht & Hr & Hu).
      apply in_app_or in Hin. destruct Hin as [Hin|[<-|[]]].
      * apply (Hfree r Hin). simpl. auto.
      * simpl in Hu. contradiction.
    + exists db'. simpl.
      rewrite (bind_run _ _ db tt _ (bind_run _ _ db _ _ Hcreate)).
      exact Hrest.
Qed.

Lemma set_completed_at_fk now self :
  TaskItem.task (TaskItem_set_completed_at now self) = TaskItem.task self
  /\ TaskItem.executor (TaskItem_set_completed_at now self) = TaskItem.executor self
  /\ TaskItem.pk (TaskItem_set_completed_at now self) = TaskItem.pk self.
Proof.
  unfold TaskItem_set_completed_at.
  destruct (_ && _); [simpl; auto|]. destruct (_ && _); simpl; auto.
Qed.

Lemma item_loop_succeeds clock task t defs : forall idx db,
  Task.pk task = Some t ->
  task_exists t db = true ->
  (forall d, In d defs ->
     ItemData.order d = None
     /\ forall u, pop (ItemData.executor_id d) None = Some u ->
                  user_exists u db = true) ->
  exists db',
    for_enumerate idx defs
      (fun idx item_data =>
         let executor_id := pop (ItemData.executor_id item_data) None in
         _ <- TaskItem_objects_create (clock idx) task executor_id idx item_data ;;
         ret tt) db
    = (Ok tt, db').
Proof.
  induction defs as [|d rest IH]; intros idx db Hpk Htask Hdefs.
  - simpl. unfold ret. eauto.
  - destruct (Hdefs d) as [Horder Hexec]; [left; reflexivity|].
    assert (Hcreate : exists row,
      TaskItem_objects_create (clock idx) task
        (pop (ItemData.executor_id d) None) idx d db
      = (Ok row, set_items (DB.items db ++ [row]) (DB.next_item db + 1) db)).
    { unfold TaskItem_objects_create. rewrite Horder, Hpk.
      rewrite TaskItem_save_create by reflexivity. unfold TaskItem_Model_save.
      match goal with
      | |- context [TaskItem_set_completed_at ?n ?x] =>
          destruct (set_completed_at_fk n x) as (Ht & He & Hk);
          set (inst := TaskItem_set_completed_at n x) in *
      end.
      assert (Hfk : TaskItem_fk_ok inst db = true).
      { unfold TaskItem_fk_ok. rewrite Ht, He. simpl. rewrite Htask. simpl.
        destruct (pop (ItemData.executor_id d) None) as [u|] eqn:Hu;
          [apply Hexec; reflexivity | reflexivity]. }
      rewrite Hfk, Hk. simpl. eauto. }
    destruct Hcreate as [row Hcreate].
    destruct (IH (S idx)
                 (set_items (DB.items db ++ [row]) (DB.next_item db + 1) db))
      as [db' Hrest]; auto.
    + intros d' Hd'. apply Hdefs. right. exact Hd'.
    + exists db'. simpl.
      rewrite (bind_run _ _ db tt _ (bind_run _ _ db _ _ Hcreate)).
      exact Hrest.
Qed.

Lemma task_exists_after_create k title description db :
  task_exists k
    (set_tasks (DB.tasks db ++ [Task.mk (Some k) title description "new"])
               (k + 1) db) = true.
Proof.
  unfold task_exists. simpl. rewrite existsb_app. simpl.
  rewrite Z.eqb_refl. rewrite orb_true_r. reflexivity.
Qed.

Lemma create_body_succeeds clock request vd db :
  creation_ready request vd db ->
  exists task db', create_body clock request vd db = (Ok task, db').
Proof.
  intros [Hfresh Hreq Hco Hobs Hco_nd Hobs_nd Hitems].
  set (k := DB.next_task db).
  set (task := Task.mk (Some k) (TaskData.title vd) (TaskData.description vd) "new").
  set (db1 := set_tasks (DB.tasks db ++ [task]) (k + 1) db).
  assert (Hpk : Task.pk task = Some k) by reflexivity.
  assert (Htask1 : task_exists k db1 = true)
    by apply task_exists_after_create.
  (* the assigner role *)
  destruct (role_loop_succeeds task k "assigner" [Request.user_id request] db1)
    as [db2 Hassigner]; auto.
  { intros u [<-|[]]. exact Hreq. }
  { constructor; [intros []|constructor]. }
  { intros r Hin (Ht & _). exact (Hfresh r Hin Ht). }
  pose proof (role_loop_ok _ _ _ _ _ _ Hpk Hassigner) as Hdb2.
  simpl in Hassigner. apply bind_ok in Hassigner.
  destruct Hassigner as ([] & db2' & Hstep & Hret).
  unfold ret in Hret. injection Hret as Hret. subst db2'.
  apply bind_ok in Hstep. destruct Hstep as (r & db2' & Hcreate & Hret).
  unfold ret in Hret. injection Hret as Hret. subst db2'.
  (* the co-executor loop *)
  destruct (role_loop_succeeds task k "co_executor"
              (pop (TaskData.co_executors vd) []) db2) as [db3 Hco_run]; auto.
  { rewrite Hdb2. exact Htask1. }
  { rewrite Hdb2. exact Hco. }
  { rewrite Hdb2. simpl. intros x Hin (Ht & Hr & _).
    apply in_app_or in Hin. destruct Hin as [Hin|[<-|[]]].
    - exact (Hfresh x Hin Ht).
    - discriminate Hr. }
  pose proof (role_loop_ok _ _ _ _ _ _ Hpk Hco_run) as Hdb3.
  (* the observer loop *)
  destruct (role_loop_succeeds task k "observer"
              (pop (TaskData.observers vd) []) db3) as [db4 Hobs_run]; auto.
  { rewrite Hdb3, Hdb2. exact Htask1. }
  { rewrite Hdb3, Hdb2. exact Hobs. }
  { rewrite Hdb3, Hdb2. simpl. intros x Hin (Ht & Hr & _).
    apply in_app_or in Hin. destruct Hin as [Hin|Hin].
    - apply in_app_or in Hin. destruct Hin as [Hin|[<-|[]]].
      + exact (Hfresh x Hin Ht).
      + discriminate Hr.
    - apply role_rows_fields in Hin. destruct Hin as (_ & Hrole & _).
      rewrite Hrole in Hr. discriminate Hr. }
  pose proof (role_loop_ok _ _ _ _ _ _ Hpk Hobs_run) as Hdb4.
  (* the items *)
  destruct (item_loop_succeeds clock task k (pop (TaskData.task_items vd) [])
              0%nat db4) as [db5 Hitems_run]; auto.
  { rewrite Hdb4, Hdb3, Hdb2. exact Htask1. }
  { rewrite Hdb4, Hdb3, Hdb2. exact Hitems. }
  exists task, db5. unfold create_body.
  rewrite (bind_run _ _ db task db1) by reflexivity.
  rewrite (bind_run _ _ db1 r db2 Hcreate).
  rewrite (bind_run _ _ db2 tt db3 Hco_run).
  rewrite (bind_run _ _ db3 tt db4 Hobs_run).
  rewrite (bind_run _ _ db4 tt db5 Hitems_run).
  reflexivity.
Qed.

Lemma created_roles_length t uid next co obs :
  length (created_roles t uid next co obs) = (1 + length co + length obs)%nat.
Proof.
  unfold created_roles. simpl. rewrite length_app, !role_rows_length. reflexivity.
Qed.

Lemma create_body_ok clock request vd db task db' :
  create_body clock request vd db = (Ok task, db') ->
  task = Task.mk (Some (DB.next_task db)) (TaskData.title vd)
                 (TaskData.description vd) "new"
  /\ db' = created_db clock request vd db.
Proof.
  unfold create_body. intros Hrun.
  apply bind_ok in Hrun. destruct Hrun as (task0 & db1 & Htask & Hrun).
  unfold Task_objects_create in Htask. inversion Htask; subst task0 db1; clear Htask.
  set (k := DB.next_task db) in *.
  set (task0 := Task.mk (Some k) (TaskData.title vd) (TaskData.description vd) "new") in *.
  assert (Hpk : Task.pk task0 = Some k) by reflexivity.
  apply bind_ok in Hrun. destruct Hrun as (r & db2 & Hassigner & Hrun).
  apply (TaskRole_objects_create_ok task0 k) in Hassigner; [|exact Hpk].
  destruct Hassigner as [Hr Hdb2].
  apply bind_ok in Hrun. destruct Hrun as ([] & db3 & Hco & Hrun).
  apply (role_loop_ok task0 k) in Hco; [|exact Hpk].
  apply bind_ok in Hrun. destruct Hrun as ([] & db4 & Hobs & Hrun).
  apply (role_loop_ok task0 k) in Hobs; [|exact Hpk].
  apply bind_ok in Hrun. destruct Hrun as ([] & db5 & Hitems & Hret).
  apply (item_loop_ok clock task0 k) in Hitems; [|exact Hpk].
  unfold ret in Hret. injection Hret as Htask Hdb.
  rewrite <- Htask, <- Hdb. split; [reflexivity|].
  rewrite Hitems, Hobs, Hco, Hdb2, Hr. unfold created_db, created_roles.
  fold k. simpl. rewrite !length_app, !role_rows_length. simpl.
  rewrite <- !app_assoc. unfold set_items, set_roles, set_tasks. simpl.
  rewrite item_rows_length. f_equal; lia.
Qed.

(** C6 (amended).  Task creation either completes, and then the database
    is the old one extended by the task, by the assigner role of the
    requesting user followed by one role per co-executor id and one per
    observer id (1 + co-executors + observers rows: four for [A, B] and
    [C]), and by one item per definition whose [order] is the definition's
    position; or it raises and the database is as before the call.  It
    completes whenever the users named exist, no id is repeated within a
    role, no definition carries [order] and no stored role points at the
    new key. *)
Theorem task_creation_is_all_or_nothing (clock : nat -> Z) (request : Request.t)
    (vd : TaskData.t) (db : DB.t) :
  let co := pop (TaskData.co_executors vd) [] in
  let obs := pop (TaskData.observers vd) [] in
  let defs := pop (TaskData.task_items vd) [] in
  let k := DB.next_task db in
  let new_roles :=
    created_roles k (Request.user_id request) (DB.next_role db) co obs in
  let new_items := item_rows clock k (DB.next_item db) 0 defs in
  match TaskCreateSerializer_create clock request vd db with
  | (Ok task, db') =>
      task = Task.mk (Some k) (TaskData.title vd) (TaskData.description vd) "new"
      /\ db' = created_db clock request vd db
      /\ DB.tasks db' = (DB.tasks db ++ [task])%list
      /\ DB.roles db' = (DB.roles db ++ new_roles)%list
      /\ DB.items db' = (DB.items db ++ new_items)%list
  | (Raise _, db') => db' = db
  end
  /\ (creation_ready request vd db ->
      TaskCreateSerializer_create clock request vd db
      = (Ok (Task.mk (Some k) (TaskData.title vd) (TaskData.description vd) "new"),
         created_db clock request vd db))
  /\ length new_roles = (1 + length co + length obs)%nat
  /\ (forall a b c, co = [a; b] -> obs = [c] -> length new_roles = 4%nat)
  /\ map (fun r => (TaskRole.user r, TaskRole.role r)) new_roles
     = ((Request.user_id request, "assigner")
        :: map (fun u => (u, "co_executor")) co
        ++ map (fun u => (u, "observer")) obs)%list
  /\ (forall r, In r new_roles -> TaskRole.task r = k)
  /\ length new_items = length defs
  /\ (forall i row,
         nth_error new_items i = Some row ->
         exists d, nth_error defs i = Some d
                   /\ TaskItem.order row = i
                   /\ TaskItem.task row = k
                   /\ TaskItem.title row = ItemData.title d).
Proof.
  intros co obs defs k new_roles new_items.
  split; [|split; [|split; [|split; [|split; [|split; [|split]]]]]].
  - unfold TaskCreateSerializer_create, transaction_atomic.
    destruct (create_body clock request vd db) as [[task|e] db'] eqn:Hbody;
      [|reflexivity].
    apply create_body_ok in Hbody. destruct Hbody as [Htask Hdb].
    rewrite Hdb, Htask. repeat split.
  - intros Hready.
    destruct (create_body_succeeds clock request vd db Hready)
      as (task & db' & Hbody).
    unfold TaskCreateSerializer_create, transaction_atomic. rewrite Hbody.
    apply create_body_ok in Hbody. destruct Hbody as [Htask Hdb].
    rewrite Hdb, Htask. reflexivity.
  - apply created_roles_length.
  - intros a b c Hco Hobs. unfold new_roles.
    rewrite created_roles_length, Hco, Hobs. reflexivity.
  - unfold new_roles, created_roles. simpl. f_equal.
    rewrite map_app. f_equal.
    + generalize (DB.next_role db + 1).
      induction co as [|u rest IH]; intros n; simpl; [reflexivity|].
      rewrite IH. reflexivity.
    + generalize (DB.next_role db + 1 + Z.of_nat (length co)).
      induction obs as [|u rest IH]; intros n; simpl; [reflexivity|].
      rewrite IH. reflexivity.
  - assert (Hrows : forall role n us r,
              In r (role_rows k role n us) -> TaskRole.task r = k).
    { intros role n us. revert n.
      induction us as [|u rest IH]; intros n r Hin; [destruct Hin|].
      destruct Hin as [<-|Hin]; [reflexivity|]. eapply IH. exact Hin. }
    intros r Hin. unfold new_roles, created_roles in Hin.
    destruct Hin as [<-|Hin]; [reflexivity|].
    apply in_app_or in Hin. destruct Hin as [Hin|Hin]; eapply Hrows; exact Hin.
  - apply item_rows_length.
  - intros i row Hnth. apply item_rows_nth in Hnth.
    destruct Hnth as (d & Hd & Hrow). exists d. split; [exact Hd|].
    rewrite Hrow.
    destruct (item_row_fields clock k (DB.next_item db + Z.of_nat i) (0 + i) d)
      as (Ho & Ht & Hti & _).
    auto.
Qed.

Lemma task_creation_is_all_or_nothing_witness :
  TaskCreateSerializer_create Fixture.clock (Fixture.post Fixture.user1 [])
    Fixture.task_data Fixture.db0
  = (Ok Fixture.task1,
     created_db Fixture.clock (Fixture.post Fixture.user1 [])
       Fixture.task_data Fixture.db0).
Proof.
  apply (task_creation_is_all_or_nothing Fixture.clock
           (Fixture.post Fixture.user1 []) Fixture.task_data Fixture.db0).
  constructor; simpl.
  - intros r [].
  - reflexivity.
  - intros u [<-|[<-|[]]]; reflexivity.
  - intros u [<-|[]]; reflexivity.
  - repeat constructor; simpl; intuition discriminate.
  - repeat constructor; simpl; intuition discriminate.
  - intros d [<-|[<-|[]]]; (split; [reflexivity|]); simpl; intros u Hu;
      inversion Hu; subst; reflexivity.
Defined.

(** C6 (as stated).  With co-executors [2, 3] and observer [4] the
    creation leaves four role rows on the new task, not three. *)
Lemma two_co_executors_one_observer_make_four_roles :
  exists task db',
    TaskCreateSerializer_create Fixture.clock (Fixture.post Fixture.user1 [])
      Fixture.task_data Fixture.db0 = (Ok task, db')
    /\ length (Task_roles task db') = 4%nat
    /\ length (Task_roles task db') <> 3%nat
    /\ length (Task_items task db') = 2%nat.
Proof.
  exists Fixture.task1, Fixture.db1. vm_compute.
  repeat split; discriminate.
Qed.

(* ===================================================================== *)
(** * Further properties *)
(* ===================================================================== *)

(* --------------------------------------------------------------------- *)
(** ** The three policies *)
(* --------------------------------------------------------------------- *)

Lemma is_assigner_on_true k uid db :
  is_assigner_on k uid db = true <-> holds_assigner_role k uid db.
Proof.
  unfold is_assigner_on, holds_assigner_role, roles_of.
  rewrite existsb_exists. split.
  - intros [r [Hin Hc]]. apply filter_In in Hin. destruct Hin as [Hin Ht].
    apply andb_true_iff in Hc. destruct Hc as [Hu Hr].
    exists r. rewrite Z.eqb_eq in Ht, Hu. apply String.eqb_eq in Hr. auto.
  - intros [r (Hin & Ht & Hu & Hr)]. exists r. split.
    + apply filter_In. split; [exact Hin|]. apply Z.eqb_eq. exact Ht.
    + apply andb_true_iff. split; [apply Z.eqb_eq | apply String.eqb_eq]; auto.
Qed.

Lemma holds_assigner_holds_role k uid db :
  holds_assigner_role k uid db -> holds_role k uid db.
Proof. intros [r (Hin & Ht & Hu & _)]. exists r. auto. Qed.

Lemma IsTaskParticipant_iff (request : Request.t) (o : obj) (db : DB.t) :
  IsTaskParticipant_has_object_permission request o db = true
  <-> User.is_staff (Request.user request) = true
      \/ exists k, obj_task_id o = Some k
                   /\ (holds_role k (Request.user_id request) db
                       \/ executes_item k (Request.user_id request) db).
Proof.
  unfold IsTaskParticipant_has_object_permission.
  destruct (User.is_staff (Request.user request)); [split; auto|].
  destruct (obj_task_id o) as [k|].
  - destruct (has_role_on k (Request.user_id request) db) eqn:Hr.
    + apply has_role_on_true in Hr. split; eauto.
    + destruct (is_executor_on k (Request.user_id request) db) eqn:He.
      { apply is_executor_on_true in He. split; eauto. }
      split; [discriminate|].
      intros [H|[k' [Hk [H|H]]]]; [discriminate| |]; inversion Hk; subst.
      { apply has_role_on_true in H. congruence. }
      { apply is_executor_on_true in H. congruence. }
  - split; [discriminate|].
    intros [H|[k' [Hk _]]]; discriminate.
Qed.

Lemma IsAssigner_iff (request : Request.t) (o : obj) (db : DB.t) :
  IsAssigner_has_object_permission request o db = true
  <-> User.is_staff (Request.user request) = true
      \/ exists k, obj_task_id o = Some k
                   /\ holds_assigner_role k (Request.user_id request) db.
Proof.
  unfold IsAssigner_has_object_permission.
  destruct (User.is_staff (Request.user request)); [split; auto|].
  destruct (obj_task_id o) as [k|].
  - rewrite is_assigner_on_true. split; [eauto|].
    intros [H|[k' [Hk H]]]; [discriminate|]. inversion Hk; subst. exact H.
  - split; [discriminate|]. intros [H|[k' [Hk _]]]; discriminate.
Qed.

Lemma IsTaskItemExecutorOrAssigner_iff (request : Request.t) (o : TaskItem.t)
    (db : DB.t) :
  IsTaskItemExecutorOrAssigner_has_object_permission request o db = true
  <-> User.is_staff (Request.user request) = true
      \/ holds_assigner_role (TaskItem.task o) (Request.user_id request) db
      \/ (TaskItem.executor o = Some (Request.user_id request)
          /\ (Request.method request = "PATCH"
              \/ Request.method request = "PUT")
          /\ forall k, In k (map fst (Request.data request)) -> k = "status").
Proof.
  unfold IsTaskItemExecutorOrAssigner_has_object_permission.
  destruct (User.is_staff (Request.user request)); [split; auto|].
  destruct (is_assigner_on _ _ db) eqn:Ha.
  { apply is_assigner_on_true in Ha. split; auto. }
  assert (Hna : ~ holds_assigner_role (TaskItem.task o)
                    (Request.user_id request) db).
  { intros H. apply is_assigner_on_true in H. congruence. }
  destruct (opt_eqb _ _) eqn:He.
  - apply opt_eqb_true in He.
    destruct (method_in_patch_put _) eqn:Hm.
    + apply method_in_patch_put_true in Hm.
      destruct (bool_decide _) eqn:Hb.
      * apply bool_decide_eq_true in Hb.
        pose proof (proj1 (update_fields_subset request) Hb) as Hkeys.
        split; auto.
      * apply bool_decide_eq_false in Hb.
        split; [discriminate|].
        intros [H|[H|(_ & _ & H)]]; [discriminate|contradiction|].
        exfalso. apply Hb. exact (proj2 (update_fields_subset request) H).
    + split; [discriminate|].
      intros [H|[H|(_ & H & _)]]; [discriminate|contradiction|].
      apply method_in_patch_put_true in H. congruence.
  - split; [discriminate|].
    intros [H|[H|(H & _)]]; [discriminate|contradiction|].
    apply opt_eqb_true in H. congruence.
Qed.

(** X1.  [IsAssigner] passes exactly the staff and the holder of the assigner
    role; whoever passes it also passes [IsTaskParticipant], and, asked
    about an item, [IsTaskItemExecutorOrAssigner] for any method and
    body. *)
Theorem IsAssigner_is_the_strongest_policy (request : Request.t) (o : obj)
    (db : DB.t) :
  (IsAssigner_has_object_permission request o db = true
   <-> User.is_staff (Request.user request) = true
       \/ exists k, obj_task_id o = Some k
                    /\ holds_assigner_role k (Request.user_id request) db)
  /\ (IsAssigner_has_object_permission request o db = true ->
      IsTaskParticipant_has_object_permission request o db = true)
  /\ (forall i,
         o = TaskItemObj i ->
         IsAssigner_has_object_permission request o db = true ->
         IsTaskItemExecutorOrAssigner_has_object_permission request i db = true).
Proof.
  pose proof (IsAssigner_iff request o db) as Hiff.
  split; [exact Hiff|]. split.
  - intros H. apply Hiff in H.
    apply IsTaskParticipant_iff.
    destruct H as [H|[k [Hk H]]]; [auto|].
    right. exists k. split; [exact Hk|]. left.
    apply holds_assigner_holds_role. exact H.
  - intros i -> H.
    unfold IsAssigner_has_object_permission in H. simpl in H.
    unfold IsTaskItemExecutorOrAssigner_has_object_permission.
    destruct (User.is_staff (Request.user request)); [reflexivity|].
    rewrite H. reflexivity.
Qed.

Lemma IsAssigner_is_the_strongest_policy_witness :
  IsTaskItemExecutorOrAssigner_has_object_permission
    (Request.mk Fixture.user1 "DELETE" []) Fixture.done_item Fixture.db1 = true.
Proof.
  apply (IsAssigner_is_the_strongest_policy
           (Request.mk Fixture.user1 "DELETE" [])
           (TaskItemObj Fixture.done_item) Fixture.db1).
  - reflexivity.
  - vm_compute. reflexivity.
Defined.

(* --------------------------------------------------------------------- *)
(** ** Mutations by someone who is not the assigner *)
(* --------------------------------------------------------------------- *)

Lemma list_is_visible (filterset : DB.t -> Task.t -> bool) request db t :
  In t (TaskViewSet_list filterset request db) ->
  In t (DB.tasks db) /\ visible_to (Request.user_id request) db t = true.
Proof.
  unfold TaskViewSet_list, filter_queryset, TaskViewSet_get_queryset.
  intros Hin. apply filter_In in Hin. destruct Hin as [Hin _].
  apply filter_In in Hin. exact Hin.
Qed.

Lemma get_object_refuses_non_assigner (filterset : DB.t -> Task.t -> bool)
    (request : Request.t) (k : Z) (db : DB.t) :
  User.is_staff (Request.user request) = false ->
  ~ holds_assigner_role k (Request.user_id request) db ->
  get_object filterset [IsAssigner_has_object_permission] request k db
  = (Raise (match List.find (fun t => pk_is k (Task.pk t))
                            (TaskViewSet_list filterset request db) with
            | Some _ => PermissionDenied
            | None => Http404
            end), db).
Proof.
  intros Hstaff Hna. unfold get_object.
  fold (TaskViewSet_list filterset request db).
  destruct (List.find _ _) as [t|] eqn:Hfind; [|reflexivity].
  apply find_some in Hfind. destruct Hfind as [_ Hpk].
  apply pk_is_true in Hpk. simpl.
  unfold IsAssigner_has_object_permission. simpl. rewrite Hstaff, Hpk.
  destruct (is_assigner_on k (Request.user_id request) db) eqn:Ha;
    [|reflexivity].
  apply is_assigner_on_true in Ha. contradiction.
Qed.

(** X2.  A user who is neither staff nor the assigner of the task changes
    nothing through the status update, [destroy], [add_role],
    [remove_role] or [add_item]: each raises and leaves the database as it
    was, with [PermissionDenied] when the task is in the user's list and
    [Http404] when it is not. *)
Theorem non_assigner_cannot_mutate
    (filterset : DB.t -> Task.t -> bool)
    (validate : bool -> list (string * json) -> ItemPatch.t + list string)
    (python_int : string -> option Z)
    (request : Request.t) (k : Z) (role_id : string) (now : Z)
    (value : string) (db : DB.t) :
  User.is_staff (Request.user request) = false ->
  ~ holds_assigner_role k (Request.user_id request) db ->
  let refusal :=
    match List.find (fun t => pk_is k (Task.pk t))
                    (TaskViewSet_list filterset request db) with
    | Some _ => PermissionDenied
    | None => Http404
    end in
  TaskViewSet_partial_update_status filterset request k value db
  = (Raise refusal, db)
  /\ TaskViewSet_destroy filterset request k db = (Raise refusal, db)
  /\ TaskViewSet_add_role filterset request k db = (Raise refusal, db)
  /\ TaskViewSet_remove_role filterset python_int request k role_id db
     = (Raise refusal, db)
  /\ TaskViewSet_add_item filterset validate now request k db
     = (Raise refusal, db)
  /\ ((exists t, In t (TaskViewSet_list filterset request db)
                 /\ Task.pk t = Some k) ->
      refusal = PermissionDenied)
  /\ (~ holds_role k (Request.user_id request) db ->
      ~ executes_item k (Request.user_id request) db ->
      refusal = Http404).
Proof.
  intros Hstaff Hna refusal.
  pose proof (get_object_refuses_non_assigner filterset request k db Hstaff Hna)
    as Hget. fold refusal in Hget.
  repeat split.
  - unfold TaskViewSet_partial_update_status, bind. simpl. rewrite Hget.
    reflexivity.
  - unfold TaskViewSet_destroy, bind. simpl. rewrite Hget. reflexivity.
  - unfold TaskViewSet_add_role, bind. rewrite Hget. reflexivity.
  - unfold TaskViewSet_remove_role, bind. simpl. rewrite Hget. reflexivity.
  - unfold TaskViewSet_add_item, bind. simpl. rewrite Hget. reflexivity.
  - intros [t [Hin Hpk]]. unfold refusal.
    destruct (List.find _ _) eqn:Hfind; [reflexivity|].
    exfalso. eapply find_none in Hfind; [|exact Hin].
    simpl in Hfind. apply pk_is_true in Hpk. congruence.
  - intros Hr He. unfold refusal.
    destruct (List.find _ _) as [t|] eqn:Hfind; [|reflexivity].
    exfalso. apply find_some in Hfind. destruct Hfind as [Hin Hpk].
    apply pk_is_true in Hpk.
    apply list_is_visible in Hin. destruct Hin as [_ Hvis].
    apply visible_to_true in Hvis. destruct Hvis as [k' [Hk' [H|H]]];
      rewrite Hpk in Hk'; inversion Hk'; subst; contradiction.
Qed.

Lemma non_assigner_cannot_mutate_witness :
  TaskViewSet_destroy Fixture.all_tasks
    (Request.mk Fixture.user2 "DELETE" []) 1 Fixture.db1
  = (Raise PermissionDenied, Fixture.db1).
Proof.
  apply (non_assigner_cannot_mutate Fixture.all_tasks (fun _ _ => inr [])
           (fun _ => None) (Request.mk Fixture.user2 "DELETE" []) 1 "5" 0 ""
           Fixture.db1).
  - reflexivity.
  - intros [r (Hin & _ & Hu & Hr)]. vm_compute in Hin.
    repeat (destruct Hin as [<-|Hin]; [discriminate|]). destruct Hin.
Defined.

(* --------------------------------------------------------------------- *)
(** ** [Task.assigner] and [Task.get_participants] *)
(* --------------------------------------------------------------------- *)

Lemma first_by_pk_In rows r : first_by_pk rows = Some r -> In r rows.
Proof.
  revert r. induction rows as [|x rest IH]; intros r H; [discriminate|].
  simpl in H. destruct (first_by_pk rest) as [b|].
  - destruct (role_key b <? role_key x); inversion H; subst.
    + right. apply IH. reflexivity.
    + left. reflexivity.
  - inversion H; subst. left. reflexivity.
Qed.

Lemma first_by_pk_None rows : first_by_pk rows = None <-> rows = [].
Proof.
  destruct rows as [|x rest]; simpl; [tauto|].
  destruct (first_by_pk rest) as [b|];
    [destruct (role_key b <? role_key x)|]; split; discriminate.
Qed.

Lemma assigner_rows_of_task self k db r :
  Task.pk self = Some k ->
  In r (List.filter (fun r => (TaskRole.role r =? "assigner")%string)
                    (Task_roles self db))
  <-> In r (DB.roles db) /\ TaskRole.task r = k /\ TaskRole.role r = "assigner".
Proof.
  intros Hpk. unfold Task_roles, roles_of. rewrite Hpk.
  rewrite !filter_In, Z.eqb_eq, String.eqb_eq. tauto.
Qed.

Lemma Task_assigner_Some (self : Task.t) (k : Z) (db : DB.t) (u : Z) :
  Task.pk self = Some k ->
  Task_assigner self db = Some u -> holds_assigner_role k u db.
Proof.
  intros Hpk H. unfold Task_assigner in H.
  destruct (first_by_pk _) as [r|] eqn:Hf; [|discriminate].
  inversion H; subst. apply first_by_pk_In in Hf.
  apply (assigner_rows_of_task self k db r Hpk) in Hf.
  destruct Hf as (Hin & Ht & Hr). exists r. auto.
Qed.

Lemma Task_assigner_None (self : Task.t) (k : Z) (db : DB.t) :
  Task.pk self = Some k ->
  (Task_assigner self db = None <-> forall u, ~ holds_assigner_role k u db).
Proof.
  intros Hpk. unfold Task_assigner. split.
  - intros H u [r (Hin & Ht & Hu & Hr)].
    destruct (first_by_pk _) as [b|] eqn:Hf; [discriminate|].
    apply first_by_pk_None in Hf.
    assert (Hmem : In r (List.filter
              (fun r => (TaskRole.role r =? "assigner")%string)
              (Task_roles self db))).
    { apply (assigner_rows_of_task self k db r Hpk). auto. }
    rewrite Hf in Hmem. destruct Hmem.
  - intros H. destruct (first_by_pk _) as [r|] eqn:Hf; [|reflexivity].
    exfalso. apply first_by_pk_In in Hf.
    apply (assigner_rows_of_task self k db r Hpk) in Hf.
    destruct Hf as (Hin & Ht & Hr). apply (H (TaskRole.user r)).
    exists r. auto.
Qed.

Lemma Task_assigner_only (self : Task.t) (k : Z) (db : DB.t) (u : Z) :
  Task.pk self = Some k ->
  holds_assigner_role k u db ->
  (forall u', holds_assigner_role k u' db -> u' = u) ->
  Task_assigner self db = Some u.
Proof.
  intros Hpk Hu Honly.
  destruct (Task_assigner self db) as [u'|] eqn:Ha.
  - f_equal. apply Honly. apply (Task_assigner_Some self k db u' Hpk Ha).
  - exfalso. exact (proj1 (Task_assigner_None self k db Hpk) Ha u Hu).
Qed.

(** X3.  [Task.assigner] is [None] exactly when the task has no assigner role;
    otherwise it is a user who holds that role, and the only such user
    when there is one. *)
Theorem Task_assigner_is_the_assigner (self : Task.t) (k : Z) (db : DB.t) :
  Task.pk self = Some k ->
  (Task_assigner self db = None
   <-> forall u, ~ holds_assigner_role k u db)
  /\ (forall u, Task_assigner self db = Some u -> holds_assigner_role k u db)
  /\ (forall u,
         holds_assigner_role k u db ->
         (forall u', holds_assigner_role k u' db -> u' = u) ->
         Task_assigner self db = Some u).
Proof.
  intros Hpk. split; [|split].
  - apply Task_assigner_None. exact Hpk.
  - intros u. apply Task_assigner_Some. exact Hpk.
  - intros u. apply Task_assigner_only. exact Hpk.
Qed.

Lemma Task_assigner_is_the_assigner_witness :
  Task_assigner Fixture.task1 Fixture.db1 = Some 1.
Proof.
  apply (Task_assigner_is_the_assigner Fixture.task1 1 Fixture.db1).
  - reflexivity.
  - exists (TaskRole.mk (Some 1) 1 1 "assigner"). vm_compute. auto.
  - intros u' [r (Hin & _ & Hu & Hr)]. vm_compute in Hin.
    repeat (destruct Hin as [<-|Hin];
            [try discriminate Hr; try (simpl in Hu; congruence)|]).
    destruct Hin.
Defined.

Lemma created_db_roles clock request vd db :
  DB.roles (created_db clock request vd db)
  = (DB.roles db
     ++ created_roles (DB.next_task db) (Request.user_id request)
          (DB.next_role db) (pop (TaskData.co_executors vd) [])
          (pop (TaskData.observers vd) []))%list.
Proof. reflexivity. Qed.

(** X4.  After a creation that completed, [Task.assigner] of the new task is
    the requesting user. *)
Theorem created_task_is_assigned_to_requester (clock : nat -> Z)
    (request : Request.t) (vd : TaskData.t) (db : DB.t) :
  creation_ready request vd db ->
  exists task db',
    TaskCreateSerializer_create clock request vd db = (Ok task, db')
    /\ Task_assigner task db' = Some (Request.user_id request).
Proof.
  intros Hready.
  destruct (create_body_succeeds clock request vd db Hready)
    as (task & db' & Hbody).
  exists task, db'. split.
  { unfold TaskCreateSerializer_create, transaction_atomic. rewrite Hbody.
    reflexivity. }
  apply create_body_ok in Hbody. destruct Hbody as [Htask Hdb]. subst task db'.
  apply (Task_assigner_only _ (DB.next_task db)); [reflexivity| |].
  - exists (TaskRole.mk (Some (DB.next_role db)) (DB.next_task db)
                        (Request.user_id request) "assigner").
    rewrite created_db_roles. split; [|simpl; auto].
    apply in_or_app. right. left. reflexivity.
  - intros u' [r (Hin & Ht & Hu & Hr)]. rewrite created_db_roles in Hin.
    apply in_app_or in Hin. destruct Hin as [Hin|Hin].
    + exfalso. exact (ready_fresh _ _ _ Hready r Hin Ht).
    + unfold created_roles in Hin. destruct Hin as [<-|Hin].
      * simpl in Hu. congruence.
      * exfalso. apply in_app_or in Hin.
        destruct Hin as [Hin|Hin]; apply role_rows_fields in Hin;
          destruct Hin as (_ & Hrole & _); rewrite Hrole in Hr; discriminate.
Qed.

Lemma created_task_is_assigned_to_requester_witness :
  exists task db',
    TaskCreateSerializer_create Fixture.clock (Fixture.post Fixture.user1 [])
      Fixture.task_data Fixture.db0 = (Ok task, db')
    /\ Task_assigner task db' = Some 1.
Proof.
  apply (created_task_is_assigned_to_requester Fixture.clock
           (Fixture.post Fixture.user1 []) Fixture.task_data Fixture.db0).
  constructor; simpl.
  - intros r [].
  - reflexivity.
  - intros u [<-|[<-|[]]]; reflexivity.
  - intros u [<-|[]]; reflexivity.
  - repeat constructor; simpl; intuition discriminate.
  - repeat constructor; simpl; intuition discriminate.
  - intros d [<-|[<-|[]]]; (split; [reflexivity|]); simpl; intros u Hu;
      inversion Hu; subst; reflexivity.
Defined.

Lemma Task_roles_holds self k db r :
  Task.pk self = Some k ->
  In r (Task_roles self db) <-> In r (DB.roles db) /\ TaskRole.task r = k.
Proof.
  intros Hpk. unfold Task_roles, roles_of. rewrite Hpk, filter_In, Z.eqb_eq.
  tauto.
Qed.

(** X5.  [get_participants] lists exactly the users who hold a role on the
    task; each of them passes [IsTaskParticipant]. *)
Theorem Task_get_participants_hold_roles (self : Task.t) (k : Z) (db : DB.t)
    (u : User.t) :
  Task.pk self = Some k ->
  (In u (Task_get_participants self db)
   <-> In u (DB.users db) /\ holds_role k (User.pk u) db)
  /\ (In u (Task_get_participants self db) ->
      forall method data,
        IsTaskParticipant_has_object_permission
          (Request.mk u method data) (TaskObj self) db = true).
Proof.
  intros Hpk.
  assert (Hiff : In u (Task_get_participants self db)
                 <-> In u (DB.users db) /\ holds_role k (User.pk u) db).
  { unfold Task_get_participants. rewrite filter_In, existsb_exists.
    unfold holds_role. split.
    - intros [Hu [r [Hin Heq]]]. split; [exact Hu|].
      apply (Task_roles_holds self k db r Hpk) in Hin.
      apply Z.eqb_eq in Heq. exists r. tauto.
    - intros [Hu [r (Hin & Ht & Heq)]]. split; [exact Hu|].
      exists r. split.
      + apply (Task_roles_holds self k db r Hpk). auto.
      + apply Z.eqb_eq. exact Heq. }
  split; [exact Hiff|].
  intros Hin method data. apply Hiff in Hin. destruct Hin as [_ Hrole].
  apply IsTaskParticipant_iff. right. exists k. simpl. auto.
Qed.

Lemma Task_get_participants_hold_roles_witness :
  In Fixture.user4 (Task_get_participants Fixture.task1 Fixture.db1).
Proof.
  apply (Task_get_participants_hold_roles Fixture.task1 1 Fixture.db1
           Fixture.user4).
  - reflexivity.
  - split; [vm_compute; auto|].
    exists (TaskRole.mk (Some 4) 1 4 "observer"). vm_compute. auto 10.
Defined.

(* --------------------------------------------------------------------- *)
(** ** [add_role] and [remove_role] *)
(* --------------------------------------------------------------------- *)

Lemma get_object_passes_assigner (filterset : DB.t -> Task.t -> bool)
    request k db t :
  List.find (fun x => pk_is k (Task.pk x)) (TaskViewSet_list filterset request db)
  = Some t ->
  User.is_staff (Request.user request) = true
  \/ holds_assigner_role k (Request.user_id request) db ->
  get_object filterset [IsAssigner_has_object_permission] request k db
  = (Ok t, db)
  /\ Task.pk t = Some k /\ task_exists k db = true.
Proof.
  intros Hfind Hauth.
  pose proof (find_some _ _ Hfind) as [Hin Hpk]. apply pk_is_true in Hpk.
  split; [|split; [exact Hpk|]].
  - unfold get_object. fold (TaskViewSet_list filterset request db).
    rewrite Hfind. simpl.
    assert (Hperm : IsAssigner_has_object_permission request (TaskObj t) db
                    = true).
    { apply IsAssigner_iff.
      destruct Hauth as [H|H]; [auto|]. right. exists k. auto. }
    rewrite Hperm. reflexivity.
  - apply list_is_visible in Hin. destruct Hin as [Hin _].
    unfold task_exists. apply existsb_exists. exists t.
    split; [exact Hin|]. apply pk_is_true. exact Hpk.
Qed.

Lemma get_object_ok (filterset : DB.t -> Task.t -> bool) perms request pk db t
    db1 :
  get_object filterset perms request pk db = (Ok t, db1) ->
  db1 = db
  /\ In t (TaskViewSet_list filterset request db)
  /\ Task.pk t = Some pk
  /\ forallb (fun p => p request (TaskObj t) db) perms = true.
Proof.
  unfold get_object. fold (TaskViewSet_list filterset request db).
  destruct (List.find _ _) as [x|] eqn:Hfind; [|discriminate].
  destruct (forallb _ perms) eqn:Hperm; [|discriminate].
  intros H. inversion H; subst.
  apply find_some in Hfind. destruct Hfind as [Hin Hpk].
  apply pk_is_true in Hpk. auto.
Qed.

Lemma in_choices_true v choices : in_choices v choices = true <-> In v choices.
Proof.
  unfold in_choices. rewrite existsb_exists. split.
  - intros [c [Hin Heq]]. apply String.eqb_eq in Heq. subst. exact Hin.
  - intros Hin. exists v. split; [exact Hin|]. apply String.eqb_refl.
Qed.

(** [add_role] by the assigner or by staff, with a well-formed body:
    exactly the row asked for is inserted, whatever the role, as soon as
    the user exists and does not hold that role on the task yet. *)
Lemma add_role_inserts (filterset : DB.t -> Task.t -> bool)
    (request : Request.t) (k u : Z) (role : string) (t : Task.t) (db : DB.t) :
  List.find (fun x => pk_is k (Task.pk x)) (TaskViewSet_list filterset request db)
  = Some t ->
  User.is_staff (Request.user request) = true
  \/ holds_assigner_role k (Request.user_id request) db ->
  data_get "user_id" (Request.data request) = Some (JInt u) ->
  data_get "role" (Request.data request) = Some (JStr role) ->
  In role TaskRole_ROLE_CHOICES ->
  user_exists u db = true ->
  (forall r, In r (DB.roles db) -> role_triple r <> (k, u, role)) ->
  TaskViewSet_add_role filterset request k db
  = (Ok (HTTP_201_CREATED (TaskRole.mk (Some (DB.next_role db)) k u role)),
     set_roles (DB.roles db ++ [TaskRole.mk (Some (DB.next_role db)) k u role])
               (DB.next_role db + 1) db).
Proof.
  intros Hfind Hauth Huid Hrole Hchoice Huser Hfree.
  destruct (get_object_passes_assigner filterset request k db t Hfind Hauth)
    as (Hget & Hpk & Htask).
  assert (Hnone : existsb (same_triple (TaskRole.mk (Some (DB.next_role db)) k u
                                          role)) (DB.roles db) = false).
  { apply existsb_false_iff. intros r Hr.
    destruct (same_triple _ r) eqn:Hsame; [|reflexivity].
    apply same_triple_true in Hsame. simpl in Hsame.
    destruct Hsame as (H1 & H2 & H3).
    exfalso. apply (Hfree r Hr). unfold role_triple. congruence. }
  unfold TaskViewSet_add_role.
  rewrite (bind_run _ _ db t db Hget).
  unfold TaskRoleSerializer_is_valid. rewrite Huid, Hrole.
  apply in_choices_true in Hchoice. rewrite Hchoice.
  unfold bind, TaskRole_objects_create. rewrite Hpk, Htask, Huser. simpl.
  rewrite Hnone. reflexivity.
Qed.

Lemma filter_app_fresh_pk (rows : list TaskRole.t) (row : TaskRole.t) n :
  TaskRole.pk row = Some n ->
  (forall r, In r rows -> TaskRole.pk r <> Some n) ->
  List.filter (fun r => negb (pk_is n (TaskRole.pk r))) (rows ++ [row]) = rows.
Proof.
  intros Hrow Hfresh. rewrite List.filter_app. simpl.
  rewrite (proj2 (pk_is_true n (TaskRole.pk row)) Hrow). simpl.
  rewrite app_nil_r.
  induction rows as [|x rest IH]; [reflexivity|]. simpl.
  destruct (pk_is n (TaskRole.pk x)) eqn:Hx.
  - apply pk_is_true in Hx. exfalso. apply (Hfresh x); [left; reflexivity|exact Hx].
  - simpl. rewrite IH; [reflexivity|]. intros r Hr. apply Hfresh. right. exact Hr.
Qed.

Lemma find_fresh_pk (rows : list TaskRole.t) (row : TaskRole.t) n :
  TaskRole.pk row = Some n ->
  (forall r, In r rows -> TaskRole.pk r <> Some n) ->
  List.find (fun r => pk_is n (TaskRole.pk r)) (rows ++ [row]) = Some row.
Proof.
  intros Hrow Hfresh.
  induction rows as [|x rest IH]; simpl.
  - rewrite (proj2 (pk_is_true n (TaskRole.pk row)) Hrow). reflexivity.
  - destruct (pk_is n (TaskRole.pk x)) eqn:Hx.
    + apply pk_is_true in Hx. exfalso.
      apply (Hfresh x); [left; reflexivity|exact Hx].
    + apply IH. intros r Hr. apply Hfresh. right. exact Hr.
Qed.

(** X6.  What [remove_role] does once [get_object] has passed, the role
    rows having distinct keys: a [role_id] that is no number raises
    [ValueError]; the key of the task's assigner role is answered 400 and
    the role kept; a key that is no role of this task is answered 404;
    the key of any other role of the task is answered 204, that row and
    no other being deleted.  When [get_object] raises, so does
    [remove_role]; nothing is written in any case but the last. *)
Theorem remove_role_outcomes (filterset : DB.t -> Task.t -> bool)
    (python_int : string -> option Z)
    (request : Request.t) (k : Z) (role_id : string) (db : DB.t) :
  (forall e,
      get_object filterset (TaskViewSet_get_permissions a_remove_role)
        request k db = (Raise e, db) ->
      TaskViewSet_remove_role filterset python_int request k role_id db
      = (Raise e, db))
  /\ (forall t,
         get_object filterset (TaskViewSet_get_permissions a_remove_role)
           request k db = (Ok t, db) ->
         (python_int role_id = None ->
          TaskViewSet_remove_role filterset python_int request k role_id db
          = (Raise ValueError, db))
         /\ (forall key,
                python_int role_id = Some key ->
                (forall r r', In r (DB.roles db) -> In r' (DB.roles db) ->
                              TaskRole.pk r = Some key ->
                              TaskRole.pk r' = Some key -> r = r') ->
                ((forall r, In r (DB.roles db) -> TaskRole.task r = k ->
                            TaskRole.pk r <> Some key) ->
                 TaskViewSet_remove_role filterset python_int request k
                   role_id db
                 = (Ok HTTP_404_role_not_found, db))
                /\ (forall role,
                       In role (DB.roles db) ->
                       TaskRole.pk role = Some key ->
                       TaskRole.task role = k ->
                       (TaskRole.role role = "assigner" ->
                        TaskViewSet_remove_role filterset python_int request k
                          role_id db
                        = (Ok HTTP_400_cannot_remove_assigner, db))
                       /\ (TaskRole.role role <> "assigner" ->
                           exists db',
                             TaskViewSet_remove_role filterset python_int
                               request k role_id db
                             = (Ok HTTP_204_NO_CONTENT, db')
                             /\ ~ In role (DB.roles db')
                             /\ (forall r, In r (DB.roles db') ->
                                           In r (DB.roles db))
                             /\ (forall r, In r (DB.roles db) -> r <> role ->
                                           In r (DB.roles db'))
                             /\ DB.tasks db' = DB.tasks db
                             /\ DB.items db' = DB.items db)))).
Proof.
  split.
  - intros e Hget. unfold TaskViewSet_remove_role, bind. rewrite Hget.
    reflexivity.
  - intros t Hget.
    pose proof (get_object_ok _ _ _ _ _ _ _ Hget) as (_ & _ & Hpk & _).
    unfold TaskViewSet_remove_role. rewrite (bind_run _ _ db t db Hget).
    split.
    + intros Hint. rewrite Hint. reflexivity.
    + intros key Hint Huniq. rewrite Hint. split.
      * intros Hnone.
        destruct (List.find _ (Task_roles t db)) as [role|] eqn:Hfind;
          [|reflexivity].
        exfalso. apply find_some in Hfind. destruct Hfind as [Hin Hkey].
        apply pk_is_true in Hkey.
        apply (Task_roles_holds t k db role Hpk) in Hin.
        destruct Hin as [Hin Htask]. exact (Hnone role Hin Htask Hkey).
      * intros role Hin Hkey Htask.
        assert (Hfind : List.find (fun r => pk_is key (TaskRole.pk r))
                          (Task_roles t db) = Some role).
        { destruct (List.find _ (Task_roles t db)) as [role'|] eqn:Hfind.
          - apply find_some in Hfind. destruct Hfind as [Hin' Hkey'].
            apply pk_is_true in Hkey'.
            apply (Task_roles_holds t k db role' Hpk) in Hin'.
            destruct Hin' as [Hin' _].
            rewrite (Huniq role' role Hin' Hin Hkey' Hkey). reflexivity.
          - exfalso.
            assert (Hmem : In role (Task_roles t db))
              by (apply (Task_roles_holds t k db role Hpk); auto).
            pose proof (find_none _ _ Hfind role Hmem) as Hno.
            simpl in Hno. apply pk_is_true in Hkey. congruence. }
        rewrite Hfind. split.
        { intros Hrole. apply String.eqb_eq in Hrole. rewrite Hrole.
          reflexivity. }
        { intros Hrole. apply String.eqb_neq in Hrole. rewrite Hrole.
          unfold bind, TaskRole_delete, ret. rewrite Hkey.
          eexists. split; [reflexivity|]. cbn [DB.roles DB.tasks DB.items set_roles].
          split; [|split; [|split; [|split; reflexivity]]].
          - intros Hmem. apply filter_In in Hmem. destruct Hmem as [_ Hneg].
            rewrite (proj2 (pk_is_true key (TaskRole.pk role)) Hkey) in Hneg.
            discriminate.
          - intros r Hr. apply filter_In in Hr. apply Hr.
          - intros r Hr Hne. apply filter_In. split; [exact Hr|].
            destruct (pk_is key (TaskRole.pk r)) eqn:Hx; [|reflexivity].
            apply pk_is_true in Hx. exfalso. apply Hne.
            exact (Huniq r role Hr Hin Hx Hkey). }
Qed.

Lemma remove_role_outcomes_witness :
  TaskViewSet_remove_role Fixture.all_tasks Fixture.digits_int
    (Request.mk Fixture.user1 "DELETE" []) 1 "abc" Fixture.db1
  = (Raise ValueError, Fixture.db1)
  /\ TaskViewSet_remove_role Fixture.all_tasks Fixture.digits_int
       (Request.mk Fixture.user1 "DELETE" []) 1 "99" Fixture.db1
     = (Ok HTTP_404_role_not_found, Fixture.db1)
  /\ TaskViewSet_remove_role Fixture.all_tasks Fixture.digits_int
       (Request.mk Fixture.user1 "DELETE" []) 1 "1" Fixture.db1
     = (Ok HTTP_400_cannot_remove_assigner, Fixture.db1)
  /\ exists db',
       TaskViewSet_remove_role Fixture.all_tasks Fixture.digits_int
         (Request.mk Fixture.user1 "DELETE" []) 1 "2" Fixture.db1
       = (Ok HTTP_204_NO_CONTENT, db')
       /\ ~ In (TaskRole.mk (Some 2) 1 2 "co_executor") (DB.roles db').
Proof.
  assert (Hget : get_object Fixture.all_tasks
                   (TaskViewSet_get_permissions a_remove_role)
                   (Request.mk Fixture.user1 "DELETE" []) 1 Fixture.db1
                 = (Ok Fixture.task1, Fixture.db1))
    by (vm_compute; reflexivity).
  assert (Huniq : forall key r r',
             In r (DB.roles Fixture.db1) -> In r' (DB.roles Fixture.db1) ->
             TaskRole.pk r = Some key -> TaskRole.pk r' = Some key -> r = r').
  { intros key r r' Hr Hr' Hk Hk'. cbn in Hr, Hr'.
    destruct Hr as [<-|[<-|[<-|[<-|[]]]]];
      destruct Hr' as [<-|[<-|[<-|[<-|[]]]]];
      cbn in Hk, Hk'; congruence. }
  split; [|split; [|split]].
  - apply (proj2 (remove_role_outcomes Fixture.all_tasks Fixture.digits_int
                    (Request.mk Fixture.user1 "DELETE" []) 1 "abc" Fixture.db1)
                 Fixture.task1 Hget).
    vm_compute. reflexivity.
  - apply (proj2 (remove_role_outcomes Fixture.all_tasks Fixture.digits_int
                    (Request.mk Fixture.user1 "DELETE" []) 1 "99" Fixture.db1)
                 Fixture.task1 Hget) with (key := 99).
    + vm_compute. reflexivity.
    + apply Huniq.
    + intros r Hr _ Hk. cbn in Hr.
      destruct Hr as [<-|[<-|[<-|[<-|[]]]]]; discriminate.
  - apply (proj2 (remove_role_outcomes Fixture.all_tasks Fixture.digits_int
                    (Request.mk Fixture.user1 "DELETE" []) 1 "1" Fixture.db1)
                 Fixture.task1 Hget)
      with (key := 1) (role := TaskRole.mk (Some 1) 1 1 "assigner").
    + vm_compute. reflexivity.
    + apply Huniq.
    + cbn. auto.
    + reflexivity.
    + reflexivity.
    + reflexivity.
  - destruct (proj2 (remove_role_outcomes Fixture.all_tasks Fixture.digits_int
                       (Request.mk Fixture.user1 "DELETE" []) 1 "2" Fixture.db1)
                    Fixture.task1 Hget) as [_ Hkey].
    destruct (Hkey 2) as [_ Hrole]; [vm_compute; reflexivity | apply Huniq |].
    destruct (Hrole (TaskRole.mk (Some 2) 1 2 "co_executor")) as [_ Hdel];
      [cbn; auto | reflexivity | reflexivity |].
    destruct Hdel as (db' & Hrun & Hgone & _); [discriminate|].
    exists db'. split; assumption.
Defined.

(** X7.  Adding a co-executor or observer role and removing it again by the key
    the insertion gave it, written as the [role_id] of the URL, restores
    the role table; only the key counter has moved. *)
Theorem add_role_then_remove_role (filterset : DB.t -> Task.t -> bool)
    (python_int : string -> option Z)
    (request : Request.t) (k u : Z) (role : string) (role_id : string)
    (t : Task.t) (db : DB.t) :
  (forall d x, filterset d x = true) ->
  python_int role_id = Some (DB.next_role db) ->
  List.find (fun x => pk_is k (Task.pk x)) (TaskViewSet_list filterset request db)
  = Some t ->
  User.is_staff (Request.user request) = true
  \/ holds_assigner_role k (Request.user_id request) db ->
  data_get "user_id" (Request.data request) = Some (JInt u) ->
  data_get "role" (Request.data request) = Some (JStr role) ->
  role = "co_executor" \/ role = "observer" ->
  user_exists u db = true ->
  (forall r, In r (DB.roles db) -> role_triple r <> (k, u, role)) ->
  (forall r, In r (DB.roles db) -> TaskRole.pk r <> Some (DB.next_role db)) ->
  exists db1,
    TaskViewSet_add_role filterset request k db
    = (Ok (HTTP_201_CREATED (TaskRole.mk (Some (DB.next_role db)) k u role)), db1)
    /\ TaskViewSet_remove_role filterset python_int request k role_id db1
       = (Ok HTTP_204_NO_CONTENT,
          set_roles (DB.roles db) (DB.next_role db + 1) db).
Proof.
  intros Hall Hint Hfind Hauth Huid Hrole Hkind Huser Hfree Hfresh.
  set (n := DB.next_role db) in *.
  set (row := TaskRole.mk (Some n) k u role).
  set (db1 := set_roles (DB.roles db ++ [row]) (n + 1) db).
  assert (Hchoice : In role TaskRole_ROLE_CHOICES).
  { destruct Hkind as [-> | ->]; simpl; auto. }
  exists db1. split.
  { exact (add_role_inserts filterset request k u role t db Hfind Hauth Huid
             Hrole Hchoice Huser Hfree). }
  (* the task is still listed, the requester still authorised *)
  pose proof (find_some _ _ Hfind) as [Hin Hpk]. apply pk_is_true in Hpk.
  assert (Hmono_role : forall j v, holds_role j v db -> holds_role j v db1).
  { intros j v [r (Hr & Ht & Hu)]. exists r. simpl.
    split; [apply in_or_app; auto | auto]. }
  assert (Hin1 : In t (TaskViewSet_list filterset request db1)).
  { apply list_is_visible in Hin. destruct Hin as [Hin Hvis].
    unfold TaskViewSet_list, filter_queryset, TaskViewSet_get_queryset.
    apply filter_In. split; [|apply Hall]. apply filter_In.
    split; [exact Hin|].
    apply visible_to_true in Hvis. destruct Hvis as [j [Hj [H|H]]];
      apply visible_to_true; exists j; (split; [exact Hj|]).
    - left. apply Hmono_role. exact H.
    - right. destruct H as [i Hi]. exists i. exact Hi. }
  destruct (List.find (fun x => pk_is k (Task.pk x))
                      (TaskViewSet_list filterset request db1))
    as [t1|] eqn:Hfind1.
  2:{ exfalso. eapply find_none in Hfind1; [|exact Hin1].
      simpl in Hfind1. apply pk_is_true in Hpk. congruence. }
  assert (Hauth1 : User.is_staff (Request.user request) = true
                   \/ holds_assigner_role k (Request.user_id request) db1).
  { destruct Hauth as [H|[r (Hr & Hrest)]]; [auto|]. right. exists r.
    simpl. split; [apply in_or_app; auto | exact Hrest]. }
  destruct (get_object_passes_assigner filterset request k db1 t1 Hfind1 Hauth1)
    as (Hget & Hpk1 & _).
  unfold TaskViewSet_remove_role.
  rewrite (bind_run _ _ db1 t1 db1 Hget), Hint.
  assert (Hrows : Task_roles t1 db1
                  = (Task_roles t1 db ++ [row])%list).
  { unfold Task_roles, roles_of. rewrite Hpk1. simpl.
    rewrite List.filter_app. simpl. rewrite Z.eqb_refl. reflexivity. }
  assert (Hfresh_k : forall r, In r (Task_roles t1 db) ->
                               TaskRole.pk r <> Some n).
  { intros r Hr. apply (Task_roles_holds t1 k db r Hpk1) in Hr.
    apply Hfresh. apply Hr. }
  rewrite Hrows.
  rewrite (find_fresh_pk (Task_roles t1 db) row n eq_refl Hfresh_k).
  assert (Hnot : (TaskRole.role row =? "assigner")%string = false).
  { simpl. destruct Hkind as [-> | ->]; reflexivity. }
  rewrite Hnot. unfold bind, TaskRole_delete, ret. simpl.
  rewrite (filter_app_fresh_pk (DB.roles db) row n eq_refl Hfresh).
  reflexivity.
Qed.

Lemma add_role_then_remove_role_witness :
  TaskViewSet_remove_role Fixture.all_tasks Fixture.digits_int
    (Fixture.post Fixture.user1 [("user_id", JInt 4); ("role", JStr "co_executor")])
    1 "5"
    (snd (TaskViewSet_add_role Fixture.all_tasks
            (Fixture.post Fixture.user1
               [("user_id", JInt 4); ("role", JStr "co_executor")])
            1 Fixture.db1))
  = (Ok HTTP_204_NO_CONTENT, set_roles (DB.roles Fixture.db1) 6 Fixture.db1).
Proof.
  destruct (add_role_then_remove_role Fixture.all_tasks Fixture.digits_int
              (Fixture.post Fixture.user1
                 [("user_id", JInt 4); ("role", JStr "co_executor")])
              1 4 "co_executor" "5" Fixture.task1 Fixture.db1)
    as (db1 & Hadd & Hremove).
  - reflexivity.
  - vm_compute. reflexivity.
  - vm_compute. reflexivity.
  - right. exists (TaskRole.mk (Some 1) 1 1 "assigner"). vm_compute. auto 10.
  - reflexivity.
  - reflexivity.
  - left. reflexivity.
  - reflexivity.
  - intros r Hin. vm_compute in Hin.
    repeat (destruct Hin as [<-|Hin]; [discriminate|]). destruct Hin.
  - intros r Hin. vm_compute in Hin.
    repeat (destruct Hin as [<-|Hin]; [discriminate|]). destruct Hin.
  - rewrite Hadd. exact Hremove.
Defined.

(* --------------------------------------------------------------------- *)
(** ** Hour totals *)
(* --------------------------------------------------------------------- *)

Lemma or_zero_aggregate_sum values :
  or_zero (aggregate_sum values) = fold_right Z.add 0 values.
Proof. destruct values; reflexivity. Qed.

Lemma sum_snoc values x :
  fold_right Z.add 0 (values ++ [x]) = fold_right Z.add 0 values + x.
Proof.
  induction values as [|v rest IH]; simpl; [lia|]. rewrite IH. lia.
Qed.

Lemma TaskItem_Model_save_insert self db saved db' :
  TaskItem.pk self = None ->
  TaskItem_Model_save self db = (Ok saved, db') ->
  saved = TaskItem.with_pk (DB.next_item db) self
  /\ db' = set_items (DB.items db ++ [saved]) (DB.next_item db + 1) db.
Proof.
  intros Hpk. unfold TaskItem_Model_save.
  destruct (negb _); [discriminate|]. rewrite Hpk.
  intros H. inversion H; subst. auto.
Qed.

(** X8.  Saving a new item adds its planned hours to the total of its task and
    leaves the total of every other task as it was, for [save()] as for
    the save of [objects.create]; a task without items totals zero. *)
Theorem total_planned_hours_grows_by_new_item (now : Z) (kwargs : SaveKwargs.t)
    (self saved : TaskItem.t) (t : Task.t) (k : Z) (db db' : DB.t) :
  SaveKwargs.update_fields kwargs = None ->
  TaskItem.pk self = None ->
  TaskItem_save now kwargs self db = (Ok saved, db') ->
  Task.pk t = Some k ->
  Task_total_planned_hours t db'
  = Task_total_planned_hours t db
    + (if TaskItem.task self =? k then TaskItem.planned_hours self else 0)
  /\ (Task_items t db = [] -> Task_total_planned_hours t db = 0).
Proof.
  intros Hwhole Hpk Hsave Ht. split.
  - unfold TaskItem_save in Hsave.
    apply (TaskItem_Model_save_kwargs_whole _ _ _ _ _ Hwhole) in Hsave.
    destruct Hsave as [[_ [e He]]|Hsave]; [discriminate|].
    assert (Hpk' : TaskItem.pk (TaskItem_set_completed_at now self) = None).
    { rewrite (proj2 (proj2 (set_completed_at_fk now self))). exact Hpk. }
    apply (TaskItem_Model_save_insert _ _ _ _ Hpk') in Hsave.
    destruct Hsave as [Hsaved Hdb].
    unfold Task_total_planned_hours. rewrite !or_zero_aggregate_sum.
    unfold Task_items, items_of. rewrite Ht, Hdb. simpl.
    rewrite List.filter_app. simpl.
    assert (Htask : TaskItem.task saved = TaskItem.task self).
    { rewrite Hsaved. simpl. apply (proj1 (set_completed_at_fk now self)). }
    assert (Hhours : TaskItem.planned_hours saved = TaskItem.planned_hours self).
    { rewrite Hsaved. simpl. unfold TaskItem_set_completed_at.
      destruct (_ && _); [reflexivity|]. destruct (_ && _); reflexivity. }
    rewrite Htask. destruct (TaskItem.task self =? k).
    + rewrite map_app. cbn [map]. rewrite sum_snoc, Hhours. reflexivity.
    + rewrite app_nil_r. lia.
  - intros Hnil. unfold Task_total_planned_hours. rewrite Hnil. reflexivity.
Qed.

Lemma total_planned_hours_grows_by_new_item_witness :
  exists saved db',
    TaskItem_save 7 SaveKwargs.create
      (TaskItem.mk None 1 "c" "" None "todo" 800 0 None)
      Fixture.db1 = (Ok saved, db')
    /\ Task_total_planned_hours Fixture.task1 db'
       = Task_total_planned_hours Fixture.task1 Fixture.db1 + 800.
Proof.
  destruct (TaskItem_save 7 SaveKwargs.create
              (TaskItem.mk None 1 "c" "" None "todo" 800 0 None)
              Fixture.db1) as [[saved|e] db'] eqn:Hsave;
    [|vm_compute in Hsave; discriminate].
  exists saved, db'. split; [reflexivity|].
  apply (total_planned_hours_grows_by_new_item 7 SaveKwargs.create
           (TaskItem.mk None 1 "c" "" None "todo" 800 0 None)
           saved Fixture.task1 1 Fixture.db1 db').
  - reflexivity.
  - reflexivity.
  - exact Hsave.
  - reflexivity.
Defined.

Lemma TimeLog_Model_save_raise self db e db' :
  TimeLog_Model_save self db = (Raise e, db') -> db' = db.
Proof.
  unfold TimeLog_Model_save.
  destruct (negb _); [intros H; inversion H; reflexivity|].
  destruct (TimeLog.pk self) as [k|]; [destruct (existsb _ _)|]; discriminate.
Qed.

(** A save without [update_fields] raises and writes nothing, or is
    [Model.save] of the whole row. *)
Lemma TimeLog_Model_save_kwargs_whole kwargs self db r db' :
  SaveKwargs.update_fields kwargs = None ->
  TimeLog_Model_save_kwargs kwargs self db = (r, db') ->
  (db' = db /\ exists e, r = Raise e)
  \/ TimeLog_Model_save self db = (r, db').
Proof.
  intros Hnone. unfold TimeLog_Model_save_kwargs, timelog_exists.
  rewrite Hnone.
  destruct (has_unsaved_item self); [intros H; inversion H; subst; left; eauto|].
  destruct (SaveKwargs.force_insert kwargs), (SaveKwargs.force_update kwargs);
    cbn [andb orb truthy_fields negb];
    destruct (TimeLog.pk self) as [k|];
    try destruct (existsb _ (DB.timelogs db)); cbn [andb orb negb];
    intros H; auto; inversion H; subst; left; eauto.
Qed.

(** A save with [update_fields] raises and writes nothing, or returns at
    once on an empty list, or rewrites the named columns of the row that
    has the instance's key. *)
Lemma TimeLog_Model_save_kwargs_fields kwargs fields self db r db' :
  SaveKwargs.update_fields kwargs = Some fields ->
  TimeLog_Model_save_kwargs kwargs self db = (r, db') ->
  (db' = db /\ (r = Ok self \/ exists e, r = Raise e))
  \/ (r = Ok self
      /\ exists k,
           TimeLog.pk self = Some k
           /\ db' = set_timelogs
                      (map (fun row => if pk_is k (TimeLog.pk row)
                                       then TimeLog_write_fields fields self row
                                       else row)
                           (DB.timelogs db))
                      (DB.next_timelog db) db).
Proof.
  intros Hsome. unfold TimeLog_Model_save_kwargs. rewrite Hsome.
  destruct (has_unsaved_item self); [intros H; inversion H; subst; left; eauto|].
  destruct (_ && _); [intros H; inversion H; subst; left; eauto|].
  destruct fields as [|f fs]; [intros H; inversion H; subst; left; eauto|].
  destruct (negb (forallb _ _)); [intros H; inversion H; subst; left; eauto|].
  destruct (TimeLog.pk self) as [k|];
    [|intros H; inversion H; subst; left; eauto].
  destruct (negb (timelog_exists k db));
    [intros H; inversion H; subst; left; eauto|].
  destruct (negb (TimeLog_fk_ok_fields _ _ _));
    [intros H; inversion H; subst; left; eauto|].
  intros H; inversion H; subst. right. eauto.
Qed.

Lemma TimeLog_Model_save_kwargs_raise kwargs self db e db' :
  TimeLog_Model_save_kwargs kwargs self db = (Raise e, db') -> db' = db.
Proof.
  intros Hrun.
  destruct (SaveKwargs.update_fields kwargs) as [fields|] eqn:Hfields.
  - destruct (TimeLog_Model_save_kwargs_fields _ _ _ _ _ _ Hfields Hrun)
      as [[-> _]|[Hr _]]; [reflexivity | discriminate].
  - destruct (TimeLog_Model_save_kwargs_whole _ _ _ _ _ Hfields Hrun)
      as [[-> _]|Hwhole]; [reflexivity|].
    apply TimeLog_Model_save_raise in Hwhole. exact Hwhole.
Qed.

Lemma TimeLog_save_ok (clean_fields : DB.t -> TimeLog.t -> list string)
    kwargs self db saved db' :
  TimeLog_save clean_fields kwargs self db = (Ok saved, db') ->
  TimeLog_clean self db = (Ok tt, db)
  /\ TimeLog_Model_save_kwargs kwargs self db = (Ok saved, db').
Proof.
  unfold TimeLog_save, bind, TimeLog_full_clean.
  destruct (TimeLog_clean self db) as [[[]|e] db0] eqn:Hclean.
  - unfold TimeLog_clean in Hclean.
    assert (db0 = db).
    { destruct (TimeLog.task_item self) as [i|];
        [destruct (negb _)|]; inversion Hclean; reflexivity. }
    subst db0.
    destruct (clean_fields db self); [auto | discriminate].
  - destruct e; discriminate.
Qed.

Lemma TimeLog_save_raise (clean_fields : DB.t -> TimeLog.t -> list string)
    kwargs self db e db' :
  TimeLog_save clean_fields kwargs self db = (Raise e, db') -> db' = db.
Proof.
  unfold TimeLog_save, bind, TimeLog_full_clean.
  destruct (TimeLog_clean self db) as [[[]|e0] db0].
  - destruct (clean_fields db self).
    + apply TimeLog_Model_save_kwargs_raise.
    + intros H; inversion H; reflexivity.
  - destruct e0; intros H; inversion H; reflexivity.
Qed.

Lemma TimeLog_clean_ok_consistent self db :
  TimeLog_clean self db = (Ok tt, db) -> log_consistent self.
Proof.
  unfold TimeLog_clean, log_consistent. intros H i Hi. rewrite Hi in H.
  destruct (TaskItem.task i =? TimeLog.task self) eqn:Heq.
  - apply Z.eqb_eq. exact Heq.
  - simpl in H. discriminate.
Qed.

Lemma TimeLog_Model_save_rows self db saved db' :
  TimeLog_Model_save self db = (Ok saved, db') ->
  (saved = self \/ exists k, saved = TimeLog.with_pk k self)
  /\ (forall x, In x (DB.timelogs db') -> In x (DB.timelogs db) \/ x = saved)
  /\ (TimeLog.pk self = None ->
      saved = TimeLog.with_pk (DB.next_timelog db) self
      /\ DB.timelogs db' = (DB.timelogs db ++ [saved])%list).
Proof.
  unfold TimeLog_Model_save. destruct (negb _); [discriminate|].
  destruct (TimeLog.pk self) as [k|].
  - destruct (existsb _ _); intros H; inversion H; subst; simpl;
      (split; [auto|]); (split; [|discriminate]); intros x Hx.
    + apply In_update_row in Hx. exact Hx.
    + apply in_app_or in Hx. destruct Hx as [Hx|[Hx|[]]]; auto.
  - intros H; inversion H; subst; simpl. split; [eauto|]. split; [|auto].
    intros x Hx. apply in_app_or in Hx. destruct Hx as [Hx|[Hx|[]]]; auto.
Qed.

Lemma write_log_fields_consistent fields self stored :
  column_named fields "task" "task_id"
  = column_named fields "task_item" "task_item_id" ->
  log_consistent self ->
  log_consistent stored ->
  log_consistent (TimeLog_write_fields fields self stored).
Proof.
  intros Hboth Hself Hstored. unfold log_consistent, TimeLog_write_fields.
  cbn [TimeLog.task TimeLog.task_item]. rewrite Hboth.
  destruct (column_named fields "task_item" "task_item_id"); assumption.
Qed.

(** X9.  [TimeLog.save] validates the instance, then writes what its
    arguments name.  A call that writes the columns [task] and [task_item]
    together or not at all (a whole-row save such as [save()], or
    [update_fields] naming both or neither) keeps the time-log table
    consistent: if every stored log that holds an item holds one of its
    own task, the same is true after the call, whether it stored the log
    or raised, and whatever the field validation does.  A call that names
    one of the two does not: [save(update_fields=['task'])] passes the
    validation on a consistent instance and leaves a stored log whose
    item belongs to another task. *)
Theorem TimeLog_save_keeps_logs_consistent :
  (forall (clean_fields : DB.t -> TimeLog.t -> list string)
          (kwargs : SaveKwargs.t) (self : TimeLog.t),
      writes_column kwargs "task" "task_id"
      = writes_column kwargs "task_item" "task_item_id" ->
      preserves (fun db => Forall log_consistent (DB.timelogs db))
                (TimeLog_save clean_fields kwargs self))
  /\ (exists db',
        TimeLog_save TimeLog_clean_fields
          (SaveKwargs.mk false false (Some ["task"]))
          Fixture.moved_log Fixture.two_tasks
        = (Ok Fixture.moved_log, db')
        /\ log_consistent Fixture.moved_log
        /\ Forall log_consistent (DB.timelogs Fixture.two_tasks)
        /\ ~ Forall log_consistent (DB.timelogs db')).
Proof.
  split.
  - intros clean_fields kwargs self Hboth db r db' Hinv Hrun.
    destruct r as [saved|e].
    + apply TimeLog_save_ok in Hrun. destruct Hrun as [Hclean Hsave].
      apply TimeLog_clean_ok_consistent in Hclean.
      destruct (SaveKwargs.update_fields kwargs) as [fields|] eqn:Hfields.
      * unfold writes_column in Hboth. rewrite Hfields in Hboth.
        destruct (TimeLog_Model_save_kwargs_fields _ _ _ _ _ _ Hfields Hsave)
          as [[-> _]|[_ (k & Hk & ->)]]; [exact Hinv|].
        cbn [DB.timelogs set_timelogs]. apply List.Forall_forall. intros x Hx.
        apply in_map_iff in Hx. destruct Hx as [row [Hrow Hin]].
        rewrite List.Forall_forall in Hinv. specialize (Hinv row Hin).
        destruct (pk_is k (TimeLog.pk row)); subst x; [|exact Hinv].
        apply write_log_fields_consistent; assumption.
      * destruct (TimeLog_Model_save_kwargs_whole _ _ _ _ _ Hfields Hsave)
          as [[_ [e He]]|Hwhole]; [discriminate|].
        apply TimeLog_Model_save_rows in Hwhole.
        destruct Hwhole as (Hshape & Hrows & _).
        apply List.Forall_forall. intros x Hx.
        destruct (Hrows x Hx) as [Hold| ->].
        { rewrite List.Forall_forall in Hinv. apply Hinv. exact Hold. }
        { destruct Hshape as [->|[k ->]]; exact Hclean. }
    + apply TimeLog_save_raise in Hrun. subst db'. exact Hinv.
  - eexists. split; [vm_compute; reflexivity|]. split; [|split].
    + intros i Hi. inversion Hi; subst. reflexivity.
    + apply List.Forall_forall. intros x Hx. cbn in Hx.
      destruct Hx as [<-|[]]. intros i Hi. inversion Hi; subst. reflexivity.
    + intros Hall. inversion Hall as [|x rest Hx _]; subst.
      specialize (Hx _ eq_refl). cbn in Hx. discriminate.
Qed.

Lemma TimeLog_save_keeps_logs_consistent_witness :
  Forall log_consistent
    (DB.timelogs
       (snd (TimeLog_save TimeLog_clean_fields SaveKwargs.none
               (TimeLog.mk None 2 1 (Some Fixture.done_item) 20251101 150 "work")
               Fixture.db1))).
Proof.
  apply (proj1 TimeLog_save_keeps_logs_consistent TimeLog_clean_fields
           SaveKwargs.none
           (TimeLog.mk None 2 1 (Some Fixture.done_item) 20251101 150 "work")
           eq_refl
           Fixture.db1
           (fst (TimeLog_save TimeLog_clean_fields SaveKwargs.none
                   (TimeLog.mk None 2 1 (Some Fixture.done_item) 20251101 150
                      "work") Fixture.db1))).
  - constructor.
  - apply surjective_pairing.
Defined.

(** X10.  Saving a new time log, by [save()] or by [objects.create], adds
    its hours to the spent total of its task and to the spent hours of the
    item it holds, and to no other. *)
Theorem spent_hours_grow_by_new_log
    (clean_fields : DB.t -> TimeLog.t -> list string) (kwargs : SaveKwargs.t)
    (self saved : TimeLog.t) (t : Task.t) (k : Z) (i : TaskItem.t) (j : Z)
    (db db' : DB.t) :
  SaveKwargs.update_fields kwargs = None ->
  TimeLog.pk self = None ->
  TimeLog_save clean_fields kwargs self db = (Ok saved, db') ->
  Task.pk t = Some k ->
  TaskItem.pk i = Some j ->
  Task_total_spent_hours t db'
  = Task_total_spent_hours t db
    + (if TimeLog.task self =? k then TimeLog.hours self else 0)
  /\ TaskItem_spent_hours i db'
     = TaskItem_spent_hours i db
       + (if pk_is j (TimeLog_task_item_id self) then TimeLog.hours self else 0).
Proof.
  intros Hwhole Hpk Hsave Ht Hi.
  apply TimeLog_save_ok in Hsave. destruct Hsave as [_ Hsave].
  apply (TimeLog_Model_save_kwargs_whole _ _ _ _ _ Hwhole) in Hsave.
  destruct Hsave as [[_ [e He]]|Hsave]; [discriminate|].
  apply TimeLog_Model_save_rows in Hsave. destruct Hsave as (_ & _ & Hins).
  destruct (Hins Hpk) as [Hsaved Hrows].
  unfold Task_total_spent_hours, TaskItem_spent_hours.
  rewrite Ht, Hi, !or_zero_aggregate_sum.
  unfold timelogs_of_task, timelogs_of_item. rewrite Hrows.
  rewrite !List.filter_app. simpl.
  assert (H1 : TimeLog.task saved = TimeLog.task self) by (rewrite Hsaved; reflexivity).
  assert (H2 : TimeLog_task_item_id saved = TimeLog_task_item_id self)
    by (rewrite Hsaved; reflexivity).
  assert (H3 : TimeLog.hours saved = TimeLog.hours self)
    by (rewrite Hsaved; reflexivity).
  rewrite H1, H2. split.
  - destruct (TimeLog.task self =? k).
    + rewrite map_app. cbn [map]. rewrite sum_snoc, H3. reflexivity.
    + rewrite app_nil_r. lia.
  - destruct (pk_is j (TimeLog_task_item_id self)).
    + rewrite map_app. cbn [map]. rewrite sum_snoc, H3. reflexivity.
    + rewrite app_nil_r. lia.
Qed.

Lemma spent_hours_grow_by_new_log_witness :
  exists saved db',
    TimeLog_save TimeLog_clean_fields SaveKwargs.none
      (TimeLog.mk None 2 1 (Some Fixture.done_item) 20251101 150 "work")
      Fixture.db1 = (Ok saved, db')
    /\ Task_total_spent_hours Fixture.task1 db' = 150
    /\ TaskItem_spent_hours Fixture.done_item db' = 150
    /\ TaskItem_spent_hours Fixture.todo_item db' = 0.
Proof.
  destruct (TimeLog_save TimeLog_clean_fields SaveKwargs.none
              (TimeLog.mk None 2 1 (Some Fixture.done_item) 20251101 150 "work")
              Fixture.db1) as [[saved|e] db'] eqn:Hsave;
    [|vm_compute in Hsave; discriminate].
  exists saved, db'. split; [reflexivity|].
  pose proof (spent_hours_grow_by_new_log TimeLog_clean_fields SaveKwargs.none
                (TimeLog.mk None 2 1 (Some Fixture.done_item) 20251101 150 "work")
                saved Fixture.task1 1 Fixture.done_item 2 Fixture.db1 db'
                eq_refl eq_refl Hsave eq_refl eq_refl) as [Htotal Hdone].
  pose proof (spent_hours_grow_by_new_log TimeLog_clean_fields SaveKwargs.none
                (TimeLog.mk None 2 1 (Some Fixture.done_item) 20251101 150 "work")
                saved Fixture.task1 1 Fixture.todo_item 1 Fixture.db1 db'
                eq_refl eq_refl Hsave eq_refl eq_refl) as [_ Htodo].
  rewrite Htotal, Hdone, Htodo. vm_compute. auto.
Defined.

Lemma sum_filter_le (p q : TimeLog.t -> bool) (rows : list TimeLog.t) :
  (forall l, In l rows -> p l = true -> q l = true) ->
  (forall l, In l rows -> 0 <= TimeLog.hours l) ->
  fold_right Z.add 0 (map TimeLog.hours (List.filter p rows))
  <= fold_right Z.add 0 (map TimeLog.hours (List.filter q rows)).
Proof.
  induction rows as [|x rest IH]; intros Hpq Hpos; simpl; [lia|].
  assert (IH' : fold_right Z.add 0 (map TimeLog.hours (List.filter p rest))
                <= fold_right Z.add 0 (map TimeLog.hours (List.filter q rest))).
  { apply IH; intros l Hl; [apply Hpq | apply Hpos]; right; exact Hl. }
  pose proof (Hpos x (or_introl eq_refl)) as Hx.
  destruct (p x) eqn:Hp.
  - rewrite (Hpq x (or_introl eq_refl) Hp). simpl. lia.
  - destruct (q x); simpl; lia.
Qed.

(** X11.  On a consistent time-log table whose logs hold the items as stored
    and have non-negative hours, the spent hours of an item never exceed
    the spent total of its task. *)
Theorem item_spent_hours_within_task_total (self : TaskItem.t) (j : Z)
    (t : Task.t) (db : DB.t) :
  TaskItem.pk self = Some j ->
  Task.pk t = Some (TaskItem.task self) ->
  Forall log_consistent (DB.timelogs db) ->
  (forall l i, In l (DB.timelogs db) -> TimeLog.task_item l = Some i ->
               TaskItem.pk i = Some j -> TaskItem.task i = TaskItem.task self) ->
  (forall l, In l (DB.timelogs db) -> 0 <= TimeLog.hours l) ->
  TaskItem_spent_hours self db <= Task_total_spent_hours t db.
Proof.
  intros Hpk Ht Hcons Hheld Hpos.
  unfold TaskItem_spent_hours, Task_total_spent_hours.
  rewrite Hpk, Ht, !or_zero_aggregate_sum.
  unfold timelogs_of_item, timelogs_of_task.
  apply sum_filter_le; [|exact Hpos].
  intros l Hl Hp. apply pk_is_true in Hp. unfold TimeLog_task_item_id in Hp.
  destruct (TimeLog.task_item l) as [i|] eqn:Hi; [|discriminate].
  rewrite List.Forall_forall in Hcons.
  rewrite <- (Hcons l Hl i Hi). apply Z.eqb_eq.
  apply (Hheld l i Hl Hi Hp).
Qed.

Lemma item_spent_hours_within_task_total_witness :
  TaskItem_spent_hours Fixture.done_item
    (snd (TimeLog_save TimeLog_clean_fields SaveKwargs.none
            (TimeLog.mk None 2 1 (Some Fixture.done_item) 20251101 150 "work")
            Fixture.db1))
  <= Task_total_spent_hours Fixture.task1
       (snd (TimeLog_save TimeLog_clean_fields SaveKwargs.none
               (TimeLog.mk None 2 1 (Some Fixture.done_item) 20251101 150 "work")
               Fixture.db1)).
Proof.
  apply (item_spent_hours_within_task_total Fixture.done_item 2 Fixture.task1).
  - reflexivity.
  - reflexivity.
  - vm_compute. repeat constructor. intros i Hi. inversion Hi; subst. reflexivity.
  - intros l i Hl Hi _. vm_compute in Hl. destruct Hl as [<-|[]].
    inversion Hi; subst. reflexivity.
  - intros l Hl. vm_compute in Hl. destruct Hl as [<-|[]]. simpl. lia.
Defined.

(* --------------------------------------------------------------------- *)
(** ** Listings *)
(* --------------------------------------------------------------------- *)

Lemma filter_idempotent {A} (f : A -> bool) (l : list A) :
  List.filter f (List.filter f l) = List.filter f l.
Proof.
  induction l as [|x rest IH]; simpl; [reflexivity|].
  destruct (f x) eqn:Hf; simpl; [rewrite Hf, IH|]; auto.
Qed.

(** X12.  [my] returns the very queryset of [list]: filtering by participation a
    second time, in the action or through the [my_tasks] query filter,
    removes nothing. *)
Theorem my_is_the_list_queryset (request : Request.t) (value : bool)
    (db : DB.t) :
  TaskViewSet_my request db = TaskViewSet_get_queryset request db
  /\ TaskFilter_filter_my_tasks request (TaskViewSet_get_queryset request db)
       value db
     = TaskViewSet_get_queryset request db.
Proof.
  split.
  - unfold TaskViewSet_my, TaskViewSet_get_queryset. apply filter_idempotent.
  - unfold TaskFilter_filter_my_tasks, TaskViewSet_get_queryset.
    destruct value; simpl; [apply filter_idempotent | reflexivity].
Qed.

Lemma item_visible_to_true uid db i :
  item_visible_to uid db i = true
  <-> holds_role (TaskItem.task i) uid db \/ TaskItem.executor i = Some uid.
Proof.
  unfold item_visible_to.
  rewrite orb_true_iff, has_role_on_true, opt_eqb_true. reflexivity.
Qed.

(** X13.  An item is in a user's item queryset exactly when the user holds a
    role on its task or is its own executor; the task of such an item is
    then in the user's task queryset, and [my_items] is the part of the
    item queryset the user executes. *)
Theorem item_queryset_follows_task_queryset (request : Request.t) (db : DB.t) :
  (forall i,
      In i (TaskItemViewSet_get_queryset request db)
      <-> In i (DB.items db)
          /\ (holds_role (TaskItem.task i) (Request.user_id request) db
              \/ TaskItem.executor i = Some (Request.user_id request)))
  /\ (forall i t,
         In i (TaskItemViewSet_get_queryset request db) ->
         In t (DB.tasks db) -> Task.pk t = Some (TaskItem.task i) ->
         In t (TaskViewSet_get_queryset request db))
  /\ (forall i,
         In i (TaskViewSet_my_items request db)
         <-> In i (TaskItemViewSet_get_queryset request db)
             /\ TaskItem.executor i = Some (Request.user_id request))
  /\ TaskItemFilter_filter_my_items request
       (TaskItemViewSet_get_queryset request db) true
     = TaskViewSet_my_items request db.
Proof.
  assert (Hqs : forall i,
      In i (TaskItemViewSet_get_queryset request db)
      <-> In i (DB.items db)
          /\ (holds_role (TaskItem.task i) (Request.user_id request) db
              \/ TaskItem.executor i = Some (Request.user_id request))).
  { intros i. unfold TaskItemViewSet_get_queryset.
    rewrite filter_In, item_visible_to_true. reflexivity. }
  split; [exact Hqs|]. split; [|split].
  - intros i t Hi Ht Hpk. apply Hqs in Hi. destruct Hi as [Hi Hvis].
    unfold TaskViewSet_get_queryset. apply filter_In. split; [exact Ht|].
    apply visible_to_true. exists (TaskItem.task i). split; [exact Hpk|].
    destruct Hvis as [H|H]; [left; exact H|].
    right. exists i. auto.
  - intros i. unfold TaskViewSet_my_items.
    rewrite filter_In, opt_eqb_true, Hqs. tauto.
  - clear Hqs.
    unfold TaskItemFilter_filter_my_items, TaskViewSet_my_items,
      TaskItemViewSet_get_queryset. simpl.
    induction (DB.items db) as [|x rest IH]; simpl; [reflexivity|].
    unfold item_visible_to at 1.
    destruct (opt_eqb (TaskItem.executor x) (Some (Request.user_id request)))
      eqn:He.
    + rewrite orb_true_r. simpl. rewrite He, IH. reflexivity.
    + rewrite orb_false_r.
      destruct (has_role_on _ _ db); simpl; rewrite ?He; exact IH.
Qed.

Lemma length_le_1_of_same_image {A B} (f : A -> B) (b : B) (l : list A) :
  List.NoDup (map f l) -> (forall x, In x l -> f x = b) -> (length l <= 1)%nat.
Proof.
  intros Hnd Hall. destruct l as [|x [|y rest]]; simpl; try lia.
  exfalso. simpl in Hnd. inversion Hnd as [|? ? Hnotin _]; subst.
  apply Hnotin. left.
  rewrite (Hall x), (Hall y); simpl; auto.
Qed.

Lemma NoDup_map_filter {A B} (f : A -> B) (p : A -> bool) (l : list A) :
  List.NoDup (map f l) -> List.NoDup (map f (List.filter p l)).
Proof.
  induction l as [|x rest IH]; simpl; intros Hnd; [constructor|].
  inversion Hnd as [|? ? Hnotin Hnd']; subst.
  destruct (p x); simpl; [|auto].
  constructor; [|auto].
  intros Hin. apply Hnotin. apply in_map_iff in Hin.
  destruct Hin as [y [Hy Hin]]. apply filter_In in Hin.
  apply in_map_iff. exists y. tauto.
Qed.

Lemma existsb_as_filter {A} (f : A -> bool) (l : list A) :
  existsb f l = negb (Nat.eqb (length (List.filter f l)) 0).
Proof.
  induction l as [|x rest IH]; simpl; [reflexivity|].
  destruct (f x); simpl; [reflexivity | exact IH].
Qed.

(** X14.  [assigned_by_me] lists the tasks on which the user holds the assigner
    role, all of them tasks of the user's queryset; as no two role rows
    share task, user and role, each is listed once although the query has
    no [distinct()]. *)
Theorem assigned_by_me_lists_own_tasks (request : Request.t) (db : DB.t) :
  (forall t,
      In t (TaskViewSet_assigned_by_me request db)
      <-> In t (DB.tasks db)
          /\ exists k, Task.pk t = Some k
                       /\ holds_assigner_role k (Request.user_id request) db)
  /\ (forall t,
         In t (TaskViewSet_assigned_by_me request db) ->
         In t (TaskViewSet_get_queryset request db))
  /\ (unique_role_triples db ->
      TaskViewSet_assigned_by_me request db
      = List.filter
          (task_key_test
             (fun k => is_assigner_on k (Request.user_id request) db))
          (DB.tasks db)).
Proof.
  assert (Hrows : forall t r,
    In r (List.filter
            (fun r => (TaskRole.user r =? Request.user_id request)
                      && (TaskRole.role r =? "assigner")%string)
            (Task_roles t db))
    <-> exists k, Task.pk t = Some k /\ In r (DB.roles db)
                  /\ TaskRole.task r = k
                  /\ TaskRole.user r = Request.user_id request
                  /\ TaskRole.role r = "assigner").
  { intros t r. rewrite filter_In, andb_true_iff, Z.eqb_eq, String.eqb_eq.
    unfold Task_roles. destruct (Task.pk t) as [k|].
    - unfold roles_of. rewrite filter_In, Z.eqb_eq. split.
      + intros [[H1 H2] [H3 H4]]. exists k. auto.
      + intros [k' (Hk & H1 & H2 & H3 & H4)]. inversion Hk; subst. auto.
    - split; [intros [[] _]|]. intros [k' (Hk & _)]. discriminate. }
  assert (Hmem : forall t,
      In t (TaskViewSet_assigned_by_me request db)
      <-> In t (DB.tasks db)
          /\ exists k, Task.pk t = Some k
                       /\ holds_assigner_role k (Request.user_id request) db).
  { intros t. unfold TaskViewSet_assigned_by_me. rewrite in_flat_map. split.
    - intros [t' [Ht' Hin]]. apply in_map_iff in Hin.
      destruct Hin as [r [Heq Hr]]. subst t'. split; [exact Ht'|].
      apply Hrows in Hr. destruct Hr as [k (Hk & Hr)].
      exists k. split; [exact Hk|]. exists r. tauto.
    - intros [Ht [k [Hk [r (H1 & H2 & H3 & H4)]]]].
      exists t. split; [exact Ht|]. apply in_map_iff. exists r.
      split; [reflexivity|]. apply Hrows. exists k. auto. }
  split; [exact Hmem|]. split.
  - intros t Ht. apply Hmem in Ht. destruct Ht as [Ht [k [Hk Ha]]].
    unfold TaskViewSet_get_queryset. apply filter_In. split; [exact Ht|].
    apply visible_to_true. exists k. split; [exact Hk|]. left.
    apply holds_assigner_holds_role. exact Ha.
  - intros Huniq. clear Hmem. unfold TaskViewSet_assigned_by_me.
    induction (DB.tasks db) as [|t rest IH]; simpl; [reflexivity|].
    rewrite IH. clear IH.
    set (rows := List.filter _ (Task_roles t db)).
    assert (Hlen : (length rows <= 1)%nat).
    { destruct (Task.pk t) as [k|] eqn:Hk.
      - apply (length_le_1_of_same_image role_triple
                 (k, Request.user_id request, "assigner")).
        + unfold rows, Task_roles, roles_of. rewrite Hk.
          apply NoDup_map_filter. apply NoDup_map_filter. exact Huniq.
        + intros r Hr. apply Hrows in Hr.
          destruct Hr as [k' (Hk' & _ & H2 & H3 & H4)].
          rewrite Hk in Hk'. inversion Hk'; subst.
          unfold role_triple. rewrite H3, H4. reflexivity.
      - unfold rows, Task_roles. rewrite Hk. simpl. lia. }
    assert (Htest : task_key_test
                      (fun k => is_assigner_on k (Request.user_id request) db) t
                    = negb (Nat.eqb (length rows) 0)).
    { unfold task_key_test, rows, Task_roles.
      destruct (Task.pk t) as [k|]; [|reflexivity].
      unfold is_assigner_on. apply existsb_as_filter. }
    rewrite Htest.
    destruct rows as [|r [|r' rs]]; simpl in *; try reflexivity. lia.
Qed.

Lemma assigned_by_me_lists_own_tasks_witness :
  TaskViewSet_assigned_by_me (Request.mk Fixture.user1 "GET" []) Fixture.db1
  = [Fixture.task1].
Proof.
  rewrite (proj2 (proj2 (assigned_by_me_lists_own_tasks
                           (Request.mk Fixture.user1 "GET" []) Fixture.db1))).
  - vm_compute. reflexivity.
  - unfold unique_role_triples. vm_compute.
    repeat constructor; simpl; intuition discriminate.
Defined.

(* --------------------------------------------------------------------- *)
(** ** Invariants of the database *)
(* --------------------------------------------------------------------- *)

Lemma preserves_ret {A} (P : DB.t -> Prop) (a : A) : preserves P (ret a).
Proof. intros db r db' HP H. unfold ret in H. inversion H; subst. exact HP. Qed.

Lemma preserves_raise {A} (P : DB.t -> Prop) (e : exn) :
  preserves P (@raise A e).
Proof. intros db r db' HP H. unfold raise in H. inversion H; subst. exact HP. Qed.

Lemma preserves_bind {A B} (P : DB.t -> Prop) (m : M A) (k : A -> M B) :
  preserves P m -> (forall a, preserves P (k a)) -> preserves P (bind m k).
Proof.
  intros Hm Hk db r db' HP Hrun. unfold bind in Hrun.
  destruct (m db) as [[a|e] db1] eqn:Hm1.
  - apply (Hk a db1 r db'); [|exact Hrun]. apply (Hm db (Ok a) db1 HP Hm1).
  - inversion Hrun; subst. apply (Hm db (Raise e) db' HP Hm1).
Qed.

Lemma preserves_for_each {A} (P : DB.t -> Prop) (xs : list A)
    (body : A -> M unit) :
  (forall x, preserves P (body x)) -> preserves P (for_each xs body).
Proof.
  intros Hbody. induction xs as [|x rest IH]; simpl.
  - apply preserves_ret.
  - apply preserves_bind; [apply Hbody | intros _; exact IH].
Qed.

Lemma preserves_for_enumerate {A} (P : DB.t -> Prop) (xs : list A)
    (body : nat -> A -> M unit) :
  (forall idx x, preserves P (body idx x)) ->
  forall start, preserves P (for_enumerate start xs body).
Proof.
  intros Hbody. induction xs as [|x rest IH]; intros start; simpl.
  - apply preserves_ret.
  - apply preserves_bind; [apply Hbody | intros _; apply IH].
Qed.

Lemma preserves_atomic {A} (P : DB.t -> Prop) (m : M A) :
  preserves P m -> preserves P (transaction_atomic m).
Proof.
  intros Hm db r db' HP Hrun. unfold transaction_atomic in Hrun.
  destruct (m db) as [[a|e] db1] eqn:Hm1; inversion Hrun; subst.
  - apply (Hm db (Ok a) db' HP Hm1).
  - exact HP.
Qed.

(** A computation that only reads keeps everything. *)
Lemma preserves_reader {A} (P : DB.t -> Prop) (m : M A) :
  (forall db, snd (m db) = db) -> preserves P m.
Proof.
  intros Hread db r db' HP Hrun. specialize (Hread db).
  rewrite Hrun in Hread. simpl in Hread. subst. exact HP.
Qed.

Lemma get_object_reads (filterset : DB.t -> Task.t -> bool) perms request pk db :
  snd (get_object filterset perms request pk db) = db.
Proof.
  unfold get_object. destruct (List.find _ _); [destruct (forallb _ _)|];
    reflexivity.
Qed.

Lemma item_get_object_reads (item_filterset : DB.t -> TaskItem.t -> bool)
    perms request pk db :
  snd (item_get_object item_filterset perms request pk db) = db.
Proof.
  unfold item_get_object. destruct (List.find _ _); [destruct (forallb _ _)|];
    reflexivity.
Qed.

Lemma validate_status_reads instance value db :
  snd (TaskUpdateSerializer_validate_status instance value db) = db.
Proof.
  unfold TaskUpdateSerializer_validate_status.
  destruct instance; [|reflexivity].
  destruct (value =? "completed")%string; [|reflexivity].
  destruct (qs_exists _); reflexivity.
Qed.

Lemma TimeLog_full_clean_reads
    (clean_fields : DB.t -> TimeLog.t -> list string) self db :
  snd (TimeLog_full_clean clean_fields self db) = db.
Proof.
  unfold TimeLog_full_clean.
  destruct (TimeLog_clean self db) as [[[]|e] db0].
  - destruct (clean_fields db self); reflexivity.
  - destruct e; reflexivity.
Qed.

(** From the primitive writes to the actions. *)
Lemma actions_preserve (P : DB.t -> Prop) :
  writes_preserve P -> every_action_preserves P.
Proof.
  intros W filterset item_filterset validate python_int clean_fields clock now
         request pk role_id value partial vd kwargs log.
  repeat split.
  - unfold TaskCreateSerializer_create, create_body.
    apply preserves_atomic.
    apply preserves_bind; [apply (wp_task_create P W)|]. intros task.
    apply preserves_bind; [apply (wp_role_create P W)|]. intros _.
    apply preserves_bind.
    { apply preserves_for_each. intros u.
      apply preserves_bind; [apply (wp_role_create P W)|]. intros _.
      apply preserves_ret. }
    intros _. apply preserves_bind.
    { apply preserves_for_each. intros u.
      apply preserves_bind; [apply (wp_role_create P W)|]. intros _.
      apply preserves_ret. }
    intros _. apply preserves_bind; [|intros _; apply preserves_ret].
    apply preserves_for_enumerate. intros idx d.
    apply preserves_bind; [|intros _; apply preserves_ret].
    unfold TaskItem_objects_create.
    destruct (ItemData.order d); [apply preserves_raise|].
    destruct (Task.pk task);
      [apply (wp_item_save P W); reflexivity | apply preserves_raise].
  - apply preserves_reader. intros db. apply get_object_reads.
  - unfold TaskViewSet_partial_update_status.
    apply preserves_bind; [apply preserves_reader; intros db; apply get_object_reads|].
    intros task. unfold TaskUpdateSerializer_update_status.
    destruct (in_choices value Task_STATUS_CHOICES); [|apply preserves_raise].
    apply preserves_bind;
      [apply preserves_reader; intros db; apply validate_status_reads|].
    intros v. apply (wp_task_save P W).
  - unfold TaskViewSet_destroy.
    apply preserves_bind; [apply preserves_reader; intros db; apply get_object_reads|].
    intros task. apply (wp_task_delete P W).
  - unfold TaskViewSet_add_role.
    apply preserves_bind; [apply preserves_reader; intros db; apply get_object_reads|].
    intros task. destruct (TaskRoleSerializer_is_valid _) as [[u r]|].
    + apply preserves_bind; [apply (wp_role_create P W)|].
      intros row. apply preserves_ret.
    + apply preserves_ret.
  - unfold TaskViewSet_remove_role.
    apply preserves_bind; [apply preserves_reader; intros db; apply get_object_reads|].
    intros task db r db' HP Hrun.
    destruct (python_int role_id) as [key|];
      [|inversion Hrun; subst; exact HP].
    destruct (List.find _ (Task_roles task db)) as [role|].
    + destruct (TaskRole.role role =? "assigner")%string.
      * inversion Hrun; subst. exact HP.
      * revert Hrun.
        apply (preserves_bind P (TaskRole_delete role)
                 (fun _ => ret HTTP_204_NO_CONTENT));
          [apply (wp_role_delete P W) | intros _; apply preserves_ret | exact HP].
    + inversion Hrun; subst. exact HP.
  - unfold TaskViewSet_add_item.
    apply preserves_bind; [apply preserves_reader; intros db; apply get_object_reads|].
    intros task. destruct (validate false (Request.data request)) as [p|errors].
    + apply preserves_bind; [|intros item; apply preserves_ret].
      unfold TaskItemSerializer_create.
      destruct (Task.pk task);
        [apply (wp_item_save P W); reflexivity | apply preserves_raise].
    + apply preserves_ret.
  - apply preserves_reader. intros db. apply item_get_object_reads.
  - unfold TaskItemViewSet_update.
    apply preserves_bind;
      [apply preserves_reader; intros db; apply item_get_object_reads|].
    intros item. destruct (validate partial (Request.data request)) as [p|errors].
    + apply preserves_bind; [|intros saved; apply preserves_ret].
      apply (wp_item_save P W). reflexivity.
    + apply preserves_raise.
  - unfold TaskItemViewSet_destroy.
    apply preserves_bind;
      [apply preserves_reader; intros db; apply item_get_object_reads|].
    intros item. apply (wp_item_delete P W).
  - unfold TimeLog_save.
    apply preserves_bind;
      [apply preserves_reader; intros db; apply TimeLog_full_clean_reads|].
    intros _. apply (wp_log_save P W).
Qed.

(** How each primitive write changes the tables. *)
Lemma Task_objects_create_effect title description db r db' :
  Task_objects_create title description db = (r, db') ->
  DB.roles db' = DB.roles db /\ DB.items db' = DB.items db
  /\ DB.timelogs db' = DB.timelogs db
  /\ forall k, task_exists k db = true -> task_exists k db' = true.
Proof.
  unfold Task_objects_create. intros H. inversion H; subst. simpl.
  repeat split. intros k Hk. unfold task_exists in *. simpl.
  rewrite existsb_app, Hk. reflexivity.
Qed.

Lemma task_exists_update_row k j new rows :
  Task.pk new = Some j ->
  existsb (fun x => pk_is k (Task.pk x)) rows = true ->
  existsb (fun x => pk_is k (Task.pk x)) (update_row Task.pk j new rows) = true.
Proof.
  intros Hnew. rewrite !existsb_exists. intros [x [Hin Hx]].
  unfold update_row.
  destruct (pk_is j (Task.pk x)) eqn:Hj.
  - exists new. split.
    + apply in_map_iff. exists x. rewrite Hj. auto.
    + apply pk_is_true in Hj, Hx. rewrite Hj in Hx. inversion Hx; subst.
      apply pk_is_true. exact Hnew.
  - exists x. split; [|exact Hx]. apply in_map_iff. exists x. rewrite Hj. auto.
Qed.

Lemma Task_Model_save_effect self db r db' :
  Task_Model_save self db = (r, db') ->
  DB.roles db' = DB.roles db /\ DB.items db' = DB.items db
  /\ DB.timelogs db' = DB.timelogs db
  /\ forall k, task_exists k db = true -> task_exists k db' = true.
Proof.
  unfold Task_Model_save. destruct (Task.pk self) as [j|] eqn:Hpk.
  - destruct (task_exists j db); intros H; inversion H; subst; simpl;
      repeat split; intros k Hk; unfold task_exists in *; simpl.
    + apply task_exists_update_row; assumption.
    + rewrite existsb_app, Hk. reflexivity.
  - intros H; inversion H; subst; simpl. repeat split.
    intros k Hk. unfold task_exists in *. simpl.
    rewrite existsb_app, Hk. reflexivity.
Qed.

Lemma TaskRole_objects_create_effect task user role db r db' :
  TaskRole_objects_create task user role db = (r, db') ->
  db' = db
  \/ exists t row,
       Task.pk task = Some t
       /\ row = TaskRole.mk (Some (DB.next_role db)) t user role
       /\ task_exists t db = true
       /\ existsb (same_triple row) (DB.roles db) = false
       /\ db' = set_roles (DB.roles db ++ [row]) (DB.next_role db + 1) db.
Proof.
  unfold TaskRole_objects_create. destruct (Task.pk task) as [t|].
  - destruct (task_exists t db) eqn:Ht; simpl.
    + destruct (user_exists user db); simpl.
      * destruct (existsb _ (DB.roles db)) eqn:Hex; intros H; inversion H; subst;
          [left; reflexivity|]. right. do 2 eexists. repeat split; eauto.
      * intros H; inversion H; auto.
    + intros H; inversion H; auto.
  - intros H; inversion H; auto.
Qed.

Lemma TaskItem_save_effect now kwargs self db r db' :
  SaveKwargs.update_fields kwargs = None ->
  TaskItem_save now kwargs self db = (r, db') ->
  DB.tasks db' = DB.tasks db /\ DB.roles db' = DB.roles db
  /\ DB.timelogs db' = DB.timelogs db
  /\ (db' = db
      \/ exists saved,
           r = Ok saved /\ completed_at_consistent saved
           /\ task_exists (TaskItem.task saved) db = true
           /\ forall x, In x (DB.items db') -> In x (DB.items db) \/ x = saved).
Proof.
  intros Hnone Hrun. unfold TaskItem_save in Hrun.
  apply (TaskItem_Model_save_kwargs_whole _ _ _ _ _ Hnone) in Hrun.
  destruct Hrun as [[-> _]|Hrun]; [auto|].
  revert Hrun. unfold TaskItem_Model_save.
  set (inst := TaskItem_set_completed_at now self).
  assert (Hcons : completed_at_consistent inst)
    by apply set_completed_at_consistent.
  destruct (TaskItem_fk_ok inst db) eqn:Hfk; simpl.
  - assert (Htask : task_exists (TaskItem.task inst) db = true).
    { unfold TaskItem_fk_ok in Hfk. apply andb_true_iff in Hfk. apply Hfk. }
    destruct (TaskItem.pk inst) as [k|].
    + destruct (item_exists k db); intros H; inversion H; subst; simpl;
        (split; [reflexivity|split; [reflexivity|split; [reflexivity|]]]);
        right; exists inst;
        (split; [reflexivity|split; [exact Hcons|split; [exact Htask|]]]);
        intros x Hx.
      * apply In_update_row in Hx. exact Hx.
      * apply in_app_or in Hx. destruct Hx as [Hx|[Hx|[]]]; auto.
    + intros H; inversion H; subst; simpl.
      split; [reflexivity|split; [reflexivity|split; [reflexivity|]]].
      right. exists (TaskItem.with_pk (DB.next_item db) inst).
      split; [reflexivity|split; [exact Hcons|split; [exact Htask|]]].
      intros x Hx. apply in_app_or in Hx. destruct Hx as [Hx|[Hx|[]]]; auto.
  - intros H; inversion H; subst. auto.
Qed.

Lemma TimeLog_Model_save_effect self db r db' :
  TimeLog_Model_save self db = (r, db') ->
  DB.tasks db' = DB.tasks db /\ DB.roles db' = DB.roles db
  /\ DB.items db' = DB.items db.
Proof.
  unfold TimeLog_Model_save. destruct (negb _).
  - intros H; inversion H; auto.
  - destruct (TimeLog.pk self) as [k|]; [destruct (existsb _ _)|];
      intros H; inversion H; subst; simpl; auto.
Qed.

Lemma TimeLog_Model_save_kwargs_effect kwargs self db r db' :
  TimeLog_Model_save_kwargs kwargs self db = (r, db') ->
  DB.tasks db' = DB.tasks db /\ DB.roles db' = DB.roles db
  /\ DB.items db' = DB.items db.
Proof.
  intros Hrun.
  destruct (SaveKwargs.update_fields kwargs) as [fields|] eqn:Hfields.
  - destruct (TimeLog_Model_save_kwargs_fields _ _ _ _ _ _ Hfields Hrun)
      as [[-> _]|[_ (k & _ & ->)]]; auto.
  - destruct (TimeLog_Model_save_kwargs_whole _ _ _ _ _ Hfields Hrun)
      as [[-> _]|Hwhole]; [auto|].
    apply TimeLog_Model_save_effect in Hwhole. exact Hwhole.
Qed.

Lemma NoDup_snoc {A} (l : list A) (x : A) :
  List.NoDup l -> ~ In x l -> List.NoDup (l ++ [x]).
Proof.
  induction l as [|y rest IH]; simpl; intros Hnd Hx.
  - constructor; [intros []|constructor].
  - inversion Hnd as [|? ? Hy Hnd']; subst. constructor.
    + intros Hin. apply in_app_or in Hin. destruct Hin as [Hin|[Hin|[]]].
      * contradiction.
      * subst. apply Hx. left. reflexivity.
    + apply IH; [exact Hnd'|]. intros Hin. apply Hx. right. exact Hin.
Qed.

(** X15.  No two role rows share task, user and role: this holds of the
    empty database and is kept by task creation, the status update,
    [destroy], [add_role], [remove_role], [add_item], the update and
    deletion of an item and [TimeLog.save], whether they succeed or
    raise. *)
Theorem role_triples_stay_unique :
  (forall users, unique_role_triples (DB.empty users))
  /\ every_action_preserves unique_role_triples.
Proof.
  split.
  { intros users. unfold unique_role_triples. simpl. constructor. }
  apply actions_preserve. unfold unique_role_triples. constructor.
  - intros title description db r db' HP H.
    apply Task_objects_create_effect in H. destruct H as (-> & _). exact HP.
  - intros self db r db' HP H.
    apply Task_Model_save_effect in H. destruct H as (-> & _). exact HP.
  - intros self db r db' HP H. unfold Task_delete in H.
    destruct (Task.pk self); inversion H; subst; [|exact HP]. simpl.
    apply NoDup_map_filter. exact HP.
  - intros task user role db r db' HP H.
    apply TaskRole_objects_create_effect in H.
    destruct H as [->|(t & row & _ & Hrow & _ & Hnone & ->)]; [exact HP|].
    simpl. rewrite map_app. simpl. apply NoDup_snoc; [exact HP|].
    intros Hin. apply in_map_iff in Hin. destruct Hin as [x [Heq Hx]].
    rewrite existsb_false_iff in Hnone. specialize (Hnone x Hx).
    assert (Hsame : same_triple row x = true).
    { apply same_triple_true. unfold role_triple in Heq.
      inversion Heq. auto. }
    congruence.
  - intros self db r db' HP H. unfold TaskRole_delete in H.
    destruct (TaskRole.pk self); inversion H; subst; [|exact HP]. simpl.
    apply NoDup_map_filter. exact HP.
  - intros now kwargs self Hwhole db r db' HP H.
    apply (TaskItem_save_effect _ _ _ _ _ _ Hwhole) in H.
    destruct H as (_ & -> & _). exact HP.
  - intros self db r db' HP H. unfold TaskItem_delete in H.
    destruct (TaskItem.pk self); inversion H; subst; exact HP.
  - intros kwargs self db r db' HP H.
    apply TimeLog_Model_save_kwargs_effect in H.
    destruct H as (_ & -> & _). exact HP.
Qed.

Lemma Forall_filter_keeps {A} (P : A -> Prop) (f : A -> bool) (l : list A) :
  Forall P l -> Forall P (List.filter f l).
Proof.
  intros H. apply List.Forall_forall. intros x Hx. apply filter_In in Hx.
  rewrite List.Forall_forall in H. apply H. apply Hx.
Qed.

(** X16.  No stored item has a [completed_at] that disagrees with its
    status: this holds of the empty database and is kept by task creation,
    the status update, [destroy], [add_role], [remove_role], [add_item],
    the update and deletion of an item and [TimeLog.save], as each of
    them writes items through [TaskItem.save] only. *)
Theorem items_stay_consistent :
  (forall users, items_consistent (DB.empty users))
  /\ every_action_preserves items_consistent.
Proof.
  split.
  { intros users. unfold items_consistent. simpl. constructor. }
  apply actions_preserve. unfold items_consistent. constructor.
  - intros title description db r db' HP H.
    apply Task_objects_create_effect in H. destruct H as (_ & -> & _). exact HP.
  - intros self db r db' HP H.
    apply Task_Model_save_effect in H. destruct H as (_ & -> & _). exact HP.
  - intros self db r db' HP H. unfold Task_delete in H.
    destruct (Task.pk self); inversion H; subst; [|exact HP]. simpl.
    apply Forall_filter_keeps. exact HP.
  - intros task user role db r db' HP H.
    apply TaskRole_objects_create_effect in H.
    destruct H as [->|(t & row & _ & _ & _ & _ & ->)]; exact HP.
  - intros self db r db' HP H. unfold TaskRole_delete in H.
    destruct (TaskRole.pk self); inversion H; subst; exact HP.
  - intros now kwargs self Hwhole db r db' HP H.
    apply (TaskItem_save_effect _ _ _ _ _ _ Hwhole) in H.
    destruct H as (_ & _ & _ & [->|(saved & _ & Hcons & _ & Hrows)]);
      [exact HP|].
    apply List.Forall_forall. intros x Hx.
    destruct (Hrows x Hx) as [Hold| ->]; [|exact Hcons].
    rewrite List.Forall_forall in HP. apply HP. exact Hold.
  - intros self db r db' HP H. unfold TaskItem_delete in H.
    destruct (TaskItem.pk self); inversion H; subst; [|exact HP]. simpl.
    apply Forall_filter_keeps. exact HP.
  - intros kwargs self db r db' HP H.
    apply TimeLog_Model_save_kwargs_effect in H.
    destruct H as (_ & _ & ->). exact HP.
Qed.

Lemma task_exists_after_delete j k db :
  j <> k -> task_exists j db = true ->
  existsb (fun x => pk_is j (Task.pk x))
          (List.filter (fun t => negb (pk_is k (Task.pk t))) (DB.tasks db)) = true.
Proof.
  intros Hne. unfold task_exists. rewrite !existsb_exists.
  intros [x [Hin Hx]]. exists x. split; [|exact Hx].
  apply filter_In. split; [exact Hin|].
  destruct (pk_is k (Task.pk x)) eqn:Hk; [|reflexivity].
  apply pk_is_true in Hx, Hk. congruence.
Qed.

(** X17.  No role and no item is left without its task: this holds of the
    empty database and is kept by task creation, the status update,
    [destroy], [add_role], [remove_role], [add_item], the update and
    deletion of an item and [TimeLog.save], as inserts are checked by the
    database and deleting a task takes its roles and items with it. *)
Theorem children_keep_their_task :
  (forall users, children_have_task (DB.empty users))
  /\ every_action_preserves children_have_task.
Proof.
  split.
  { intros users. unfold children_have_task. simpl. split; intros x []. }
  apply actions_preserve. unfold children_have_task. constructor.
  - intros title description db r db' [HR HI] H.
    apply Task_objects_create_effect in H. destruct H as (Hr & Hi & _ & Hmono).
    rewrite Hr, Hi. split; intros x Hx; apply Hmono; auto.
  - intros self db r db' [HR HI] H.
    apply Task_Model_save_effect in H. destruct H as (Hr & Hi & _ & Hmono).
    rewrite Hr, Hi. split; intros x Hx; apply Hmono; auto.
  - intros self db r db' [HR HI] H. unfold Task_delete in H.
    destruct (Task.pk self) as [k|]; inversion H; subst; [|auto].
    unfold task_exists. simpl. split; intros x Hx; apply filter_In in Hx;
      destruct Hx as [Hx Hne]; apply negb_true_iff, Z.eqb_neq in Hne;
      apply task_exists_after_delete; auto.
  - intros task user role db r db' [HR HI] H.
    apply TaskRole_objects_create_effect in H.
    destruct H as [->|(t & row & _ & Hrow & Ht & _ & ->)]; [auto|].
    unfold task_exists in *. simpl. split; [|exact HI].
    intros x Hx. apply in_app_or in Hx. destruct Hx as [Hx|[<-|[]]]; [auto|].
    rewrite Hrow. simpl. exact Ht.
  - intros self db r db' [HR HI] H. unfold TaskRole_delete in H.
    destruct (TaskRole.pk self); inversion H; subst; [|auto].
    unfold task_exists in *. simpl. split; [|exact HI].
    intros x Hx. apply filter_In in Hx. apply HR. apply Hx.
  - intros now kwargs self Hwhole db r db' [HR HI] H.
    apply (TaskItem_save_effect _ _ _ _ _ _ Hwhole) in H.
    destruct H as (Ht & Hr & _ & [->|(saved & _ & _ & Hex & Hrows)]); [auto|].
    unfold task_exists in *. rewrite Ht, Hr. split; [exact HR|].
    intros x Hx. destruct (Hrows x Hx) as [Hold| ->]; auto.
  - intros self db r db' [HR HI] H. unfold TaskItem_delete in H.
    destruct (TaskItem.pk self); inversion H; subst; [|auto].
    unfold task_exists in *. simpl. split; [exact HR|].
    intros x Hx. apply filter_In in Hx. apply HI. apply Hx.
  - intros kwargs self db r db' [HR HI] H.
    apply TimeLog_Model_save_kwargs_effect in H. destruct H as (Ht & Hr & Hi).
    unfold task_exists in *. rewrite Ht, Hr, Hi. auto.
Qed.

(* --------------------------------------------------------------------- *)
(** ** Deleting a task *)
(* --------------------------------------------------------------------- *)

Lemma filter_none {A} (f : A -> bool) (l : list A) :
  (forall x, In x l -> f x = false) -> List.filter f l = [].
Proof.
  induction l as [|x rest IH]; simpl; intros H; [reflexivity|].
  rewrite (H x (or_introl eq_refl)). apply IH. intros y Hy. apply H. auto.
Qed.

(** X18.  A successful [destroy] removes the task together with all of its
    roles, its items and the time logs booked on the task or on one of
    its items, and removes nothing else: users, the other tasks and the
    roles and items of the other tasks stay as they were. *)
Theorem destroy_cascades (filterset : DB.t -> Task.t -> bool)
    (request : Request.t) (pk : Z) (db db' : DB.t) :
  TaskViewSet_destroy filterset request pk db = (Ok tt, db') ->
  (task_exists pk db' = false
   /\ roles_of pk db' = []
   /\ items_of pk db' = []
   /\ timelogs_of_task pk db' = []
   /\ forall i k, In i (DB.items db) -> TaskItem.task i = pk ->
                  TaskItem.pk i = Some k -> timelogs_of_item k db' = [])
  /\ (DB.users db' = DB.users db
      /\ (forall t, In t (DB.tasks db) -> Task.pk t <> Some pk ->
                    In t (DB.tasks db'))
      /\ (forall r, In r (DB.roles db) -> TaskRole.task r <> pk ->
                    In r (DB.roles db'))
      /\ (forall i, In i (DB.items db) -> TaskItem.task i <> pk ->
                    In i (DB.items db'))).
Proof.
  unfold TaskViewSet_destroy, bind. intros Hrun.
  destruct (get_object _ _ _ _ db) as [[t|e] db1] eqn:Hget; [|discriminate].
  apply get_object_ok in Hget. destruct Hget as (-> & _ & Hpk & _).
  unfold Task_delete in Hrun. rewrite Hpk in Hrun.
  inversion Hrun; subst; clear Hrun. split.
  - unfold task_exists, roles_of, items_of, timelogs_of_task, timelogs_of_item.
    simpl. repeat split.
    + apply existsb_false_iff. intros x Hx. apply filter_In in Hx.
      apply negb_true_iff. apply Hx.
    + apply filter_none. intros x Hx. apply filter_In in Hx.
      apply negb_true_iff. apply Hx.
    + apply filter_none. intros x Hx. apply filter_In in Hx.
      apply negb_true_iff. apply Hx.
    + apply filter_none. intros x Hx. apply filter_In in Hx.
      destruct Hx as [_ Hx]. apply negb_true_iff, orb_false_iff in Hx.
      apply Hx.
    + intros i k Hin Htask Hk. apply filter_none. intros l Hl.
      apply filter_In in Hl. destruct Hl as [_ Hl].
      apply negb_true_iff, orb_false_iff in Hl. destruct Hl as [_ Hl].
      rewrite existsb_false_iff in Hl.
      assert (Hi : In i (List.filter (fun i => TaskItem.task i =? pk)
                                     (DB.items db))).
      { apply filter_In. split; [exact Hin | apply Z.eqb_eq; exact Htask]. }
      specialize (Hl i Hi). rewrite Hk in Hl. simpl in Hl.
      rewrite andb_true_r in Hl.
      destruct (pk_is k (TimeLog_task_item_id l)) eqn:Hp; [|reflexivity].
      apply pk_is_true in Hp. rewrite Hp in Hl. simpl in Hl.
      rewrite Z.eqb_refl in Hl. discriminate.
  - simpl. repeat split.
    + intros x Hx Hne. apply filter_In. split; [exact Hx|].
      apply negb_true_iff. destruct (pk_is _ _) eqn:Hp; [|reflexivity].
      apply pk_is_true in Hp. contradiction.
    + intros x Hx Hne. apply filter_In. split; [exact Hx|].
      apply negb_true_iff, Z.eqb_neq. exact Hne.
    + intros x Hx Hne. apply filter_In. split; [exact Hx|].
      apply negb_true_iff, Z.eqb_neq. exact Hne.
Qed.

Lemma destroy_cascades_witness :
  task_exists 1 (snd (TaskViewSet_destroy Fixture.all_tasks
                        (Request.mk Fixture.user1 "DELETE" []) 1 Fixture.db1))
  = false.
Proof.
  apply (destroy_cascades Fixture.all_tasks
           (Request.mk Fixture.user1 "DELETE" []) 1 Fixture.db1).
  vm_compute. reflexivity.
Defined.

(* --------------------------------------------------------------------- *)
(** ** Updating and deleting an item *)
(* --------------------------------------------------------------------- *)

Lemma item_get_object_ok (item_filterset : DB.t -> TaskItem.t -> bool) perms
    request pk db i db1 :
  item_get_object item_filterset perms request pk db = (Ok i, db1) ->
  db1 = db
  /\ In i (DB.items db)
  /\ TaskItem.pk i = Some pk
  /\ item_visible_to (Request.user_id request) db i = true
  /\ forallb (fun p => p request i db) perms = true.
Proof.
  unfold item_get_object.
  destruct (List.find _ _) as [x|] eqn:Hfind; [|discriminate].
  destruct (forallb _ perms) eqn:Hperm; [|discriminate].
  intros H. inversion H; subst.
  apply find_some in Hfind. destruct Hfind as [Hin Hpk].
  apply pk_is_true in Hpk. apply filter_In in Hin. destruct Hin as [Hin _].
  unfold TaskItemViewSet_get_queryset in Hin. apply filter_In in Hin.
  destruct Hin as [Hin Hvis]. auto.
Qed.

Lemma item_get_object_raises (item_filterset : DB.t -> TaskItem.t -> bool)
    perms request pk db e db1 :
  item_get_object item_filterset perms request pk db = (Raise e, db1) ->
  db1 = db /\ (e = Http404 \/ e = PermissionDenied).
Proof.
  unfold item_get_object.
  destruct (List.find _ _) as [x|]; [destruct (forallb _ perms)|];
    intros H; inversion H; auto.
Qed.

(** A patch that names no field but [status] leaves the other columns. *)
Lemma apply_patch_status_only (p : ItemPatch.t) (keys : list string)
    (i : TaskItem.t) :
  patch_within p keys ->
  (forall k, In k keys -> k = "status") ->
  apply_patch p i
  = TaskItem.mk (TaskItem.pk i) (TaskItem.task i) (TaskItem.title i)
      (TaskItem.description i) (TaskItem.executor i)
      (pop (ItemPatch.status p) (TaskItem.status i))
      (TaskItem.planned_hours i) (TaskItem.order i) (TaskItem.completed_at i).
Proof.
  intros (Ht & Hd & He & _ & Hh & Ho) Hkeys. unfold apply_patch.
  destruct (ItemPatch.title p).
  { assert (H : "title" = "status") by (apply Hkeys, Ht; discriminate).
    discriminate. }
  destruct (ItemPatch.description p).
  { assert (H : "description" = "status") by (apply Hkeys, Hd; discriminate).
    discriminate. }
  destruct (ItemPatch.executor_id p).
  { assert (H : "executor_id" = "status") by (apply Hkeys, He; discriminate).
    discriminate. }
  destruct (ItemPatch.planned_hours p).
  { assert (H : "planned_hours" = "status") by (apply Hkeys, Hh; discriminate).
    discriminate. }
  destruct (ItemPatch.order p).
  { assert (H : "order" = "status") by (apply Hkeys, Ho; discriminate).
    discriminate. }
  reflexivity.
Qed.

Lemma set_completed_at_columns now self :
  TaskItem.title (TaskItem_set_completed_at now self) = TaskItem.title self
  /\ TaskItem.description (TaskItem_set_completed_at now self)
     = TaskItem.description self
  /\ TaskItem.planned_hours (TaskItem_set_completed_at now self)
     = TaskItem.planned_hours self
  /\ TaskItem.order (TaskItem_set_completed_at now self) = TaskItem.order self
  /\ TaskItem.status (TaskItem_set_completed_at now self) = TaskItem.status self.
Proof.
  unfold TaskItem_set_completed_at.
  destruct (_ && _); [simpl; auto|]. destruct (_ && _); simpl; auto 6.
Qed.

(** X19.  Through [update] and [partial_update] a user who is neither staff nor
    the assigner of the item's task changes nothing but the status of an
    item of their own: when the call succeeds the user is the item's
    executor, the stored row has the key, task, title, description,
    executor, planned hours and order it had, and its [completed_at] agrees
    with its new status.  DRF's validated data names only fields whose key
    is in the body, which is what is asked of the validation. *)
Theorem executor_update_changes_status_only
    (item_filterset : DB.t -> TaskItem.t -> bool)
    (validate : bool -> list (string * json) -> ItemPatch.t + list string)
    (partial : bool) (now : Z) (request : Request.t) (pk : Z)
    (db db' : DB.t) (saved : TaskItem.t) :
  User.is_staff (Request.user request) = false ->
  (forall i, In i (DB.items db) -> TaskItem.pk i = Some pk ->
             ~ holds_assigner_role (TaskItem.task i) (Request.user_id request) db) ->
  (forall p, validate partial (Request.data request) = inl p ->
             patch_within p (map fst (Request.data request))) ->
  TaskItemViewSet_update item_filterset validate partial now request pk db
  = (Ok (HTTP_200_item saved), db') ->
  exists item,
    In item (DB.items db)
    /\ TaskItem.pk item = Some pk
    /\ TaskItem.executor item = Some (Request.user_id request)
    /\ In saved (DB.items db')
    /\ TaskItem.pk saved = Some pk
    /\ TaskItem.task saved = TaskItem.task item
    /\ TaskItem.title saved = TaskItem.title item
    /\ TaskItem.description saved = TaskItem.description item
    /\ TaskItem.executor saved = TaskItem.executor item
    /\ TaskItem.planned_hours saved = TaskItem.planned_hours item
    /\ TaskItem.order saved = TaskItem.order item
    /\ completed_at_consistent saved.
Proof.
  intros Hstaff Hna Hvalid Hrun. unfold TaskItemViewSet_update in Hrun.
  apply bind_ok in Hrun. destruct Hrun as (item & db1 & Hget & Hrun).
  apply item_get_object_ok in Hget.
  destruct Hget as (-> & Hin & Hpk & _ & Hperm).
  assert (Hp : IsTaskItemExecutorOrAssigner_has_object_permission request item db
               = true).
  { destruct partial; simpl in Hperm; apply andb_true_iff in Hperm;
      apply Hperm. }
  apply IsTaskItemExecutorOrAssigner_iff in Hp.
  destruct Hp as [Hp|[Hp|(Hexec & _ & Hkeys)]];
    [congruence | exfalso; exact (Hna item Hin Hpk Hp) |].
  destruct (validate partial (Request.data request)) as [p|errors] eqn:Hv;
    [|discriminate].
  apply bind_ok in Hrun. destruct Hrun as (saved0 & db2 & Hsave & Hret).
  unfold ret in Hret. inversion Hret; subst saved0 db2; clear Hret.
  unfold TaskItemSerializer_update in Hsave.
  rewrite TaskItem_save_none in Hsave.
  rewrite (apply_patch_status_only p _ item (Hvalid p eq_refl) Hkeys) in Hsave.
  set (new := TaskItem.mk _ _ _ _ _ _ _ _ _) in Hsave.
  pose proof (set_completed_at_fk now new) as (Ht & He & Hk).
  pose proof (set_completed_at_columns now new) as (H1 & H2 & H3 & H4 & _).
  pose proof (set_completed_at_consistent now new) as Hcons.
  pose proof (TaskItem_Model_save_ok _ _ _ _ Hsave) as (_ & Hstored & _).
  assert (Hsaved : saved = TaskItem_set_completed_at now new).
  { unfold TaskItem_Model_save in Hsave.
    destruct (negb _); [discriminate|]. rewrite Hk in Hsave. simpl in Hsave.
    rewrite Hpk in Hsave.
    destruct (item_exists pk db); inversion Hsave; reflexivity. }
  exists item. rewrite Hsaved in *.
  rewrite Ht, He, Hk, H1, H2, H3, H4. simpl.
  repeat split; auto; apply Hcons.
Qed.

Lemma executor_update_changes_status_only_witness :
  exists item,
    In item (DB.items Fixture.db1)
    /\ TaskItem.pk item = Some 2
    /\ TaskItem.executor item = Some 2
    /\ In (TaskItem.mk (Some 2) 1 "b" "" (Some 2) "todo" 0 1 None)
          (DB.items
             (snd (TaskItemViewSet_update (fun _ _ => true)
                     (fun _ data =>
                        match data_get "status" data with
                        | Some (JStr s) =>
                            inl (ItemPatch.mk None None None (Some s) None None)
                        | _ => inl (ItemPatch.mk None None None None None None)
                        end)
                     true 2000
                     (Request.mk Fixture.user2 "PATCH" [("status", JStr "todo")])
                     2 Fixture.db1)))
    /\ TaskItem.pk (TaskItem.mk (Some 2) 1 "b" "" (Some 2) "todo" 0 1 None)
       = Some 2
    /\ TaskItem.task (TaskItem.mk (Some 2) 1 "b" "" (Some 2) "todo" 0 1 None)
       = TaskItem.task item
    /\ TaskItem.title (TaskItem.mk (Some 2) 1 "b" "" (Some 2) "todo" 0 1 None)
       = TaskItem.title item
    /\ TaskItem.description
         (TaskItem.mk (Some 2) 1 "b" "" (Some 2) "todo" 0 1 None)
       = TaskItem.description item
    /\ TaskItem.executor
         (TaskItem.mk (Some 2) 1 "b" "" (Some 2) "todo" 0 1 None)
       = TaskItem.executor item
    /\ TaskItem.planned_hours
         (TaskItem.mk (Some 2) 1 "b" "" (Some 2) "todo" 0 1 None)
       = TaskItem.planned_hours item
    /\ TaskItem.order (TaskItem.mk (Some 2) 1 "b" "" (Some 2) "todo" 0 1 None)
       = TaskItem.order item
    /\ completed_at_consistent
         (TaskItem.mk (Some 2) 1 "b" "" (Some 2) "todo" 0 1 None).
Proof.
  apply (executor_update_changes_status_only (fun _ _ => true)
           (fun _ data =>
              match data_get "status" data with
              | Some (JStr s) =>
                  inl (ItemPatch.mk None None None (Some s) None None)
              | _ => inl (ItemPatch.mk None None None None None None)
              end)
           true 2000
           (Request.mk Fixture.user2 "PATCH" [("status", JStr "todo")])
           2 Fixture.db1).
  - reflexivity.
  - intros i Hin Hpk [r (Hr & _ & Hu & Hrole)]. vm_compute in Hr.
    repeat (destruct Hr as [<-|Hr]; [discriminate|]). destruct Hr.
  - intros p Hp. vm_compute in Hp. inversion Hp; subst.
    unfold patch_within. simpl. repeat split; intros H; try congruence.
    left. reflexivity.
  - vm_compute. reflexivity.
Defined.

(** X20.  Deleting an item is the assigner's: for a user who is neither staff
    nor the assigner of the item's task, [destroy] raises [Http404] or
    [PermissionDenied] and leaves the database as it was, even on an item
    the user executes. *)
Theorem item_destroy_needs_assigner
    (item_filterset : DB.t -> TaskItem.t -> bool)
    (request : Request.t) (pk : Z) (db : DB.t) :
  User.is_staff (Request.user request) = false ->
  Request.method request = "DELETE" ->
  (forall i, In i (DB.items db) -> TaskItem.pk i = Some pk ->
             ~ holds_assigner_role (TaskItem.task i) (Request.user_id request) db) ->
  exists e,
    TaskItemViewSet_destroy item_filterset request pk db = (Raise e, db)
    /\ (e = Http404 \/ e = PermissionDenied).
Proof.
  intros Hstaff Hmethod Hna. unfold TaskItemViewSet_destroy, bind.
  destruct (item_get_object _ _ _ _ db) as [[i|e] db1] eqn:Hget.
  - exfalso. apply item_get_object_ok in Hget.
    destruct Hget as (-> & Hin & Hpk & _ & Hperm).
    simpl in Hperm. apply andb_true_iff in Hperm. destruct Hperm as [Hp _].
    apply IsTaskItemExecutorOrAssigner_iff in Hp.
    destruct Hp as [Hp|[Hp|(_ & [Hm|Hm] & _)]]; try congruence.
    exact (Hna i Hin Hpk Hp).
  - apply item_get_object_raises in Hget. destruct Hget as [-> He].
    exists e. auto.
Qed.

Lemma item_destroy_needs_assigner_witness :
  exists e,
    TaskItemViewSet_destroy (fun _ _ => true)
      (Request.mk Fixture.user2 "DELETE" []) 2 Fixture.db1
    = (Raise e, Fixture.db1)
    /\ (e = Http404 \/ e = PermissionDenied).
Proof.
  apply (item_destroy_needs_assigner (fun _ _ => true)
           (Request.mk Fixture.user2 "DELETE" []) 2 Fixture.db1).
  - reflexivity.
  - reflexivity.
  - intros i Hin Hpk [r (Hr & _ & Hu & Hrole)]. vm_compute in Hr.
    repeat (destruct Hr as [<-|Hr]; [discriminate|]). destruct Hr.
Defined.

(* --------------------------------------------------------------------- *)
(** ** [add_item] *)
(* --------------------------------------------------------------------- *)

(** X21.  When [add_item] answers, it answers 201 or 400.  On 201 exactly one
    row was appended to the items: it belongs to the task of the URL, has
    a fresh key, carries the validated entries with the column defaults
    for the absent ones ([status] ['todo'], [order] 0), and its
    [completed_at] agrees with its status; the answer is that row.  On 400
    the validation failed and nothing was stored. *)
Theorem add_item_outcomes (filterset : DB.t -> Task.t -> bool)
    (validate : bool -> list (string * json) -> ItemPatch.t + list string)
    (now : Z) (request : Request.t) (pk : Z) (db db' : DB.t)
    (response : ItemResponse) :
  TaskViewSet_add_item filterset validate now request pk db = (Ok response, db') ->
  match response with
  | HTTP_201_item item =>
      exists p,
        validate false (Request.data request) = inl p
        /\ DB.items db' = (DB.items db ++ [item])%list
        /\ TaskItem.pk item = Some (DB.next_item db)
        /\ TaskItem.task item = pk
        /\ TaskItem.title item = pop (ItemPatch.title p) ""
        /\ TaskItem.executor item = pop (ItemPatch.executor_id p) None
        /\ TaskItem.status item = pop (ItemPatch.status p) "todo"
        /\ TaskItem.planned_hours item = pop (ItemPatch.planned_hours p) 0
        /\ TaskItem.order item = pop (ItemPatch.order p) 0%nat
        /\ completed_at_consistent item
  | HTTP_400_item errors =>
      validate false (Request.data request) = inr errors /\ db' = db
  | HTTP_200_item _ => False
  end.
Proof.
  unfold TaskViewSet_add_item. intros Hrun.
  apply bind_ok in Hrun. destruct Hrun as (task & db1 & Hget & Hrun).
  apply get_object_ok in Hget. destruct Hget as (-> & _ & Hpk & _).
  destruct (validate false (Request.data request)) as [p|errors] eqn:Hv.
  - apply bind_ok in Hrun. destruct Hrun as (item & db2 & Hcreate & Hret).
    unfold ret in Hret. inversion Hret; subst; clear Hret.
    unfold TaskItemSerializer_create in Hcreate. rewrite Hpk in Hcreate.
    rewrite TaskItem_save_create in Hcreate by reflexivity.
    set (new := TaskItem.mk _ _ _ _ _ _ _ _ _) in Hcreate.
    pose proof (set_completed_at_fk now new) as (Ht & He & Hk).
    pose proof (set_completed_at_columns now new) as (H1 & _ & H3 & H4 & H5).
    pose proof (set_completed_at_consistent now new) as Hcons.
    unfold TaskItem_Model_save in Hcreate.
    destruct (negb _); [discriminate|]. rewrite Hk in Hcreate.
    simpl in Hcreate. inversion Hcreate; subst; clear Hcreate.
    exists p. simpl. rewrite Ht, He, H1, H3, H4, H5. simpl.
    repeat split; auto; apply Hcons.
  - unfold ret in Hrun. inversion Hrun; subst. auto.
Qed.

Lemma add_item_outcomes_witness :
  exists p,
    (fun (_ : bool) (_ : list (string * json)) =>
       @inl ItemPatch.t (list string)
         (ItemPatch.mk (Some "c") None None (Some "completed") None None))
      false [] = inl p
    /\ DB.items
         (snd (TaskViewSet_add_item Fixture.all_tasks
                 (fun _ _ =>
                    inl (ItemPatch.mk (Some "c") None None (Some "completed")
                           None None))
                 2000 (Fixture.post Fixture.user1 []) 1 Fixture.db1))
       = (DB.items Fixture.db1
          ++ [TaskItem.mk (Some 3) 1 "c" "" None "completed" 0 0 (Some 2000)])%list
    /\ TaskItem.pk
         (TaskItem.mk (Some 3) 1 "c" "" None "completed" 0 0 (Some 2000))
       = Some (DB.next_item Fixture.db1)
    /\ TaskItem.task
         (TaskItem.mk (Some 3) 1 "c" "" None "completed" 0 0 (Some 2000)) = 1
    /\ TaskItem.title
         (TaskItem.mk (Some 3) 1 "c" "" None "completed" 0 0 (Some 2000))
       = pop (ItemPatch.title p) ""
    /\ TaskItem.executor
         (TaskItem.mk (Some 3) 1 "c" "" None "completed" 0 0 (Some 2000))
       = pop (ItemPatch.executor_id p) None
    /\ TaskItem.status
         (TaskItem.mk (Some 3) 1 "c" "" None "completed" 0 0 (Some 2000))
       = pop (ItemPatch.status p) "todo"
    /\ TaskItem.planned_hours
         (TaskItem.mk (Some 3) 1 "c" "" None "completed" 0 0 (Some 2000))
       = pop (ItemPatch.planned_hours p) 0
    /\ TaskItem.order
         (TaskItem.mk (Some 3) 1 "c" "" None "completed" 0 0 (Some 2000))
       = pop (ItemPatch.order p) 0%nat
    /\ completed_at_consistent
         (TaskItem.mk (Some 3) 1 "c" "" None "completed" 0 0 (Some 2000)).
Proof.
  apply (add_item_outcomes Fixture.all_tasks
           (fun _ _ =>
              inl (ItemPatch.mk (Some "c") None None (Some "completed")
                     None None))
           2000 (Fixture.post Fixture.user1 []) 1 Fixture.db1 _
           (HTTP_201_item
              (TaskItem.mk (Some 3) 1 "c" "" None "completed" 0 0 (Some 2000)))).
  vm_compute. reflexivity.
Defined.

(* --------------------------------------------------------------------- *)
(** ** The item counters of the task list *)
(* --------------------------------------------------------------------- *)

Lemma filter_split_length {A} (f : A -> bool) (l : list A) :
  (length (List.filter f l) + length (List.filter (fun x => negb (f x)) l)
   = length l)%nat.
Proof.
  induction l as [|x rest IH]; simpl; [reflexivity|].
  destruct (f x); simpl; lia.
Qed.

(** X22.  The two counters of [TaskListSerializer] against the check of
    [TaskUpdateSerializer]: the completed items are never more than the
    items, the number in the refusal message is their difference, and
    ['completed'] is accepted exactly when the two counters agree. *)
Theorem item_counters_decide_completion (task : Task.t) (db : DB.t) :
  (TaskListSerializer_get_completed_items_count task db
   <= TaskListSerializer_get_task_items_count task db)%nat
  /\ (length (incomplete_items task db)
      = TaskListSerializer_get_task_items_count task db
        - TaskListSerializer_get_completed_items_count task db)%nat
  /\ (TaskUpdateSerializer_validate_status (Some task) "completed" db
      = (Ok "completed", db)
      <-> TaskListSerializer_get_completed_items_count task db
          = TaskListSerializer_get_task_items_count task db)
  /\ (TaskListSerializer_get_completed_items_count task db
      <> TaskListSerializer_get_task_items_count task db ->
      TaskUpdateSerializer_validate_status (Some task) "completed" db
      = (Raise (ValidationError
                  [incomplete_items_msg
                   ++ Py.str_of_nat
                        (TaskListSerializer_get_task_items_count task db
                         - TaskListSerializer_get_completed_items_count task db)]),
         db)).
Proof.
  unfold TaskListSerializer_get_completed_items_count,
    TaskListSerializer_get_task_items_count, incomplete_items.
  pose proof (filter_split_length is_completed (Task_items task db)) as Hsplit.
  assert (Hlen : (length (List.filter (fun i => negb (is_completed i))
                            (Task_items task db))
                  = length (Task_items task db)
                    - length (List.filter is_completed (Task_items task db)))%nat)
    by lia.
  split; [lia|]. split; [exact Hlen|].
  unfold TaskUpdateSerializer_validate_status. rewrite String.eqb_refl.
  rewrite <- Hlen.
  destruct (List.filter (fun i => negb (is_completed i)) (Task_items task db))
    as [|x rest] eqn:Hf; simpl in *.
  - split; [split; [intros _; lia | reflexivity]|]. intros Hne. lia.
  - split; [split; [discriminate | intros Heq; lia]|]. reflexivity.
Qed.

Lemma item_counters_decide_completion_witness :
  TaskUpdateSerializer_validate_status (Some Fixture.task1) "completed"
    Fixture.db1
  = (Raise (ValidationError
              [incomplete_items_msg
               ++ Py.str_of_nat
                    (TaskListSerializer_get_task_items_count Fixture.task1
                       Fixture.db1
                     - TaskListSerializer_get_completed_items_count
                         Fixture.task1 Fixture.db1)]),
     Fixture.db1).
Proof.
  apply (item_counters_decide_completion Fixture.task1 Fixture.db1).
  vm_compute. discriminate.
Defined.


(* --------------------------------------------------------------------- *)
(** ** [UserManager.create_superuser] *)
(* --------------------------------------------------------------------- *)

Lemma kw_get_setdefault_same key value kw :
  kw_get key (kw_setdefault key value kw)
  = match kw_get key kw with Some v => Some v | None => Some value end.
Proof.
  unfold kw_setdefault, kw_get. destruct (kw !! key) as [v|] eqn:Hget.
  - exact Hget.
  - apply lookup_insert_eq.
Qed.

Lemma kw_get_setdefault_other key key' value kw :
  key' <> key ->
  kw_get key (kw_setdefault key' value kw) = kw_get key kw.
Proof.
  intros Hne. unfold kw_setdefault, kw_get.
  destruct (kw !! key'); [reflexivity|].
  apply lookup_insert_ne. exact Hne.
Qed.

Lemma kw_setdefault_extends key value (kw : kwargs) :
  kw ⊆ kw_setdefault key value kw.
Proof.
  unfold kw_setdefault. destruct (kw !! key) eqn:Hget; [reflexivity|].
  apply insert_subseteq. exact Hget.
Qed.

Lemma is_not_True_false v : is_not_True v = false <-> v = Some (VBool true).
Proof.
  destruct v as [[|[]| |]|]; simpl; split; congruence.
Qed.

(** X23.  [create_superuser] never hands [create_user] a dictionary in which
    [is_staff] or [is_superuser] is anything but [True]: a call that
    passes another value for one of them (also [False], [None] or [1])
    raises [ValueError], whatever the email; every other call is
    [create_user] on the caller's keywords extended by the defaults, where
    both flags are [True] and [is_active] is [True] unless the caller
    passed a value, which is kept. *)
Theorem create_superuser_passes_both_flags (UserInstance : Type)
    (normalize_email : string -> string)
    (save_new_user : string -> option string -> kwargs -> result UserInstance)
    (email password : option string) (extra_fields : kwargs) :
  let given_as key v := kw_get key extra_fields = Some v in
  ((exists v, (given_as "is_staff" v \/ given_as "is_superuser" v)
              /\ v <> VBool true) ->
   UserManager_create_superuser UserInstance normalize_email save_new_user
     email password extra_fields
   = Raise ValueError)
  /\ ((forall v, given_as "is_staff" v \/ given_as "is_superuser" v ->
                 v = VBool true) ->
      exists kw : kwargs,
        UserManager_create_superuser UserInstance normalize_email save_new_user
          email password extra_fields
        = UserManager_create_user UserInstance normalize_email save_new_user
            email password kw
        /\ extra_fields ⊆ kw
        /\ kw_get "is_staff" kw = Some (VBool true)
        /\ kw_get "is_superuser" kw = Some (VBool true)
        /\ kw_get "is_active" kw
           = Some (pop (kw_get "is_active" extra_fields) (VBool true))).
Proof.
  intros given_as. unfold given_as, UserManager_create_superuser.
  set (kw1 := kw_setdefault "is_staff" (VBool true) extra_fields).
  set (kw2 := kw_setdefault "is_superuser" (VBool true) kw1).
  set (kw3 := kw_setdefault "is_active" (VBool true) kw2).
  assert (Hstaff : kw_get "is_staff" kw3
                   = match kw_get "is_staff" extra_fields with
                     | Some v => Some v | None => Some (VBool true) end).
  { unfold kw3, kw2, kw1.
    rewrite !kw_get_setdefault_other by discriminate.
    apply kw_get_setdefault_same. }
  assert (Hsuper : kw_get "is_superuser" kw3
                   = match kw_get "is_superuser" extra_fields with
                     | Some v => Some v | None => Some (VBool true) end).
  { unfold kw3, kw2, kw1.
    rewrite kw_get_setdefault_other by discriminate.
    rewrite kw_get_setdefault_same.
    rewrite kw_get_setdefault_other by discriminate. reflexivity. }
  assert (Hactive : kw_get "is_active" kw3
                    = Some (pop (kw_get "is_active" extra_fields) (VBool true))).
  { unfold kw3, kw2, kw1. rewrite kw_get_setdefault_same.
    rewrite !kw_get_setdefault_other by discriminate.
    destruct (kw_get "is_active" extra_fields); reflexivity. }
  assert (Hext : extra_fields ⊆ kw3).
  { unfold kw3, kw2, kw1.
    etrans; [apply kw_setdefault_extends|].
    etrans; apply kw_setdefault_extends. }
  rewrite Hstaff, Hsuper. split.
  - intros [v [[Hv|Hv] Hne]]; rewrite Hv.
    + destruct v as [|[]| |]; simpl; congruence.
    + destruct (is_not_True _); [reflexivity|].
      destruct v as [|[]| |]; simpl; congruence.
  - intros Hgood. exists kw3.
    assert (H1 : match kw_get "is_staff" extra_fields with
                 | Some v => Some v | None => Some (VBool true) end
                 = Some (VBool true)).
    { destruct (kw_get "is_staff" extra_fields) as [v|] eqn:Hv; [|reflexivity].
      rewrite (Hgood v (or_introl eq_refl)). reflexivity. }
    assert (H2 : match kw_get "is_superuser" extra_fields with
                 | Some v => Some v | None => Some (VBool true) end
                 = Some (VBool true)).
    { destruct (kw_get "is_superuser" extra_fields) as [v|] eqn:Hv;
        [|reflexivity].
      rewrite (Hgood v (or_intror eq_refl)). reflexivity. }
    rewrite H1, H2. simpl. rewrite Hstaff, Hsuper, H1, H2.
    repeat split; auto.
Qed.

Lemma create_superuser_passes_both_flags_witness :
  UserManager_create_superuser unit (fun e => e) (fun _ _ _ => Ok tt)
    (Some "root@example.com") None {[ "is_staff" := VInt 1 ]}
  = Raise ValueError
  /\ exists kw : kwargs,
       UserManager_create_superuser unit (fun e => e) (fun _ _ _ => Ok tt)
         (Some "root@example.com") None {[ "is_active" := VBool false ]}
       = UserManager_create_user unit (fun e => e) (fun _ _ _ => Ok tt)
           (Some "root@example.com") None kw
       /\ ({[ "is_active" := VBool false ]} : kwargs) ⊆ kw
       /\ kw_get "is_staff" kw = Some (VBool true)
       /\ kw_get "is_superuser" kw = Some (VBool true)
       /\ kw_get "is_active" kw
          = Some (pop (kw_get "is_active"
                         ({[ "is_active" := VBool false ]} : kwargs))
                      (VBool true)).
Proof.
  split.
  - apply (create_superuser_passes_both_flags unit (fun e => e)
             (fun _ _ _ => Ok tt) (Some "root@example.com") None
             {[ "is_staff" := VInt 1 ]}).
    exists (VInt 1). split; [|discriminate]. left.
    vm_compute. reflexivity.
  - apply (create_superuser_passes_both_flags unit (fun e => e)
             (fun _ _ _ => Ok tt) (Some "root@example.com") None
             {[ "is_active" := VBool false ]}).
    intros v [Hv|Hv]; vm_compute in Hv; discriminate.
Defined.

(* --------------------------------------------------------------------- *)
(** ** Retrieving an item *)
(* --------------------------------------------------------------------- *)

Lemma participant_permission_on_visible_item request db i :
  In i (DB.items db) ->
  item_visible_to (Request.user_id request) db i = true ->
  IsTaskParticipant_has_object_permission request (TaskItemObj i) db = true.
Proof.
  intros Hin Hvis. apply IsTaskParticipant_iff. right.
  exists (TaskItem.task i). split; [reflexivity|].
  apply item_visible_to_true in Hvis. destruct Hvis as [Hrole|Hexec].
  - left. exact Hrole.
  - right. exists i. auto.
Qed.

(** X24.  Retrieving an item answers with a row of the requester's item
    queryset or raises [Http404]; it never raises [PermissionDenied],
    since [IsTaskParticipant] passes every item the queryset lets through.
    The database is left as it was. *)
Theorem item_retrieve_is_found_or_missing
    (item_filterset : DB.t -> TaskItem.t -> bool)
    (request : Request.t) (pk : Z) (db : DB.t) :
  (exists i,
      TaskItemViewSet_retrieve item_filterset request pk db = (Ok i, db)
      /\ In i (TaskItemViewSet_get_queryset request db)
      /\ item_filterset db i = true
      /\ TaskItem.pk i = Some pk)
  \/ (TaskItemViewSet_retrieve item_filterset request pk db = (Raise Http404, db)
      /\ forall i, In i (TaskItemViewSet_get_queryset request db) ->
                   item_filterset db i = true -> TaskItem.pk i <> Some pk).
Proof.
  unfold TaskItemViewSet_retrieve, item_get_object.
  destruct (List.find _ _) as [i|] eqn:Hfind.
  - left. pose proof (find_some _ _ Hfind) as [Hin Hpk].
    apply pk_is_true in Hpk. apply filter_In in Hin. destruct Hin as [Hin Hf].
    exists i. simpl.
    assert (Hperm : IsTaskParticipant_has_object_permission request
                      (TaskItemObj i) db = true).
    { unfold TaskItemViewSet_get_queryset in Hin. apply filter_In in Hin.
      apply participant_permission_on_visible_item; apply Hin. }
    rewrite Hperm. auto.
  - right. split; [reflexivity|]. intros i Hin Hf Hpk.
    assert (Hin' : In i (List.filter (item_filterset db)
                           (TaskItemViewSet_get_queryset request db))).
    { apply filter_In. auto. }
    pose proof (find_none _ _ Hfind i Hin') as Hno. simpl in Hno.
    apply pk_is_true in Hpk. congruence.
Qed.
